(** * Regenesis surgery: a shallow embedding of the account-surgery scripts

    The development follows the TypeScript sources of the package
    [regenesis-surgery]: [scripts/utils.ts] (account lookup, dump reader,
    dump validator, source resolver) and [scripts/handlers.ts] (one
    transformation per account type).

    JavaScript values are modelled at the types the scripts declare for
    them.  A property that may be missing at run time is an [option]
    ([None] is [undefined]); an exception is a value of [exception], and a
    function that may raise returns a [result]. *)

From Stdlib Require Import ZArith Ascii String List Lia DecimalString.
From stdpp Require Import base option list strings gmap fin_maps.

(** ** Exceptions and the result monad *)

(** The exceptions the scripts can raise.  A [TypeError] carries the name
    of the property that was read on [undefined] (or the method that was
    called on it); the engine's wording of the message is not modelled. *)
Inductive exception : Type :=
| Error (message : string)           (* throw new Error(message) *)
| TypeError (property : string)      (* undefined.property *)
| SyntaxError                        (* JSON.parse on malformed text *)
| AssertionError (message : string)  (* assert.ok / assert.equal *)
| RpcError (message : string).       (* a rejected provider call *)

Inductive result (A : Type) : Type :=
| Return (a : A)
| Throw (e : exception).
Arguments Return {A} a.
Arguments Throw {A} e.

Global Instance result_ret : MRet result := fun A a => Return a.
Global Instance result_bind : MBind result := fun A B k r =>
  match r with
  | Return a => k a
  | Throw e => Throw e
  end.

Definition raises {A : Type} (r : result A) : Prop := exists e, r = Throw e.

(** [try { body } catch (e) { handler }] where the handler ignores [e]. *)
Definition try_catch {A : Type} (body : result A) (handler : A) : A :=
  match body with
  | Return a => a
  | Throw _ => handler
  end.

(** [for (const x of l) { f x }] for a body that may raise. *)
Fixpoint forEach {A : Type} (f : A -> result unit) (l : list A) : result unit :=
  match l with
  | [] => Return tt
  | x :: l' => _ ← f x; forEach f l'
  end.

(** A loop that threads a state through the elements, as a [let] variable
    assigned in the body of a [for] loop. *)
Fixpoint foldM {A S : Type} (f : S -> A -> result S) (s : S) (l : list A)
  : result S :=
  match l with
  | [] => Return s
  | x :: l' => s' ← f s x; foldM f s' l'
  end.

(** [Array.prototype.find] with a predicate that may raise. *)
Fixpoint findM {A : Type} (p : A -> result bool) (l : list A)
  : result (option A) :=
  match l with
  | [] => Return None
  | x :: l' => b ← p x; if b : bool then Return (Some x) else findM p l'
  end.

(** ** JavaScript strings

    Strings are sequences of ASCII characters: addresses, hashes and
    bytecode are hexadecimal text.  [slice] follows
    [String.prototype.slice] on integer arguments, negative ones counting
    from the end. *)
Module JsString.

Definition lower (c : ascii) : ascii :=
  let n := N_of_ascii c in
  if ((65 <=? n) && (n <=? 90))%N then ascii_of_N (n + 32) else c.

Fixpoint toLowerCase (s : string) : string :=
  match s with
  | EmptyString => EmptyString
  | String c s' => String (lower c) (toLowerCase s')
  end.

(** [s.startsWith(p)] *)
Definition startsWith (s p : string) : bool := String.prefix p s.

(** [s.length] *)
Definition len (s : string) : Z := Z.of_nat (String.length s).

(** The clamping of a relative index into [0 .. n]. *)
Definition clamp (n k : Z) : Z :=
  if (k <? 0)%Z then Z.max (n + k) 0 else Z.min k n.

(** [s.slice(from, to)]; [to = None] is the call with one argument. *)
Definition slice (s : string) (from : Z) (to : option Z) : string :=
  let n := len s in
  let a := clamp n from in
  let b := match to with Some t => clamp n t | None => n end in
  String.substring (Z.to_nat a) (Z.to_nat (Z.max (b - a) 0)) s.

(** [s.substr(from, count)] for a non-negative [from]. *)
Definition substr (s : string) (from count : nat) : string :=
  String.substring from count s.

(** A template literal's rendering of a string that may be undefined. *)
Definition show (o : option string) : string :=
  match o with Some s => s | None => "undefined" end.

(** A template literal's rendering of a non-negative integer. *)
Definition showNat (n : nat) : string :=
  NilZero.string_of_uint (Nat.to_uint n).

(** [needle] occurs in [s]. *)
Definition occurs_in (needle s : string) : Prop :=
  exists pre post, s = pre +:+ needle +:+ post.


End JsString.
Import JsString.

(** ** JSON values

    What [JSON.parse] returns and what [JSON.stringify] accepts.  An
    object lists its properties in enumeration order.  [JNaN] is the one
    number [parseInt] can return that JSON text cannot denote. *)
#[local] Set Warnings "-register-all".
Inductive json : Type :=
| JNull
| JBool (b : bool)
| JNumber (n : Z)
| JNaN
| JString (s : string)
| JArray (items : list json)
| JObject (properties : list (string * json)).

(** [o[k]] on the property list of an object. *)
Fixpoint obj_get {V : Type} (o : list (string * V)) (k : string) : option V :=
  match o with
  | [] => None
  | (k', v) :: o' => if String.eqb k' k then Some v else obj_get o' k
  end.

(** [o[k] = v]: an existing property keeps its place. *)
Fixpoint obj_set {V : Type} (o : list (string * V)) (k : string) (v : V)
  : list (string * V) :=
  match o with
  | [] => [(k, v)]
  | (k', v') :: o' =>
      if String.eqb k' k then (k, v) :: o' else (k', v') :: obj_set o' k v
  end.

(** [j.k] for a JSON value [j]: reading a property of [null] raises;
    a primitive or an array has no property named [k] (the scripts read
    [language] only). *)
Definition json_get (j : json) (k : string) : result (option json) :=
  match j with
  | JNull => Throw (TypeError k)
  | JObject o => Return (obj_get o k)
  | _ => Return None
  end.

(** Truthiness of a value that may be undefined. *)
Definition truthy (v : option json) : bool :=
  match v with
  | None | Some JNull | Some JNaN => false
  | Some (JBool b) => b
  | Some (JNumber n) => negb (n =? 0)%Z
  | Some (JString s) => negb (String.eqb s "")
  | Some (JArray _) | Some (JObject _) => true
  end.

(** Truthiness of a string that may be undefined. *)
Definition truthy_string (v : option string) : bool :=
  match v with
  | None => false
  | Some s => negb (String.eqb s "")
  end.

(** ** Data model ([scripts/types.ts]) *)

(** Modelled from the spec: the interface [Account] of [scripts/types.ts]
    (address, nonce, balance, codeHash, root, optional code, optional
    storage, and the transport-only key of a dump line).  The validator
    tests at run time that properties are there, so each is an [option]:
    [None] is a missing property. *)
Record Account : Type := {
  address : option string;
  nonce : option Z;
  balance : option string;
  codeHash : option string;
  root : option string;                    (* storage root *)
  code : option string;
  storage : option (gmap string string);
  key : option string                      (* transport only, see the reader *)
}.

Definition StateDump : Type := list Account.

(** Modelled from the spec: [StateDumpRoot], the root hash of the dump with
    the map from address to account. *)
Record StateDumpRoot : Type := {
  dump_root : option string;               (* [root] of the dump *)
  accounts : gmap string Account
}.

(** Modelled from the spec: [EtherscanContract], the archived record of a
    verified contract. *)
Record EtherscanContract : Type := {
  contractAddress : string;
  sourceCode : string;
  compilerVersion : string;
  optimizationUsed : string;
  runs : string;
  contractName : string;
  contractFileName : option string
}.

(** Modelled from the spec: [UniswapPoolData], an entry of the map from the
    old to the new address of a pool. *)
Record UniswapPoolData : Type := {
  oldAddress : string;
  newAddress : string
}.

(** Modelled from the spec: [immutableReference], one [{start, length}]
    range of an immutable in deployed bytecode. *)
Record immutableReference : Type := {
  ref_start : Z;
  ref_length : Z
}.

(** Modelled from the spec: [immutableReferences], from the identifier of
    an immutable to its ranges, in the order [Object.entries] enumerates
    the identifiers. *)
Definition immutableReferences : Type :=
  list (string * list immutableReference).

(** [evm.deployedBytecode] of a compiled contract, as the handler reads it:
    the object [{object, immutableReferences}], or a bare string (the shape
    the handler's [typeof] tests allow for). *)
Inductive DeployedBytecode : Type :=
| BytecodeObject (object : string) (refs : option immutableReferences)
| BytecodeString (object : string).

Record ContractOutput : Type := {
  deployedBytecode : option DeployedBytecode     (* [evm.deployedBytecode] *)
}.

(** The compiler's response: [contracts[file][name]], absent when nothing
    compiled. *)
Record CompilerOutput : Type := {
  contracts : option (gmap string (gmap string ContractOutput))
}.

(** A loaded compiler: [JSON.parse(solc.compile(JSON.stringify(input)))]. *)
Definition Compiler : Type := json -> CompilerOutput.

(** A chain RPC client, of which the handlers use [getCode] (awaited). *)
Record Provider : Type := {
  getCode : option string -> result string
}.

(** Modelled from the spec: [SurgeryDataSources], what a handler may
    consult. *)
Record SurgeryDataSources : Type := {
  dump : StateDump;
  genesis : StateDump;
  pools : list UniswapPoolData;
  etherscanDump : list EtherscanContract;
  l1TestnetProvider : Provider;
  l1MainnetProvider : Provider;
  l2Provider : Provider
}.

(** Modelled from the spec: the enumeration [AccountType], by the keys of
    the handler table. *)
Inductive AccountType : Type :=
| EOA | PRECOMPILE | PREDEPLOY_DEAD | PREDEPLOY_WIPE | PREDEPLOY_NO_WIPE
| PREDEPLOY_ETH | PREDEPLOY_WETH | UNISWAP_V3_FACTORY | UNISWAP_V3_NFPM
| UNISWAP_V3_POOL | UNISWAP_V3_LIB | UNISWAP_V3_OTHER | UNVERIFIED | VERIFIED.

(** ** The environment of the scripts

    The library functions and the run-time system the scripts call, and the
    two constants of [scripts/constants.ts] the handlers read, taken as
    parameters. *)
Class Externals : Type := {
  (** [JSON.parse] on a source bundle; [None] is a [SyntaxError]. *)
  JSON_parse : string -> option json;
  (** [JSON.parse] on a line of the state dump, read at the type of a dump
      record; [None] is a [SyntaxError]. *)
  JSON_parse_line : string -> option Account;
  (** [parseInt(text, radix)]: a [JNumber] or [JNaN]. *)
  parseInt : string -> Z -> json;
  (** [ethers.utils.keccak256]; raises on data that is not bytes-like. *)
  keccak256 : option string -> result string;
  (** [add0x] of [@eth-optimism/core-utils]. *)
  add0x : option string -> option string;
  (** [solc.setupMethods(require(path.join(LOCAL_SOLC_DIR, file)))]. *)
  require_solc : string -> Compiler;
  COMPILER_VERSIONS_TO_SOLC : gmap string string;
  OLD_ETH_ADDRESS : string
}.

(** [KECCAK256_NULL_S] and [KECCAK256_RLP_S] of [ethereumjs-util]: the hash
    of the empty byte string and the root of the empty trie. *)
Definition KECCAK256_NULL_S : string :=
  "c5d2460186f7233c927e7db2dcc703c0e500b653ca82273b7bfad8045d85a470".
Definition KECCAK256_RLP_S : string :=
  "56e81f171bcc55a6ff8345e692c0f86e5b48e01b996cadc001622fb5e363b421".

(** ** [scripts/utils.ts] *)

(** [ethers.utils.isHexString(value)] without a length: a string that
    matches [^0x[0-9A-Fa-f]*$]. *)
Definition isHexDigit (c : ascii) : bool :=
  let n := N_of_ascii c in
  (((48 <=? n) && (n <=? 57)) || ((65 <=? n) && (n <=? 70))
   || ((97 <=? n) && (n <=? 102)))%N.

Fixpoint allHexDigits (s : string) : bool :=
  match s with
  | EmptyString => true
  | String c s' => isHexDigit c && allHexDigits s'
  end.

Definition isHexString (value : option string) : bool :=
  match value with
  | Some (String "0" (String "x" digits)) => allHexDigits digits
  | _ => false
  end.

Definition hexStringEqual (a b : option string) : result bool :=
  if negb (isHexString a) then
    Throw (Error ("not a hex string: " +:+ show a))
  else if negb (isHexString b) then
    Throw (Error ("not a hex string: " +:+ show b))
  else
    Return (String.eqb (toLowerCase (show a)) (toLowerCase (show b))).

Definition findAccount (dump : StateDump) (address' : option string)
  : result (option Account) :=
  findM (fun acc => hexStringEqual (address acc) address') dump.

(** [assert.ok(cond, message)] *)
Definition assert_ok (cond : bool) (message : string) : result unit :=
  if cond then Return tt else Throw (AssertionError message).

(** [assert.equal(actual, expected, message)] on operands that are strings
    or undefined: [==] is string equality between two strings, and
    [undefined] equals [undefined] only. *)
Definition assert_equal (actual expected : option string)
  (message : string) : result unit :=
  assert_ok (bool_decide (actual = expected)) message.

(** [value.toLowerCase()] on a string that may be undefined. *)
Definition toLowerCase_of (value : option string) : result string :=
  match value with
  | Some s => Return (toLowerCase s)
  | None => Throw (TypeError "toLowerCase")
  end.

(** [typeof value === 'number'] *)
Definition typeof_number (value : option Z) : bool :=
  match value with Some _ => true | None => false end.

Definition showNumber (value : option Z) : string :=
  match value with
  | Some n => NilZero.string_of_int (Z.to_int n)
  | None => "undefined"
  end.

(** The literal of the balance rule: [0x] and 38 zeros. *)
Definition PRECOMPILE_PREFIX : string :=
  "0x00000000000000000000000000000000000000".

(** The two assertions on one storage entry. *)
Definition checkStorageEntry (entry : string * string) : result unit :=
  let '(storageKey, storageVal) := entry in
  _ ← assert_ok (String.eqb (toLowerCase storageKey) storageKey)
        ("unexpected upper case character in state dump storage key: "
         +:+ storageKey);
  assert_ok (String.eqb (toLowerCase storageVal) storageVal)
    ("unexpected upper case character in state dump storage value: "
     +:+ storageVal).

(** The balance assertion, with its guard. *)
Definition checkBalance (address' : string) (account : Account)
  : result unit :=
  if negb (startsWith address' PRECOMPILE_PREFIX) then
    assert_equal (balance account) (Some "0")
      ("unexpected non-zero balance in state dump address: " +:+ address')
  else Return tt.

(** The body of the validator's loop, for one entry of [dump.accounts]. *)
Definition checkAccount (entry : string * Account) : result unit :=
  let '(address', account) := entry in
  _ ← assert_ok (String.eqb (toLowerCase address') address')
        ("unexpected upper case character in state dump address: "
         +:+ address');
  _ ← assert_ok (typeof_number (nonce account))
        ("nonce is not a number: " +:+ showNumber (nonce account));
  lowerHash ← toLowerCase_of (codeHash account);
  _ ← assert_equal (Some lowerHash) (codeHash account)
        ("unexpected upper case character in state dump codeHash: "
         +:+ show (codeHash account));
  lowerRoot ← toLowerCase_of (root account);
  _ ← assert_equal (Some lowerRoot) (root account)
        ("unexpected upper case character in state dump root: "
         +:+ show (root account));
  _ ← match code account with
      | Some code' =>
          assert_ok (String.eqb (toLowerCase code') code')
            ("unexpected upper case character in state dump code: "
             +:+ code')
      | None => Return tt
      end;
  _ ← checkBalance address' account;
  match storage account with
  | Some storage' => forEach checkStorageEntry (map_to_list storage')
  | None => Return tt
  end.

(** [Object.entries] of the account map enumerates [map_to_list]; which
    violation is met first depends on that order, whether one is met does
    not. *)
Definition checkStateDumpRoot (dump' : StateDumpRoot) : result unit :=
  forEach checkAccount (map_to_list (accounts dump')).

(** [object[name] = value] on an object created as [{}], of which the map
    holds the own properties ([Object.keys] and [Object.entries] enumerate
    them).  The name [__proto__] is the one an object inherits as a setter:
    assigning an object to it replaces the prototype and adds no
    property. *)
Definition assign {V : Type} (object : gmap string V) (name : string)
  (value : V) : gmap string V :=
  if String.eqb name "__proto__" then object else <[name := value]> object.

(** A promise, as the code that awaits it finds it: resolved with a value,
    or never settled because an exception was raised outside of it, where
    nothing catches it. *)
Inductive promise (A : Type) : Type :=
| Resolved (a : A)
| Unsettled (uncaught : exception).
Arguments Resolved {A} a.
Arguments Unsettled {A} uncaught.

(** [await p] in a run: the value of a resolved promise; an uncaught
    exception ends the process, and the run with it. *)
Definition await {A : Type} (p : promise A) : result A :=
  match p with
  | Resolved a => Return a
  | Unsettled e => Throw e
  end.

Section utils.
Context `{Externals}.

Definition getSolc (version : string) (ovm : bool) : Compiler :=
  if ovm then require_solc version
  else require_solc ("solc-emscripten-wasm32-" +:+ version +:+ ".js").

(** The base compiler input of [solcInput], as a property list. *)
Definition baseInput (contract : EtherscanContract) : list (string * json) :=
  [ ("language", JString "Solidity");
    ("sources",
      JObject [("file", JObject [("content", JString (sourceCode contract))])]);
    ("settings",
      JObject
        [ ("outputSelection",
            JObject [("*", JObject [("*", JArray [JString "*"])])]);
          ("optimizer",
            JObject
              [ ("enabled", JBool (String.eqb (optimizationUsed contract) "1"));
                ("runs", parseInt (runs contract) 10) ]) ]) ].

(** The text [solcInput] hands to [JSON.parse]. *)
Definition unwrapSource (source : string) : string :=
  if String.eqb (substr source 0 2) "{{" then slice source 1 (Some (-1)%Z)
  else source.

Definition solcInput (contract : EtherscanContract) : json :=
  let input := baseInput contract in
  try_catch
    (let sourceCode' := unwrapSource (sourceCode contract) in
     parsed ← match JSON_parse sourceCode' with
              | Some j => Return j
              | None => Throw SyntaxError
              end;
     language ← json_get parsed "language";
     if truthy language then Return parsed
     else Return (JObject (obj_set input "sources" parsed)))
    (JObject input).

(** The state of the reader: the dump under construction and [isFirstRow]. *)
Definition emptyDump : StateDumpRoot :=
  {| dump_root := Some ""; accounts := ∅ |}.

(** [delete data.address; delete data.key] *)
Definition stripTransport (data : Account) : Account :=
  {| address := None; nonce := nonce data; balance := balance data;
     codeHash := codeHash data; root := root data; code := code data;
     storage := storage data; key := None |}.

(** The listener of the stream's [data] event. *)
Definition onData (state : StateDumpRoot * bool) (line : string)
  : result (StateDumpRoot * bool) :=
  let '(dump', isFirstRow) := state in
  data ← match JSON_parse_line line with
         | Some d => Return d
         | None => Throw SyntaxError
         end;
  if isFirstRow : bool then
    Return ({| dump_root := root data; accounts := accounts dump' |}, false)
  else
    let address' := address data in
    let data := stripTransport data in
    Return ({| dump_root := dump_root dump';
               accounts := assign (accounts dump') (show address') data |},
            isFirstRow).

(** [readDumpFile] on the lines the stream delivers: the [data] listener
    runs on each line in order, and the [end] listener resolves the promise
    with the dump.  The executor has no path to a rejection: an exception
    of the listener is raised inside the stream, the stream stops, and the
    promise stays as it is. *)
Definition readDumpFile (lines : list string) : promise StateDumpRoot :=
  match foldM onData (emptyDump, true) lines with
  | Return state => Resolved (fst state)
  | Throw e => Unsettled e
  end.

End utils.

(** ** [scripts/handlers.ts] *)

(** [{ ...account, address, code, codeHash, storage }]: the properties of
    [account] with some of them overridden. *)
Definition withFields (account : Account) (address' : option string)
  (code' codeHash' : option string) (storage' : option (gmap string string))
  : Account :=
  {| address := address'; nonce := nonce account; balance := balance account;
     codeHash := codeHash'; root := root account; code := code';
     storage := storage'; key := key account |}.

(** [{ ...a, ...b }] on two storage maps that may be undefined: the entries
    of [b] override those of [a]. *)
Definition spread (a b : option (gmap string string)) : gmap string string :=
  default ∅ b ∪ default ∅ a.

(** [x.property] on a value that may be undefined. *)
Definition read {A B : Type} (x : option A) (property : string)
  (get : A -> B) : result B :=
  match x with
  | Some a => Return (get a)
  | None => Throw (TypeError property)
  end.

(** Replacing the range of [ref] in [object] by [immutable]. *)
Definition splice (object : string) (ref : immutableReference)
  (immutable : string) : string :=
  let pre := slice object 0 (Some (ref_start ref)) in
  let post := slice object (ref_start ref + ref_length ref)%Z None in
  pre +:+ immutable +:+ post.

(** [x = b; if (typeof x === 'object') x = x.object]. *)
Definition bytecodeText (b : DeployedBytecode) : string :=
  match b with
  | BytecodeObject object _ => object
  | BytecodeString object => object
  end.

(** [b.object] and [b.immutableReferences], undefined on a bare string. *)
Definition bytecodeObject (b : DeployedBytecode) : option string :=
  match b with
  | BytecodeObject object _ => Some object
  | BytecodeString _ => None
  end.

Definition bytecodeRefs (b : DeployedBytecode) : option immutableReferences :=
  match b with
  | BytecodeObject _ refs => refs
  | BytecodeString _ => None
  end.

(** The file under which the handler looks the contract up: the recorded
    file name, or [file] when none is recorded. *)
Definition fileKey (contract : EtherscanContract) : string :=
  if truthy_string (contractFileName contract)
  then show (contractFileName contract) else "file".

(** [contracts[contract.contractFileName][contract.contractName]], or
    [contracts.file[contract.contractName]] when no file name is recorded;
    [contracts] itself may be undefined. *)
Definition selectContract
  (contracts' : option (gmap string (gmap string ContractOutput)))
  (contract : EtherscanContract) : result (option ContractOutput) :=
  files ← read contracts' (fileKey contract) id;
  read (files !! fileKey contract) (contractName contract)
    (fun file => file !! contractName contract).

(** [data.etherscanDump.find((c) => c.contractAddress === account.address)] *)
Definition findContract (account : Account) (data : SurgeryDataSources)
  : option EtherscanContract :=
  List.find (fun c => bool_decide (Some (contractAddress c) = address account))
    (etherscanDump data).

(** [bytecode.slice(ref.start, ref.start + ref.length)] *)
Definition rangeOf (bytecode : string) (ref : immutableReference) : string :=
  slice bytecode (ref_start ref) (Some (ref_start ref + ref_length ref)%Z).

Section handlers.
Context `{Externals}.

Definition handle_EOA (account : Account) : result (option Account) :=
  Return (Some {| address := address account; nonce := nonce account;
                  balance := balance account;
                  codeHash := Some KECCAK256_NULL_S;
                  root := Some KECCAK256_RLP_S;
                  code := None; storage := None; key := None |}).

Definition handle_PREDEPLOY_WIPE (account : Account)
  (data : SurgeryDataSources) : result (option Account) :=
  genesisAccount ← findAccount (genesis data) (address account);
  code' ← read genesisAccount "code" code;
  codeHash' ← read genesisAccount "codeHash" codeHash;
  storage' ← read genesisAccount "storage" storage;
  Return (Some (withFields account (address account) code' codeHash' storage')).

Definition handle_PREDEPLOY_NO_WIPE (account : Account)
  (data : SurgeryDataSources) : result (option Account) :=
  genesisAccount ← findAccount (genesis data) (address account);
  code' ← read genesisAccount "code" code;
  codeHash' ← read genesisAccount "codeHash" codeHash;
  genesisStorage ← read genesisAccount "storage" storage;
  Return (Some (withFields account (address account) code' codeHash'
                  (Some (spread (storage account) genesisStorage)))).

Definition handle_PREDEPLOY_ETH (account : Account)
  (data : SurgeryDataSources) : result (option Account) :=
  genesisAccount ← findAccount (genesis data) (address account);
  oldEthAccount ← findAccount (dump data) (Some OLD_ETH_ADDRESS);
  code' ← read genesisAccount "code" code;
  codeHash' ← read genesisAccount "codeHash" codeHash;
  oldStorage ← read oldEthAccount "storage" storage;
  genesisStorage ← read genesisAccount "storage" storage;
  Return (Some (withFields account (address account) code' codeHash'
                  (Some (spread oldStorage genesisStorage)))).

Definition handle_UNISWAP_V3_POOL (account : Account)
  (data : SurgeryDataSources) : result (option Account) :=
  let poolData :=
    List.find (fun pool => bool_decide (Some (oldAddress pool) = address account))
      (pools data) in
  match poolData with
  | None => Throw (TypeError "newAddress")
  | Some poolData =>
      poolCode ← getCode (l1TestnetProvider data) (Some (newAddress poolData));
      hash ← keccak256 (Some poolCode);
      Return (Some (withFields account (Some (newAddress poolData))
                      (Some poolCode) (Some hash) (storage account)))
  end.

Definition handle_UNISWAP_V3_OTHER (account : Account)
  (data : SurgeryDataSources) : result (option Account) :=
  code' ← getCode (l1MainnetProvider data) (address account);
  hash ← keccak256 (Some code');
  Return (Some (withFields account (address account) (Some code')
                  (Some hash) (storage account))).

(** The body of the inner loop: occurrence [i] of an immutable, [ref] in the
    new bytecode and [ovmValue[i]] in the old.  [account] is the working
    copy; [mainBytecode] is [mainOutput.evm.deployedBytecode]. *)
Definition relocateOccurrence (mainBytecode : option DeployedBytecode)
  (ovmObject : string) (ovmValue : list immutableReference)
  (account : Account) (occurrence : nat * immutableReference)
  : result Account :=
  let '(i, ref) := occurrence in
  match ovmValue !! i with
  | None => Throw (TypeError "length")
  | Some ovmRef =>
      if negb (ref_length ref =? ref_length ovmRef)%Z then
        Throw (Error "length mismatch")
      else
        let immutable := rangeOf ovmObject ovmRef in
        match mainBytecode with
        | None => Throw (Error "deployedBytecode undefined")
        | Some bytecode' =>
            let object := bytecodeText bytecode' in
            let bytecode := splice object ref immutable in
            if negb (len bytecode =? len object)%Z then
              Throw (Error ("mismatch in size: "
                            +:+ showNat (String.length bytecode) +:+ " vs "
                            +:+ showNat (String.length object)))
            else
              hash ← keccak256 (Some bytecode);
              Return (withFields account (address account) (Some bytecode)
                        (Some hash) (storage account))
        end
  end.

(** The body of the outer loop: one named immutable with its ranges. *)
Definition relocateImmutable (mainBytecode : option DeployedBytecode)
  (ovmObject : string) (ovmImmutableRefs : option immutableReferences)
  (account : Account) (entry : string * list immutableReference)
  : result Account :=
  let '(key', value) := entry in
  ovmValue ← read ovmImmutableRefs key' (fun refs => obj_get refs key');
  match ovmValue with
  | None => Throw (Error "cannot find ast in ovm compiler output")
  | Some ovmValue =>
      foldM (relocateOccurrence mainBytecode ovmObject ovmValue) account
        (imap pair value)
  end.

(** The two nested loops over [Object.entries(immutableRefs)]. *)
Definition relocateImmutables (mainBytecode : option DeployedBytecode)
  (ovmObject : string) (ovmImmutableRefs : option immutableReferences)
  (immutableRefs : immutableReferences) (account : Account)
  : result Account :=
  foldM (relocateImmutable mainBytecode ovmObject ovmImmutableRefs) account
    immutableRefs.

Definition handle_VERIFIED (account : Account) (data : SurgeryDataSources)
  : result (option Account) :=
  match findContract account data with
  | None =>
      Throw (Error ("Unable to find " +:+ show (address account)
                    +:+ " in etherscan dump"))
  | Some contract =>
      let input := solcInput contract in
      let version := COMPILER_VERSIONS_TO_SOLC !! compilerVersion contract in
      if negb (truthy_string version) then
        Throw (Error ("Unable to find solc version "
                      +:+ compilerVersion contract))
      else
        let currSolc := getSolc (show version) false in
        let output := currSolc input in
        match contracts output with
        | None => Throw (Error ("Cannot compile " +:+ contractAddress contract))
        | Some _ =>
            mainOutput ← selectContract (contracts output) contract;
            match mainOutput with
            | None =>
                Throw (Error ("Contract filename mismatch: "
                              +:+ contractAddress contract))
            | Some mainOutput =>
                code' ← read (deployedBytecode mainOutput) "object"
                          bytecodeObject;
                hash ← keccak256 (add0x code');
                let account :=
                  withFields account (address account) code' (Some hash)
                    (storage account) in
                immutableRefs ← read (deployedBytecode mainOutput)
                                  "immutableReferences" bytecodeRefs;
                match immutableRefs with
                | Some ((_ :: _) as immutableRefs) =>
                    let ovmSolc := getSolc (compilerVersion contract) false in
                    let ovmOutput := ovmSolc input in
                    ovmFile ← selectContract (contracts ovmOutput) contract;
                    ovmFile ← read ovmFile "evm" id;
                    ovmBytecode ← read (deployedBytecode ovmFile)
                                    "immutableReferences" id;
                    let ovmImmutableRefs := bytecodeRefs ovmBytecode in
                    let ovmObject := bytecodeText ovmBytecode in
                    account ← relocateImmutables (deployedBytecode mainOutput)
                                ovmObject ovmImmutableRefs immutableRefs
                                account;
                    Return (Some account)
                | _ => Return (Some account)
                end
            end
        end
  end.

(** The table [handlers]: one transformation per account type; [None] is
    [undefined], the deletion of the account. *)
Definition handlers (type : AccountType) (account : Account)
  (data : SurgeryDataSources) : result (option Account) :=
  match type with
  | EOA => handle_EOA account
  | PRECOMPILE => Return (Some account)
  | PREDEPLOY_DEAD => Return None
  | PREDEPLOY_WIPE => handle_PREDEPLOY_WIPE account data
  | PREDEPLOY_NO_WIPE => handle_PREDEPLOY_NO_WIPE account data
  | PREDEPLOY_ETH => handle_PREDEPLOY_ETH account data
  | PREDEPLOY_WETH => Throw (Error "Not implemented")
  | UNISWAP_V3_FACTORY => Throw (Error "Not implemented")
  | UNISWAP_V3_NFPM => Throw (Error "Not implemented")
  | UNISWAP_V3_POOL => handle_UNISWAP_V3_POOL account data
  | UNISWAP_V3_LIB => Return None
  | UNISWAP_V3_OTHER => handle_UNISWAP_V3_OTHER account data
  | UNVERIFIED => Return None
  | VERIFIED => handle_VERIFIED account data
  end.

End handlers.

(** ** Properties the specification speaks of *)

(** The relocation as the specification words it: every splice operates on
    the bytecode the earlier splices produced.  [occurrences] pairs each
    range of the new bytecode with the range of the old one. *)
Definition relocateSequential (ovmObject : string)
  (occurrences : list (immutableReference * immutableReference))
  (object : string) : string :=
  foldl (fun working '(ref, ovmRef) =>
           splice working ref (rangeOf ovmObject ovmRef))
    object occurrences.

(** Lower-case hexadecimal text: digits [0-9a-f] after an optional [0x]. *)
Definition isLowerHexDigit (c : ascii) : bool :=
  let n := N_of_ascii c in
  (((48 <=? n) && (n <=? 57)) || ((97 <=? n) && (n <=? 102)))%N.

Fixpoint allLowerHexDigits (s : string) : bool :=
  match s with
  | EmptyString => true
  | String c s' => isLowerHexDigit c && allLowerHexDigits s'
  end.

Definition isLowerHex (s : string) : bool :=
  match s with
  | String "0" (String "x" digits) => allLowerHexDigits digits
  | _ => allLowerHexDigits s
  end.

(** What the validator establishes of one entry of [dump.accounts]. *)
Definition lowerCase (s : string) : Prop := toLowerCase s = s.

Record validEntry (address' : string) (account : Account) : Prop := {
  valid_address : lowerCase address';
  valid_nonce : exists n, nonce account = Some n;
  valid_codeHash : exists h, codeHash account = Some h /\ lowerCase h;
  valid_root : exists r, root account = Some r /\ lowerCase r;
  valid_code : forall c, code account = Some c -> lowerCase c;
  valid_balance :
    startsWith address' PRECOMPILE_PREFIX = false ->
    balance account = Some "0";
  valid_storage :
    forall entries k v, storage account = Some entries ->
      entries !! k = Some v -> lowerCase k /\ lowerCase v
}.

(** The canonical text of an address given by its bytes. *)
Definition hexDigit (n : N) : ascii :=
  match String.get (N.to_nat n) "0123456789abcdef" with
  | Some c => c
  | None => "0"%char
  end.

Definition hexByte (b : N) : string :=
  String (hexDigit (b / 16)) (String (hexDigit (b mod 16)) EmptyString).

Definition addressText (bytes : list N) : string :=
  "0x" +:+ foldr (fun b text => hexByte b +:+ text) "" bytes.

(** Hexadecimal addresses throughout a dump, and the presence of an
    address in it, as [findAccount] compares them. *)
Definition allHex (dump' : StateDump) : Prop :=
  Forall (fun acc => isHexString (address acc) = true) dump'.

Definition sameAddress (a b : option string) : bool :=
  String.eqb (toLowerCase (show a)) (toLowerCase (show b)).

Definition hasEntry (dump' : StateDump) (address' : option string) : Prop :=
  Exists (fun acc => sameAddress (address acc) address' = true) dump'.

(** The settings every constructed compiler input carries. *)
Definition settingsOf `{Externals} (contract : EtherscanContract) : json :=
  JObject
    [ ("outputSelection",
        JObject [("*", JObject [("*", JArray [JString "*"])])]);
      ("optimizer",
        JObject
          [ ("enabled", JBool (String.eqb (optimizationUsed contract) "1"));
            ("runs", parseInt (runs contract) 10) ]) ].

Definition withSource (contract : EtherscanContract) (source : string)
  : EtherscanContract :=
  {| contractAddress := contractAddress contract; sourceCode := source;
     compilerVersion := compilerVersion contract;
     optimizationUsed := optimizationUsed contract; runs := runs contract;
     contractName := contractName contract;
     contractFileName := contractFileName contract |}.

Definition withBalance (account : Account) (balance' : option string)
  : Account :=
  {| address := address account; nonce := nonce account; balance := balance';
     codeHash := codeHash account; root := root account; code := code account;
     storage := storage account; key := key account |}.

(** The run of the VERIFIED handler reaches the relocation loop: the
    account has an archived record [contract] with a known compiler
    version; the new compiler yields [object] with the non-empty immutable
    references [refs] for the contract, whose hash is [hash]; the old
    compiler yields [ovmBytecode] for it. *)
Record reachesRelocation `{Externals} (account : Account)
  (data : SurgeryDataSources) (contract : EtherscanContract)
  (object : string) (refs : immutableReferences) (hash : string)
  (ovmBytecode : DeployedBytecode) : Prop := {
  reaches_contract : findContract account data = Some contract;
  reaches_version :
    exists version,
      COMPILER_VERSIONS_TO_SOLC !! compilerVersion contract = Some version
      /\ version <> ""
      /\ exists contracts' file,
           contracts (getSolc version false (solcInput contract)) = Some contracts'
           /\ contracts' !! fileKey contract = Some file
           /\ file !! contractName contract
              = Some {| deployedBytecode :=
                          Some (BytecodeObject object (Some refs)) |};
  reaches_refs : refs <> [];
  reaches_hash : keccak256 (add0x (Some object)) = Return hash;
  reaches_ovm :
    exists contracts' file,
      contracts (getSolc (compilerVersion contract) false (solcInput contract))
      = Some contracts'
      /\ contracts' !! fileKey contract = Some file
      /\ file !! contractName contract
         = Some {| deployedBytecode := Some ovmBytecode |}
}.

(** The account the loop works on keeps the length of the new bytecode and
    every property but code and code hash. *)
Definition relocationInvariant (object : string) (account working : Account)
  : Prop :=
  (exists code', code working = Some code'
                 /\ String.length code' = String.length object)
  /\ address working = address account
  /\ nonce working = nonce account
  /\ balance working = balance account
  /\ storage working = storage account
  /\ root working = root account.

(** ** A concrete environment and concrete inputs

    The theorems hold for every environment; the examples below run the
    scripts in this one. *)
Module Sample.

Definition quote : string := String (ascii_of_nat 34) EmptyString.

Definition quoted (text : string) : string := quote +:+ text +:+ quote.

(** The text [{"language":"Solidity"}]. *)
Definition languageDocument : string :=
  "{" +:+ quoted "language" +:+ ":" +:+ quoted "Solidity" +:+ "}".

(** A parser that knows two documents. *)
Definition parse (text : string) : option json :=
  if String.eqb text "{}" then Some (JObject [])
  else if String.eqb text languageDocument
  then Some (JObject [("language", JString "Solidity")])
  else None.

(** The first line of a dump, [{"root":"0xabc"}], and its record. *)
Definition rootLine : string :=
  "{" +:+ quoted "root" +:+ ":" +:+ quoted "0xabc" +:+ "}".

Definition rootRecord : Account :=
  {| address := None; nonce := None; balance := None; codeHash := None;
     root := Some "0xabc"; code := None; storage := None; key := None |}.

(** An account line of a dump,
    [{"address":..,"key":"k","nonce":0,"balance":..,"codeHash":..,"root":..}],
    and its record. *)
Definition accountLine (address' balance' : string) : string :=
  "{" +:+ quoted "address" +:+ ":" +:+ quoted address' +:+ ","
  +:+ quoted "key" +:+ ":" +:+ quoted "k" +:+ ","
  +:+ quoted "nonce" +:+ ":0,"
  +:+ quoted "balance" +:+ ":" +:+ quoted balance' +:+ ","
  +:+ quoted "codeHash" +:+ ":" +:+ quoted KECCAK256_NULL_S +:+ ","
  +:+ quoted "root" +:+ ":" +:+ quoted KECCAK256_RLP_S +:+ "}".

Definition line (address' : string) (balance' : string) : Account :=
  {| address := Some address'; nonce := Some 0%Z; balance := Some balance';
     codeHash := Some KECCAK256_NULL_S; root := Some KECCAK256_RLP_S;
     code := None; storage := None; key := Some "k" |}.

(** A line parser that knows the root line and four account lines. *)
Definition parseLine (text : string) : option Account :=
  if String.eqb text rootLine then Some rootRecord
  else if String.eqb text (accountLine "0x0a" "0") then Some (line "0x0a" "0")
  else if String.eqb text (accountLine "0x0b" "0") then Some (line "0x0b" "0")
  else if String.eqb text (accountLine "0x0a" "7") then Some (line "0x0a" "7")
  else if String.eqb text (accountLine "__proto__" "0")
  then Some (line "__proto__" "0")
  else None.

(** [parseInt] on decimal text (the radix the scripts pass is 10). *)
Definition decimal (text : string) (radix : Z) : json :=
  match NilZero.int_of_string text with
  | Some n => JNumber (Z.of_int n)
  | None => JNaN
  end.

(** A stand-in for the hash, defined where [ethers.utils.keccak256] is: on
    the text [0x] followed by an even number of hexadecimal digits.  The
    library raises on any other argument, with a message that starts as
    below.  The value is not computed: it is the argument, marked. *)
Definition hash (data : option string) : result string :=
  if negb (isHexString data) then Throw (Error "invalid arrayify value")
  else if Nat.even (String.length (show data))
  then Return ("keccak256(" +:+ show data +:+ ")")
  else Throw (Error "hex data is odd-length").

Definition prefix0x (text : option string) : option string :=
  (fun s => if startsWith s "0x" then s else "0x" +:+ s) <$> text.

Definition artifact (object : string) (refs : immutableReferences)
  : CompilerOutput :=
  {| contracts :=
       Some {[ "file" :=
                 {[ "C" := {| deployedBytecode :=
                                Some (BytecodeObject object (Some refs)) |} ]} ]} |}.

(** Two immutables, each with one range of eight characters. *)
Definition ranges : immutableReferences :=
  [ ("7", [ {| ref_start := 2; ref_length := 8 |} ]);
    ("9", [ {| ref_start := 12; ref_length := 8 |} ]) ].

(** The same immutables, the first with a range of six characters. *)
Definition shorterRanges : immutableReferences :=
  [ ("7", [ {| ref_start := 2; ref_length := 6 |} ]);
    ("9", [ {| ref_start := 12; ref_length := 8 |} ]) ].

Definition newObject : string := "aa00000000bb00000000cc".
Definition ovmObject : string := "dd11111111ee22222222ff".

Definition compilers (file : string) : Compiler :=
  fun _ =>
    if String.eqb file "solc-emscripten-wasm32-v0.7.6+commit.7338295f.js"
    then artifact newObject ranges
    else if String.eqb file "solc-emscripten-wasm32-v0.7.6.js"
    then artifact ovmObject ranges
    else if String.eqb file "solc-emscripten-wasm32-v0.6.0+commit.9c3226ce.js"
    then artifact newObject ranges
    else if String.eqb file "solc-emscripten-wasm32-v0.6.0.js"
    then artifact ovmObject shorterRanges
    else if String.eqb file "solc-emscripten-wasm32-v0.5.0+commit.1d4f565a.js"
    then {| contracts := Some {[ "file" := ∅ ]} |}
    else {| contracts := None |}.

Definition externals : Externals :=
  {| JSON_parse := parse;
     JSON_parse_line := parseLine;
     parseInt := decimal;
     keccak256 := hash;
     add0x := prefix0x;
     require_solc := compilers;
     COMPILER_VERSIONS_TO_SOLC :=
       {[ "v0.7.6" := "v0.7.6+commit.7338295f";
          "v0.6.0" := "v0.6.0+commit.9c3226ce";
          "v0.5.0" := "v0.5.0+commit.1d4f565a";
          "v0.4.0" := "v0.4.0+commit.acd334c9" ]};
     OLD_ETH_ADDRESS := "0x4200000000000000000000000000000000000006" |}.

Definition account (address' : string) : Account :=
  {| address := Some address'; nonce := Some 5%Z; balance := Some "0";
     codeHash := Some "0xc0de"; root := Some "0x1234";
     code := Some "0x6080"; storage := Some {[ "0x00" := "0x01" ]};
     key := None |}.

Definition contract (address' version : string) : EtherscanContract :=
  {| contractAddress := address'; sourceCode := "contract C {}";
     compilerVersion := version; optimizationUsed := "1"; runs := "200";
     contractName := "C"; contractFileName := None |}.

Definition provider (deployed : string) : Provider :=
  {| getCode := fun _ => Return deployed |}.

Definition noProvider : Provider :=
  {| getCode := fun _ => Throw (RpcError "no endpoint") |}.

Definition data : SurgeryDataSources :=
  {| dump := [account "0x4200000000000000000000000000000000000006"];
     genesis := [account "0x4200000000000000000000000000000000000007"];
     pools := [ {| oldAddress := "0x01"; newAddress := "0x02" |} ];
     etherscanDump :=
       [ contract "0xaa" "v0.7.6"; contract "0xbb" "v0.1.0";
         contract "0xcc" "v0.4.0"; contract "0xdd" "v0.5.0";
         contract "0xff" "v0.6.0" ];
     l1TestnetProvider := provider "0x60016002";
     l1MainnetProvider := noProvider;
     l2Provider := noProvider |}.

(** A dump whose only account has an address that is not hexadecimal. *)
Definition oddDump : StateDumpRoot :=
  {| dump_root := Some "0xabc";
     accounts := {[ "0xzz" := stripTransport (line "0xzz" "0") ]} |}.

End Sample.

(** ** Further parts of the scripts *)

(** *** The configuration ([reqenv], [loadConfigs]) *)

(** Modelled from the spec: [SurgeryConfigs] of [scripts/types.ts], by the
    properties [loadConfigs] returns. *)
Record SurgeryConfigs : Type := {
  stateDumpFilePath : string;
  etherscanFilePath : string;
  l2ProviderUrl : string;
  l2NetworkName : string;
  l1MainnetProviderUrl : string;
  l1TestnetProviderUrl : string;
  l1TestnetPrivateKey : string
}.

(** [reqenv(name)], reading [process.env] given as [env]. *)
Definition reqenv (env : gmap string string) (name : string) : result string :=
  match env !! name with
  | Some value => Return value
  | None => Throw (Error ("missing env var " +:+ name))
  end.

Definition doubleQuoted (text : string) : string :=
  String (ascii_of_nat 34) text +:+ String (ascii_of_nat 34) EmptyString.

(** The message of the assertion on the network name. *)
Definition networkNameMessage : string :=
  "L2_NETWORK_NAME must be one of " +:+ doubleQuoted "mainnet" +:+ " or "
  +:+ doubleQuoted "kovan".

(** [loadConfigs()], on [process.env] as [dotenv.config()] leaves it. *)
Definition loadConfigs (env : gmap string string) : result SurgeryConfigs :=
  stateDumpFilePath' ← reqenv env "REGEN__STATE_DUMP_FILE";
  etherscanFilePath' ← reqenv env "REGEN__ETHERSCAN_FILE";
  l2ProviderUrl' ← reqenv env "REGEN__L2_PROVIDER_URL";
  l2NetworkName' ← reqenv env "REGEN__L2_NETWORK_NAME";
  l1MainnetProviderUrl' ← reqenv env "REGEN__L1_PROVIDER_URL";
  l1TestnetProviderUrl' ← reqenv env "REGEN__L1_TESTNET_PROVIDER_URL";
  l1TestnetPrivateKey' ← reqenv env "REGEN__L1_TESTNET_PRIVATE_KEY";
  _ ← assert_ok (bool_decide (l2NetworkName' ∈ ["mainnet"; "kovan"]))
        networkNameMessage;
  Return {| stateDumpFilePath := stateDumpFilePath';
            etherscanFilePath := etherscanFilePath';
            l2ProviderUrl := l2ProviderUrl';
            l2NetworkName := l2NetworkName';
            l1MainnetProviderUrl := l1MainnetProviderUrl';
            l1TestnetProviderUrl := l1TestnetProviderUrl';
            l1TestnetPrivateKey := l1TestnetPrivateKey' |}.

(** The variables [loadConfigs] requires, in the order it reads them. *)
Definition configVariables : list string :=
  [ "REGEN__STATE_DUMP_FILE"; "REGEN__ETHERSCAN_FILE";
    "REGEN__L2_PROVIDER_URL"; "REGEN__L2_NETWORK_NAME";
    "REGEN__L1_PROVIDER_URL"; "REGEN__L1_TESTNET_PROVIDER_URL";
    "REGEN__L1_TESTNET_PRIVATE_KEY" ].

(** *** The loop of [main] *)

Section orchestrator.
Context `{Externals}.

(** [classify] of [scripts/classifiers.ts], taken as a parameter. *)
Variable classify : Account -> SurgeryDataSources -> result AccountType.

(** The body of the loop of [main]: classify, look the handler up, run it,
    and push the result unless it is [undefined]. *)
Definition processAccount (data : SurgeryDataSources) (output : StateDump)
  (account : Account) : result StateDump :=
  accountType ← classify account data;
  newAccount ← handlers accountType account data;
  match newAccount with
  | Some newAccount => Return (output ++ [newAccount])
  | None => Return output
  end.

(** [const output = []; for (const account of dump) { ... }], for a dump
    that is a list of accounts ([main] still binds [dump] to a placeholder). *)
Definition processAccounts (data : SurgeryDataSources) (dump' : StateDump)
  : result StateDump :=
  foldM (processAccount data) [] dump'.

End orchestrator.

(** *** The download of the compilers ([downloadSolc]) *)

(** An entry of the list of emscripten builds. *)
Record Build : Type := {
  longVersion : string;
  path : string
}.

(** The network and the file names of the download script: the list
    [axios.get(EMSCRIPTEN_BUILD_LIST)] answers with ([res.data.builds]), the
    data [axios.get(url)] answers with, [path.join], and two constants of
    [scripts/constants.ts].  A request answers the same way each time it is
    made. *)
Class Downloads : Type := {
  axios_get_builds : result (list Build);
  axios_get : string -> result string;
  path_join : string -> string -> string;
  EMSCRIPTEN_BUILD_PATH : string;
  LOCAL_SOLC_DIR : string
}.

Definition OVM_BUILD_PATH (version : string) : string :=
  "https://raw.githubusercontent.com/ethereum-optimism/solc-bin/9455107699d2f7ad9b09e1005c7c07f4b5dd6857/bin/soljson-"
  +:+ version +:+ ".js".

(** The loop over the build list: [target] is assigned at every entry whose
    long version, prefixed with [v], is the version asked for. *)
Definition selectBuild (version : string) (builds : list Build) : option Build :=
  foldl (fun target entry =>
           if String.eqb version ("v" +:+ longVersion entry) then Some entry
           else target)
    None builds.

Section download.
Context `{Externals} `{Downloads}.

(** The file to write and the address to fetch it from. *)
Definition downloadTarget (version : string) (ovm : bool)
  : result (string * string) :=
  if negb ovm then
    builds ← axios_get_builds;
    match selectBuild version builds with
    | None => Throw (Error ("Cannot find compiler version " +:+ version))
    | Some target =>
        Return (path_join LOCAL_SOLC_DIR (path target),
                EMSCRIPTEN_BUILD_PATH +:+ "/" +:+ path target)
    end
  else
    Return (path_join LOCAL_SOLC_DIR version +:+ ".js", OVM_BUILD_PATH version).

(** [downloadSolc(version, ovm)] on the files of the disk, a map from file
    name to content: [access] succeeds on the files that are there, and
    [writeFileSync] adds or replaces one.  Directories are not modelled. *)
Definition downloadSolc (version : string) (ovm : bool)
  (files : gmap string string) : result (gmap string string) :=
  if String.eqb version "v0.5.16-alpha.7" then Return files
  else
    target ← downloadTarget version ovm;
    let '(file, url) := target in
    match files !! file with
    | Some _ => Return files
    | None =>
        bin ← axios_get url;
        Return (<[file := bin]> files)
    end.

(** [downloadAllSolcVersions()]: the keys of the version table with the
    flag, then its values without.  The table is enumerated as
    [map_to_list] does. *)
Definition downloadAllSolcVersions (files : gmap string string)
  : result (gmap string string) :=
  files' ← foldM (fun files version => downloadSolc version true files) files
             (fst <$> map_to_list COMPILER_VERSIONS_TO_SOLC);
  foldM (fun files version => downloadSolc version false files) files'
    (snd <$> map_to_list COMPILER_VERSIONS_TO_SOLC).

End download.

(** *** Notions for the further properties *)

(** [account] is the entry [findAccount] meets first for [address']: no
    entry before it matches, and the addresses compared up to it are
    hexadecimal. *)
Definition firstEntry (dump' : StateDump) (address' : option string)
  (account : Account) : Prop :=
  exists before after,
    dump' = before ++ account :: after
    /\ Forall (fun acc => isHexString (address acc) = true
                          /\ sameAddress (address acc) address' = false) before
    /\ isHexString (address account) = true
    /\ sameAddress (address account) address' = true.

(** The properties of an account the handlers for contracts leave alone. *)
Definition sameIdentity (account output : Account) : Prop :=
  address output = address account
  /\ nonce output = nonce account
  /\ balance output = balance account
  /\ root output = root account
  /\ key output = key account.

(** [{ ...a, ...b }] read at one key. *)
Definition overridden (a b : option (gmap string string)) (k : string)
  : option string :=
  match default ∅ b !! k with
  | Some v => Some v
  | None => default ∅ a !! k
  end.

(** The environment with another loader of compilers in the place of
    [require_solc]. *)
Definition withCompilers (environment : Externals)
  (loader : string -> Compiler) : Externals :=
  {| JSON_parse := @JSON_parse environment;
     JSON_parse_line := @JSON_parse_line environment;
     parseInt := @parseInt environment;
     keccak256 := @keccak256 environment;
     add0x := @add0x environment;
     require_solc := loader;
     COMPILER_VERSIONS_TO_SOLC := @COMPILER_VERSIONS_TO_SOLC environment;
     OLD_ETH_ADDRESS := @OLD_ETH_ADDRESS environment |}.

(** What the reader keeps of a line's record [data] in the record it
    stores: every property but [address] and [key]. *)
Definition storedRecord (data record : Account) : Prop :=
  address record = None
  /\ key record = None
  /\ nonce record = nonce data
  /\ balance record = balance data
  /\ codeHash record = codeHash data
  /\ root record = root data
  /\ code record = code data
  /\ storage record = storage data.

(** Text of ASCII characters, on which [toLowerCase] above is that of the
    scripts, and the dump records that hold such text only. *)
Definition asciiText (s : string) : bool :=
  forallb (fun c => (N_of_ascii c <? 128)%N) (list_ascii_of_string s).

Definition asciiRecord (data : Account) : Prop :=
  asciiText (show (address data)) = true
  /\ (forall h, codeHash data = Some h -> asciiText h = true)
  /\ (forall r, root data = Some r -> asciiText r = true)
  /\ (forall c, code data = Some c -> asciiText c = true)
  /\ (forall entries k v, storage data = Some entries ->
        entries !! k = Some v -> asciiText k = true /\ asciiText v = true).

(** ** Compilers whose bytecode carries the prefix

    The environment of [Sample] with compilers that return the deployed
    bytecode as [0x] followed by its digits, the form the hash is defined
    on; the ranges count the characters of that text. *)
Module Prefixed.

Definition newObject : string := "0xaa00000000bb00000000cc".
Definition ovmObject : string := "0xdd11111111ee22222222ff".

Definition ranges : immutableReferences :=
  [ ("7", [ {| ref_start := 4; ref_length := 8 |} ]);
    ("9", [ {| ref_start := 14; ref_length := 8 |} ]) ].

Definition compilers (file : string) : Compiler :=
  fun _ =>
    if String.eqb file "solc-emscripten-wasm32-v0.7.6+commit.7338295f.js"
    then Sample.artifact newObject ranges
    else if String.eqb file "solc-emscripten-wasm32-v0.7.6.js"
    then Sample.artifact ovmObject ranges
    else {| contracts := None |}.

Definition externals : Externals := withCompilers Sample.externals compilers.

End Prefixed.

(** ** Further concrete inputs *)
Module Cases.

(** A predeploy whose address is written with upper-case digits, with two
    storage slots of its own. *)
Definition predeploy : Account :=
  {| address := Some "0x42000000000000000000000000000000000000AA";
     nonce := Some 1%Z; balance := Some "0";
     codeHash := Some "0x01d"; root := Some "0x5678";
     code := Some "0x6000";
     storage := Some {[ "0x00" := "0x01"; "0x01" := "0x02" ]};
     key := None |}.

Definition genesisEntry (code' : string) : Account :=
  {| address := Some "0x42000000000000000000000000000000000000aa";
     nonce := Some 0%Z; balance := Some "0";
     codeHash := Some ("hash of " +:+ code'); root := Some "0x9abc";
     code := Some code';
     storage := Some {[ "0x01" := "0x03"; "0x02" := "0x04" ]};
     key := None |}.

(** The legacy ETH contract, with one balance slot. *)
Definition legacyEth : Account :=
  {| address := Some "0x4200000000000000000000000000000000000006";
     nonce := Some 0%Z; balance := Some "0";
     codeHash := Some "0xe7"; root := Some "0xdef0";
     code := Some "0x6002";
     storage := Some {[ "0x05" := "0x06"; "0x02" := "0x07" ]};
     key := None |}.

(** An externally owned account, as a dump holds it. *)
Definition wallet : Account :=
  {| address := Some "0x00000000000000000000000000000000000000b1";
     nonce := Some 3%Z; balance := Some "0";
     codeHash := Some KECCAK256_NULL_S; root := Some KECCAK256_RLP_S;
     code := None; storage := None; key := None |}.

(** A contract that no archive knows, and one with empty code. *)
Definition unknownContract : Account := Sample.account "0xee".

Definition wrappedEther : Account :=
  {| address := Some "0x4200000000000000000000000000000000000007";
     nonce := Some 0%Z; balance := Some "0";
     codeHash := Some "0x07"; root := Some "0x1234";
     code := Some "0x"; storage := None; key := None |}.

(** A compiler table in which the new compiler reports no immutables. *)
Definition plainArtifact (object : string) : CompilerOutput :=
  {| contracts :=
       Some {[ "file" :=
                 {[ "C" := {| deployedBytecode :=
                                Some (BytecodeObject object (Some [])) |} ]} ]} |}.

Definition compilers (file : string) : Compiler :=
  fun _ =>
    if String.eqb file "solc-emscripten-wasm32-v0.7.6+commit.7338295f.js"
    then plainArtifact "6080604052"
    else {| contracts := None |}.

Definition externals : Externals :=
  {| JSON_parse := Sample.parse;
     JSON_parse_line := Sample.parseLine;
     parseInt := Sample.decimal;
     keccak256 := Sample.hash;
     add0x := Sample.prefix0x;
     require_solc := compilers;
     COMPILER_VERSIONS_TO_SOLC := {[ "v0.7.6" := "v0.7.6+commit.7338295f" ]};
     OLD_ETH_ADDRESS := "0x4200000000000000000000000000000000000006" |}.

Definition data : SurgeryDataSources :=
  {| dump := [predeploy; legacyEth];
     genesis := [ wrappedEther; genesisEntry "0x6001"; genesisEntry "0x6003" ];
     pools := [ {| oldAddress := "0x01"; newAddress := "0x02" |} ];
     etherscanDump := [ Sample.contract "0xaa" "v0.7.6" ];
     l1TestnetProvider := Sample.noProvider;
     l1MainnetProvider := Sample.provider "0x60016002";
     l2Provider := Sample.noProvider |}.

(** A classifier by the code of the account. *)
Definition classify (account : Account) (_ : SurgeryDataSources)
  : result AccountType :=
  match code account with
  | None => Return EOA
  | Some code' =>
      if String.eqb code' "0x" then Return PREDEPLOY_WETH else Return UNVERIFIED
  end.

(** A build list with two builds of one version, and a network that
    answers every request. *)
Definition builds : list Build :=
  [ {| longVersion := "0.5.16+commit.9c3226ce";
       path := "soljson-v0.5.16+commit.9c3226ce.js" |};
    {| longVersion := "0.6.12+commit.27d51765";
       path := "soljson-v0.6.12+commit.27d51765.js" |};
    {| longVersion := "0.5.16+commit.9c3226ce";
       path := "soljson-v0.5.16-rebuilt.js" |};
    {| longVersion := "0.7.6+commit.7338295f";
       path := "soljson-v0.7.6+commit.7338295f.js" |} ].

Definition downloads : Downloads :=
  {| axios_get_builds := Return builds;
     axios_get := fun url => Return ("// from " +:+ url);
     path_join := fun directory file => directory +:+ "/" +:+ file;
     EMSCRIPTEN_BUILD_PATH := "https://binaries.soliditylang.org/emscripten-wasm32";
     LOCAL_SOLC_DIR := "solc-bin" |}.

End Cases.

(** * Properties *)

(** ** The result monad and the loops *)

Lemma bind_Return {A B : Type} (r : result A) (k : A -> result B) (b : B) :
  r ≫= k = Return b -> exists a, r = Return a /\ k a = Return b.
Proof. destruct r as [a|e]; simpl; [eauto | discriminate]. Qed.

Lemma raises_Throw {A : Type} (e : exception) : raises (@Throw A e).
Proof. by exists e. Qed.

Lemma raises_or_Return {A : Type} (r : result A) :
  raises r \/ exists a, r = Return a.
Proof. destruct r as [a|e]; [right; eauto | left; apply raises_Throw]. Qed.

Lemma bind_raises_l {A B : Type} (r : result A) (k : A -> result B) :
  raises r -> raises (r ≫= k).
Proof. intros [e ->]. apply raises_Throw. Qed.

Lemma bind_raises_r {A B : Type} (r : result A) (k : A -> result B) :
  (forall a, raises (k a)) -> raises (r ≫= k).
Proof. destruct r as [a|e]; simpl; intros Hk; [apply Hk | apply raises_Throw]. Qed.

Lemma assert_ok_Return (cond : bool) (message : string) :
  assert_ok cond message = Return tt <-> cond = true.
Proof. destruct cond; simpl; split; congruence. Qed.

Lemma forEach_Return {A : Type} (f : A -> result unit) (l : list A) :
  forEach f l = Return tt <-> Forall (fun x => f x = Return tt) l.
Proof.
  induction l as [|x l IH]; simpl.
  - split; [constructor | reflexivity].
  - rewrite Forall_cons, <- IH. split.
    + intros (u & Hx & Hl)%bind_Return. destruct u. auto.
    + intros [-> Hl]. exact Hl.
Qed.

(** A loop raises as soon as its body raises at some element whatever the
    state: either there, or earlier. *)
Lemma foldM_raises {A S : Type} (f : S -> A -> result S) (l : list A) (x : A) :
  x ∈ l -> (forall s, raises (f s x)) -> forall s, raises (foldM f s l).
Proof.
  intros Hx Hf. induction l as [|y l IH]; intros s.
  - by apply elem_of_nil in Hx.
  - simpl. apply elem_of_cons in Hx as [->|Hx].
    + apply bind_raises_l, Hf.
    + apply bind_raises_r. intros s'. by apply IH.
Qed.

Lemma foldM_cons {A S : Type} (f : S -> A -> result S) (x : A) (l : list A)
  (s : S) :
  foldM f s (x :: l) = s' ← f s x; foldM f s' l.
Proof. reflexivity. Qed.

(** A property of the state that every returning step preserves holds of
    the state a returning loop ends in. *)
Lemma foldM_invariant {A S : Type} (f : S -> A -> result S) (P : S -> Prop)
  (l : list A) (s s' : S) :
  (forall s x s', f s x = Return s' -> P s -> P s') ->
  foldM f s l = Return s' -> P s -> P s'.
Proof.
  intros Hstep. revert s. induction l as [|x l IH]; intros s; simpl.
  - by intros [= <-].
  - intros (s'' & Hx & Hl)%bind_Return Hs. eauto.
Qed.

(** [find] with a predicate that never raises on the list is the plain
    [find]. *)
Lemma findM_pure {A : Type} (p : A -> result bool) (q : A -> bool) (l : list A) :
  Forall (fun x => p x = Return (q x)) l -> findM p l = Return (List.find q l).
Proof.
  induction 1 as [|x l Hx _ IH]; simpl; [reflexivity|].
  rewrite Hx. simpl. destruct (q x); [reflexivity | exact IH].
Qed.

Lemma find_none_iff {A : Type} (q : A -> bool) (l : list A) :
  List.find q l = None <-> Forall (fun x => q x = false) l.
Proof.
  induction l as [|x l IH]; simpl.
  - split; [constructor | reflexivity].
  - rewrite Forall_cons. destruct (q x) eqn:Hq.
    + split; [discriminate | intros [? _]; discriminate].
    + rewrite IH. tauto.
Qed.

Lemma find_first {A : Type} (q : A -> bool) (before after : list A) (x : A) :
  Forall (fun y => q y = false) before -> q x = true ->
  List.find q (before ++ x :: after) = Some x.
Proof.
  induction 1 as [|y before Hy _ IH]; simpl; intros Hx.
  - by rewrite Hx.
  - rewrite Hy. by apply IH.
Qed.

(** ** Strings *)

Lemma append_cons (c : ascii) (s t : string) :
  String c s +:+ t = String c (s +:+ t).
Proof. reflexivity. Qed.

Lemma append_nil_l (t : string) : "" +:+ t = t.
Proof. reflexivity. Qed.

Lemma append_nil_r (s : string) : s +:+ "" = s.
Proof.
  induction s as [|c s IH]; [reflexivity | by rewrite append_cons, IH].
Qed.

Lemma length_append (s t : string) :
  String.length (s +:+ t) = (String.length s + String.length t)%nat.
Proof.
  induction s as [|c s IH]; [reflexivity|].
  rewrite append_cons. simpl. by rewrite IH.
Qed.

Lemma prefix_append (p s : string) : String.prefix p (p +:+ s) = true.
Proof.
  induction p as [|c p IH]; [by destruct s|].
  rewrite append_cons. simpl.
  destruct (ascii_dec c c); [exact IH | congruence].
Qed.

Lemma prefix_cons (a c : ascii) (p s : string) :
  String.prefix (String a p) (String c s)
  = if ascii_dec a c then String.prefix p s else false.
Proof. reflexivity. Qed.

Lemma prefix_split (p s : string) :
  String.prefix p s = true -> exists rest, s = p +:+ rest.
Proof.
  revert s. induction p as [|c p IH]; intros s; simpl.
  - intros _. by exists s.
  - destruct s as [|d s]; simpl; [discriminate|].
    destruct (ascii_dec c d) as [->|]; [|discriminate].
    intros [rest ->]%IH. by exists rest.
Qed.

Lemma substring_prefix (s t : string) :
  String.substring 0 (String.length s) (s +:+ t) = s.
Proof.
  induction s as [|c s IH]; [by destruct t|].
  rewrite append_cons. simpl. by rewrite IH.
Qed.




Lemma occurs_in_end (pre needle : string) : occurs_in needle (pre +:+ needle).
Proof. exists pre, "". by rewrite append_nil_r. Qed.

(** ** Account lookup *)

Lemma hexStringEqual_hex (a b : option string) :
  isHexString a = true -> isHexString b = true ->
  hexStringEqual a b = Return (sameAddress a b).
Proof. intros Ha Hb. unfold hexStringEqual. by rewrite Ha, Hb. Qed.

Lemma findAccount_hex (dump' : StateDump) (address' : option string) :
  allHex dump' -> isHexString address' = true ->
  findAccount dump' address'
  = Return (List.find (fun acc => sameAddress (address acc) address') dump').
Proof.
  intros Hdump Ha. apply findM_pure.
  eapply Forall_impl; [exact Hdump|]. intros acc Hacc. simpl in *.
  by apply hexStringEqual_hex.
Qed.

Lemma find_no_entry (dump' : StateDump) (address' : option string) :
  ~ hasEntry dump' address' ->
  List.find (fun acc => sameAddress (address acc) address') dump' = None.
Proof.
  intros Hno. apply find_none_iff, Forall_forall. intros acc Hacc.
  destruct (sameAddress (address acc) address') eqn:Heq; [|reflexivity].
  exfalso. apply Hno, Exists_exists. eauto.
Qed.

Lemma find_entry (dump' : StateDump) (address' : option string) :
  hasEntry dump' address' ->
  exists acc,
    List.find (fun acc => sameAddress (address acc) address') dump' = Some acc.
Proof.
  intros Hhas.
  destruct (List.find _ dump') as [acc|] eqn:Hfind; [eauto|].
  apply find_none_iff in Hfind. apply Exists_exists in Hhas as (acc & Hin & Heq).
  rewrite Forall_forall in Hfind. specialize (Hfind acc Hin). simpl in Hfind.
  congruence.
Qed.

(** ** Handlers *)

(** C4: for every input account the EOA handler returns an account without
    code and without storage, whose code hash is the hash of empty code,
    whose storage root is the root of the empty trie, and whose address,
    nonce and balance are those of the input. *)
Theorem EOA_handler_strips_code_and_storage `{Externals}
  (account : Account) (data : SurgeryDataSources) :
  exists output,
    handlers EOA account data = Return (Some output)
    /\ code output = None
    /\ storage output = None
    /\ codeHash output = Some KECCAK256_NULL_S
    /\ root output = Some KECCAK256_RLP_S
    /\ address output = address account
    /\ nonce output = nonce account
    /\ balance output = balance account.
Proof. eexists. split; [reflexivity|]. simpl. tauto. Qed.

(** C5: when the account's address is the old address of an entry of the
    pool list (the first such entry being [pool]), the testnet provider
    returns [poolCode] for the entry's new address and the hash of that
    code is [hash], the pool handler returns the account with its address
    replaced by the new address, its code by [poolCode] and its code hash
    by [hash]; nonce, balance, storage and storage root are unchanged. *)
Theorem UNISWAP_V3_POOL_handler_moves_account `{Externals}
  (account : Account) (data : SurgeryDataSources)
  (old : string) (before after : list UniswapPoolData)
  (pool : UniswapPoolData) (poolCode hash : string) :
  address account = Some old ->
  pools data = before ++ pool :: after ->
  Forall (fun p => oldAddress p <> old) before ->
  oldAddress pool = old ->
  getCode (l1TestnetProvider data) (Some (newAddress pool)) = Return poolCode ->
  keccak256 (Some poolCode) = Return hash ->
  exists output,
    handlers UNISWAP_V3_POOL account data = Return (Some output)
    /\ address output = Some (newAddress pool)
    /\ code output = Some poolCode
    /\ codeHash output = Some hash
    /\ nonce output = nonce account
    /\ balance output = balance account
    /\ storage output = storage account
    /\ root output = root account.
Proof.
  intros Haddr Hpools Hbefore Hold Hcode Hhash.
  assert (List.find (fun p => bool_decide (Some (oldAddress p) = address account))
            (pools data) = Some pool) as Hfind.
  { rewrite Hpools, Haddr. apply find_first.
    - eapply Forall_impl; [exact Hbefore|]. intros p Hp. simpl.
      apply bool_decide_eq_false. congruence.
    - apply bool_decide_eq_true. by rewrite Hold. }
  eexists. split.
  - simpl. unfold handle_UNISWAP_V3_POOL. rewrite Hfind, Hcode. simpl.
    rewrite Hhash. reflexivity.
  - simpl. repeat split; reflexivity.
Qed.

Lemma UNISWAP_V3_POOL_handler_moves_account_witness :
  exists output,
    @handlers Sample.externals UNISWAP_V3_POOL (Sample.account "0x01") Sample.data
      = Return (Some output)
    /\ address output = Some "0x02"
    /\ code output = Some "0x60016002"
    /\ codeHash output = Some "keccak256(0x60016002)"
    /\ nonce output = Some 5%Z
    /\ balance output = Some "0"
    /\ storage output = Some {[ "0x00" := "0x01" ]}
    /\ root output = Some "0x1234".
Proof.
  exact (@UNISWAP_V3_POOL_handler_moves_account Sample.externals
           (Sample.account "0x01") Sample.data "0x01" []
           [] {| oldAddress := "0x01"; newAddress := "0x02" |}
           "0x60016002" "keccak256(0x60016002)"
           eq_refl eq_refl (List.Forall_nil _) eq_refl eq_refl eq_refl).
Defined.

Lemma findAccount_missing (dump' : StateDump) (address' : option string) :
  allHex dump' -> isHexString address' = true -> ~ hasEntry dump' address' ->
  findAccount dump' address' = Return None.
Proof.
  intros Hdump Ha Hno. rewrite findAccount_hex by assumption.
  by rewrite find_no_entry.
Qed.

Lemma findAccount_present (dump' : StateDump) (address' : option string) :
  allHex dump' -> isHexString address' = true -> hasEntry dump' address' ->
  exists acc, findAccount dump' address' = Return (Some acc).
Proof.
  intros Hdump Ha Hhas. rewrite findAccount_hex by assumption.
  destruct (find_entry _ _ Hhas) as [acc ->]. eauto.
Qed.

(** C9 (amended): let the address of the input account be a hexadecimal
    string, and likewise every address of the genesis dump.  If the genesis
    dump has no entry for the account, [findAccount] returns [undefined] and
    the PREDEPLOY_WIPE and PREDEPLOY_NO_WIPE handlers fail reading [code] on
    it, and so does PREDEPLOY_ETH when the legacy dump and the legacy ETH
    address are hexadecimal too; if the genesis dump has the entry but the
    legacy dump has none for the legacy ETH address, PREDEPLOY_ETH fails
    reading [storage] on [undefined].  The exception is the same for every
    account (it does not carry the address).  With the entry present the
    first two handlers return an account. *)
Theorem PREDEPLOY_handlers_need_the_entry `{Externals}
  (account : Account) (data : SurgeryDataSources) :
  isHexString (address account) = true ->
  allHex (genesis data) ->
  (~ hasEntry (genesis data) (address account) ->
     handlers PREDEPLOY_WIPE account data = Throw (TypeError "code")
     /\ handlers PREDEPLOY_NO_WIPE account data = Throw (TypeError "code")
     /\ (allHex (dump data) -> isHexString (Some OLD_ETH_ADDRESS) = true ->
         handlers PREDEPLOY_ETH account data = Throw (TypeError "code")))
  /\ (hasEntry (genesis data) (address account) ->
      allHex (dump data) -> isHexString (Some OLD_ETH_ADDRESS) = true ->
      ~ hasEntry (dump data) (Some OLD_ETH_ADDRESS) ->
      handlers PREDEPLOY_ETH account data = Throw (TypeError "storage"))
  /\ (hasEntry (genesis data) (address account) ->
      exists wiped kept,
        handlers PREDEPLOY_WIPE account data = Return (Some wiped)
        /\ handlers PREDEPLOY_NO_WIPE account data = Return (Some kept)).
Proof.
  intros Haccount Hgenesis. split; [|split].
  - intros Hno. simpl.
    unfold handle_PREDEPLOY_WIPE, handle_PREDEPLOY_NO_WIPE, handle_PREDEPLOY_ETH.
    rewrite findAccount_missing by assumption.
    split; [reflexivity|]. split; [reflexivity|].
    intros Hdump Hold. rewrite findAccount_hex by assumption. reflexivity.
  - intros Hhas Hdump Hold Hno. simpl. unfold handle_PREDEPLOY_ETH.
    destruct (findAccount_present _ _ Hgenesis Haccount Hhas) as [acc ->].
    by rewrite findAccount_missing.
  - intros Hhas.
    destruct (findAccount_present _ _ Hgenesis Haccount Hhas) as [acc Hacc].
    do 2 eexists. simpl.
    unfold handle_PREDEPLOY_WIPE, handle_PREDEPLOY_NO_WIPE. rewrite Hacc.
    split; reflexivity.
Qed.

Lemma PREDEPLOY_handlers_need_the_entry_witness :
  @handlers Sample.externals PREDEPLOY_WIPE (Sample.account "0x01") Sample.data
    = Throw (TypeError "code")
  /\ @handlers Sample.externals PREDEPLOY_NO_WIPE (Sample.account "0x01")
       Sample.data = Throw (TypeError "code")
  /\ @handlers Sample.externals PREDEPLOY_ETH (Sample.account "0x01")
       Sample.data = Throw (TypeError "code").
Proof.
  assert (allHex (genesis Sample.data)) as Hgenesis
    by (repeat constructor).
  assert (allHex (dump Sample.data)) as Hdump by (repeat constructor).
  assert (~ hasEntry (genesis Sample.data) (Some "0x01")) as Hno.
  { intros Hhas. apply Exists_cons in Hhas as [Hhas|Hhas].
    - vm_compute in Hhas. discriminate.
    - by apply Exists_nil in Hhas. }
  destruct (@PREDEPLOY_handlers_need_the_entry Sample.externals
              (Sample.account "0x01") Sample.data eq_refl Hgenesis)
    as (Hmissing & _ & _).
  destruct (Hmissing Hno) as (Hwipe & Hkeep & Heth).
  exact (conj Hwipe (conj Hkeep (Heth Hdump eq_refl))).
Defined.

(** C9, as stated, fails on an address that is not a hexadecimal string:
    the genesis dump has no entry for it, yet the lookup raises an error
    that names the address, and no property of [undefined] is read. *)
Lemma PREDEPLOY_WIPE_rejects_malformed_address :
  ~ hasEntry (genesis Sample.data) (Some "zz")
  /\ @handlers Sample.externals PREDEPLOY_WIPE (Sample.account "zz") Sample.data
     = Throw (Error "not a hex string: zz")
  /\ occurs_in "zz" "not a hex string: zz".
Proof.
  split; [|split].
  - intros Hhas. apply Exists_cons in Hhas as [Hhas|Hhas].
    + vm_compute in Hhas. discriminate.
    + by apply Exists_nil in Hhas.
  - reflexivity.
  - apply (occurs_in_end "not a hex string: " "zz").
Qed.

(** ** The dump reader *)

Section reader.
Context `{Externals}.

(** The accounts after the listener has run on parsed account lines. *)
Local Notation "'stored'" :=
  (foldl (fun m data => assign m (show (address data)) (stripTransport data))).

Lemma assign_lookup_ne {V : Type} (object : gmap string V) (name a : string)
  (value : V) :
  a <> name -> assign object name value !! a = object !! a.
Proof.
  intros Ha. unfold assign.
  destruct (String.eqb name "__proto__"); [reflexivity|].
  by apply lookup_insert_ne.
Qed.

Lemma assign_lookup_eq {V : Type} (object : gmap string V) (name : string)
  (value : V) :
  name <> "__proto__" -> assign object name value !! name = Some value.
Proof.
  intros Hname%String.eqb_neq. unfold assign. rewrite Hname.
  apply lookup_insert_eq.
Qed.

Lemma assign_proto {V : Type} (object : gmap string V) (value : V) :
  assign object "__proto__" value = object.
Proof. reflexivity. Qed.

Lemma stripTransport_storedRecord (data : Account) :
  storedRecord data (stripTransport data).
Proof. by repeat split. Qed.

Lemma onData_invalid (state : StateDumpRoot * bool) (line : string) :
  JSON_parse_line line = None -> onData state line = Throw SyntaxError.
Proof. intros Hline. destruct state. unfold onData. by rewrite Hline. Qed.

Lemma onData_first (dump' : StateDumpRoot) (line : string) (data : Account) :
  JSON_parse_line line = Some data ->
  onData (dump', true) line
  = Return ({| dump_root := root data; accounts := accounts dump' |}, false).
Proof. intros Hline. unfold onData. by rewrite Hline. Qed.

Lemma onData_account (dump' : StateDumpRoot) (line : string) (data : Account) :
  JSON_parse_line line = Some data ->
  onData (dump', false) line
  = Return ({| dump_root := dump_root dump';
               accounts := assign (accounts dump') (show (address data))
                             (stripTransport data) |}, false).
Proof. intros Hline. unfold onData. by rewrite Hline. Qed.

Lemma onData_raises_SyntaxError (state : StateDumpRoot * bool) (line : string)
  (e : exception) :
  onData state line = Throw e -> e = SyntaxError.
Proof.
  destruct state as [dump' [|]]; unfold onData;
    destruct (JSON_parse_line line); simpl; congruence.
Qed.

Lemma foldM_onData_accounts (lines : list string) (records : list Account)
  (dump' : StateDumpRoot) :
  Forall2 (fun line data => JSON_parse_line line = Some data) lines records ->
  foldM onData (dump', false) lines
  = Return ({| dump_root := dump_root dump';
               accounts := stored (accounts dump') records |}, false).
Proof.
  intros Hlines. revert dump'.
  induction Hlines as [|line data lines records Hline _ IH]; intros dump'.
  - by destruct dump'.
  - rewrite foldM_cons, (onData_account _ _ _ Hline). simpl. by rewrite IH.
Qed.

Lemma foldM_onData_invalid (lines : list string) (state : StateDumpRoot * bool) :
  Exists (fun line => JSON_parse_line line = None) lines ->
  foldM onData state lines = Throw SyntaxError.
Proof.
  intros Hbad. revert state.
  induction lines as [|line lines IH]; intros state.
  - by apply Exists_nil in Hbad.
  - rewrite foldM_cons. destruct (onData state line) as [state'|e] eqn:Hstep.
    + simpl. apply IH. apply Exists_cons in Hbad as [Hline|Hrest]; [|done].
      by rewrite (onData_invalid _ _ Hline) in Hstep.
    + simpl. by rewrite (onData_raises_SyntaxError _ _ _ Hstep).
Qed.

Lemma stored_other (records : list Account) (m : gmap string Account)
  (a : string) :
  Forall (fun data => show (address data) <> a) records ->
  stored m records !! a = m !! a.
Proof.
  intros Hother. revert m.
  induction Hother as [|data records Hdata _ IH]; intros m; simpl.
  - reflexivity.
  - rewrite IH. by apply assign_lookup_ne.
Qed.

Lemma stored_last (before after : list Account) (data : Account)
  (m : gmap string Account) :
  show (address data) <> "__proto__" ->
  Forall (fun later => show (address later) <> show (address data)) after ->
  stored m (before ++ data :: after) !! show (address data)
  = Some (stripTransport data).
Proof.
  intros Hname Hafter. rewrite foldl_app. simpl.
  rewrite stored_other by assumption. by apply assign_lookup_eq.
Qed.

Lemma stored_proto (records : list Account) (m : gmap string Account) :
  stored m records !! "__proto__" = m !! "__proto__".
Proof.
  revert m. induction records as [|data records IH]; intros m; simpl.
  - reflexivity.
  - rewrite IH. unfold assign.
    destruct (String.eqb (show (address data)) "__proto__") eqn:Hname;
      [reflexivity|].
    apply String.eqb_neq in Hname. by apply lookup_insert_ne.
Qed.

(** C6: on a stream whose lines all parse, the promise of the reader is
    resolved with a dump whose root is the [root] of the first line.  For
    each later line whose address is not the text [__proto__], the account
    map holds under that address a record with the nonce, balance, code
    hash, storage root, code and storage of the line and without its
    [address] and [key] (the last line wins when an address repeats, and
    nothing else is in the map).  A line whose address is [__proto__] is
    not stored: the map never has that name.  The promise is resolved once
    all lines have been read; a line that is not valid JSON, wherever it
    stands, raises a [SyntaxError] in the listener that nothing catches, and
    the promise is never settled.  The listener stores each account line as
    it comes. *)
Theorem readDumpFile_builds_the_dump :
  (forall first rest firstData records,
     JSON_parse_line first = Some firstData ->
     Forall2 (fun line data => JSON_parse_line line = Some data) rest records ->
     exists dump',
       readDumpFile (first :: rest) = Resolved dump'
       /\ dump_root dump' = root firstData
       /\ (forall before data after,
             records = before ++ data :: after ->
             show (address data) <> "__proto__" ->
             Forall (fun later => show (address later) <> show (address data))
               after ->
             exists record,
               accounts dump' !! show (address data) = Some record
               /\ address record = None
               /\ key record = None
               /\ nonce record = nonce data
               /\ balance record = balance data
               /\ codeHash record = codeHash data
               /\ root record = root data
               /\ code record = code data
               /\ storage record = storage data)
       /\ (forall a,
             Forall (fun data => show (address data) <> a) records ->
             accounts dump' !! a = None)
       /\ accounts dump' !! "__proto__" = None)
  /\ (forall lines,
        Exists (fun line => JSON_parse_line line = None) lines ->
        readDumpFile lines = Unsettled SyntaxError)
  /\ (forall dump' line data,
        JSON_parse_line line = Some data ->
        exists dump'',
          onData (dump', false) line = Return (dump'', false)
          /\ dump_root dump'' = dump_root dump'
          /\ (show (address data) <> "__proto__" ->
              exists record,
                accounts dump'' !! show (address data) = Some record
                /\ address record = None
                /\ key record = None
                /\ nonce record = nonce data
                /\ balance record = balance data
                /\ codeHash record = codeHash data
                /\ root record = root data
                /\ code record = code data
                /\ storage record = storage data)
          /\ (show (address data) = "__proto__" ->
              accounts dump'' = accounts dump')
          /\ forall a, a <> show (address data) ->
               accounts dump'' !! a = accounts dump' !! a)
  /\ readDumpFile [] = Resolved emptyDump.
Proof.
  split; [|split; [|split]].
  - intros first rest firstData records Hfirst Hrest.
    eexists. split.
    + unfold readDumpFile. rewrite foldM_cons, (onData_first _ _ _ Hfirst).
      cbn [mbind result_bind].
      rewrite (foldM_onData_accounts _ _ _ Hrest). reflexivity.
    + cbn [fst dump_root accounts]. split; [reflexivity|]. split; [|split].
      * intros before data after -> Hname Hafter.
        exists (stripTransport data).
        split; [by apply stored_last|]. apply stripTransport_storedRecord.
      * intros a Ha. rewrite stored_other by assumption. apply lookup_empty.
      * rewrite stored_proto. apply lookup_empty.
  - intros lines Hbad. unfold readDumpFile.
    by rewrite foldM_onData_invalid.
  - intros dump' line data Hline. eexists. split.
    + by apply onData_account.
    + cbn [dump_root accounts]. split; [reflexivity|]. split; [|split].
      * intros Hname. exists (stripTransport data).
        split; [by apply assign_lookup_eq|]. apply stripTransport_storedRecord.
      * by intros ->.
      * intros a Ha. by apply assign_lookup_ne.
  - reflexivity.
Qed.

End reader.

Lemma readDumpFile_builds_the_dump_witness :
  (exists dump' kept other,
     @readDumpFile Sample.externals
       [ Sample.rootLine; Sample.accountLine "0x0a" "0";
         Sample.accountLine "0x0b" "0"; Sample.accountLine "0x0a" "7" ]
     = Resolved dump'
     /\ dump_root dump' = Some "0xabc"
     /\ accounts dump' !! "0x0a" = Some kept
     /\ balance kept = Some "7"
     /\ nonce kept = Some 0%Z
     /\ address kept = None
     /\ key kept = None
     /\ accounts dump' !! "0x0b" = Some other
     /\ balance other = Some "0")
  /\ (exists dump',
        @readDumpFile Sample.externals
          [ Sample.rootLine; Sample.accountLine "__proto__" "0" ]
        = Resolved dump'
        /\ accounts dump' = ∅).
Proof.
  destruct (@readDumpFile_builds_the_dump Sample.externals) as (Hall & _).
  split.
  - destruct (Hall Sample.rootLine
                [ Sample.accountLine "0x0a" "0"; Sample.accountLine "0x0b" "0";
                  Sample.accountLine "0x0a" "7" ]
                Sample.rootRecord
                [ Sample.line "0x0a" "0"; Sample.line "0x0b" "0";
                  Sample.line "0x0a" "7" ] eq_refl)
      as (dump' & Hread & Hroot & Hstored & _).
    { repeat constructor. }
    destruct (Hstored [Sample.line "0x0a" "0"; Sample.line "0x0b" "0"]
                (Sample.line "0x0a" "7") [] eq_refl)
      as (kept & Hkept & Haddress & Hkey & Hnonce & Hbalance & _);
      [discriminate|constructor|].
    destruct (Hstored [Sample.line "0x0a" "0"] (Sample.line "0x0b" "0")
                [Sample.line "0x0a" "7"] eq_refl)
      as (other & Hother & _ & _ & _ & Hbalance' & _);
      [discriminate|repeat constructor; discriminate|].
    exists dump', kept, other.
    split; [exact Hread|]. split; [exact Hroot|]. split; [exact Hkept|].
    split; [exact Hbalance|]. split; [exact Hnonce|].
    split; [exact Haddress|]. split; [exact Hkey|].
    split; [exact Hother|exact Hbalance'].
  - eexists. split; reflexivity.
Defined.

(** ** The dump validator *)

Lemma assert_equal_Return (actual expected : option string) (message : string) :
  assert_equal actual expected message = Return tt <-> actual = expected.
Proof.
  unfold assert_equal. rewrite assert_ok_Return. apply bool_decide_eq_true.
Qed.

Lemma eqb_lowerCase (s : string) :
  String.eqb (toLowerCase s) s = true <-> lowerCase s.
Proof. apply String.eqb_eq. Qed.

Lemma checkStorageEntry_Return (k v : string) :
  checkStorageEntry (k, v) = Return tt <-> lowerCase k /\ lowerCase v.
Proof.
  unfold checkStorageEntry. split.
  - intros ([] & Hk & Hv)%bind_Return.
    apply assert_ok_Return, eqb_lowerCase in Hk.
    apply assert_ok_Return, eqb_lowerCase in Hv. done.
  - intros [Hk%eqb_lowerCase Hv%eqb_lowerCase]. by rewrite Hk, Hv.
Qed.

Lemma checkStorage_Return (entries : gmap string string) :
  forEach checkStorageEntry (map_to_list entries) = Return tt
  <-> forall k v, entries !! k = Some v -> lowerCase k /\ lowerCase v.
Proof.
  rewrite forEach_Return, Forall_forall. split.
  - intros Hall k v Hkv. apply checkStorageEntry_Return, Hall.
    by apply elem_of_map_to_list.
  - intros Hall [k v] Hkv%elem_of_map_to_list.
    by apply checkStorageEntry_Return, Hall.
Qed.

Lemma checkBalance_exempt (address' : string) (account : Account) :
  startsWith address' PRECOMPILE_PREFIX = true ->
  checkBalance address' account = Return tt.
Proof. intros Hprefix. unfold checkBalance. by rewrite Hprefix. Qed.

Lemma checkBalance_subject (address' : string) (account : Account) :
  startsWith address' PRECOMPILE_PREFIX = false ->
  checkBalance address' account = Return tt <-> balance account = Some "0".
Proof.
  intros Hprefix. unfold checkBalance. rewrite Hprefix. simpl.
  apply assert_equal_Return.
Qed.

Lemma checkBalance_Return (address' : string) (account : Account) :
  checkBalance address' account = Return tt
  <-> (startsWith address' PRECOMPILE_PREFIX = false ->
       balance account = Some "0").
Proof.
  destruct (startsWith address' PRECOMPILE_PREFIX) eqn:Hprefix.
  - rewrite checkBalance_exempt by assumption. split; [discriminate | done].
  - rewrite checkBalance_subject by assumption. split; auto.
Qed.

Lemma toLowerCase_of_Some (value : option string) (lowered : string) :
  toLowerCase_of value = Return lowered ->
  exists s, value = Some s /\ lowered = toLowerCase s.
Proof. destruct value as [s|]; simpl; [|discriminate]. intros [= <-]. eauto. Qed.

(** The loop body accepts an entry exactly when the entry is valid. *)
Lemma checkAccount_Return (address' : string) (account : Account) :
  checkAccount (address', account) = Return tt <-> validEntry address' account.
Proof.
  unfold checkAccount. split.
  - intros ([] & Haddress & Hrest)%bind_Return.
    apply bind_Return in Hrest as ([] & Hnonce & Hrest).
    apply bind_Return in Hrest as (lowerHash & HlowerHash & Hrest).
    apply bind_Return in Hrest as ([] & Hhash & Hrest).
    apply bind_Return in Hrest as (lowerRoot & HlowerRoot & Hrest).
    apply bind_Return in Hrest as ([] & Hroot & Hrest).
    apply bind_Return in Hrest as ([] & Hcode & Hrest).
    apply bind_Return in Hrest as ([] & Hbalance & Hstorage).
    apply assert_ok_Return in Haddress, Hnonce.
    apply toLowerCase_of_Some in HlowerHash as (h & Hh & ->).
    apply toLowerCase_of_Some in HlowerRoot as (r & Hr & ->).
    apply assert_equal_Return in Hhash, Hroot.
    constructor.
    + by apply eqb_lowerCase.
    + destruct (nonce account) as [n|]; [eauto | discriminate].
    + exists h. split; [done|]. unfold lowerCase. congruence.
    + exists r. split; [done|]. unfold lowerCase. congruence.
    + intros c Hc. rewrite Hc in Hcode.
      by apply assert_ok_Return, eqb_lowerCase in Hcode.
    + by apply checkBalance_Return.
    + intros entries k v Hentries. rewrite Hentries in Hstorage.
      by apply checkStorage_Return.
  - intros [Haddress [n Hnonce] (h & Hh & Hlh) (r & Hr & Hlr) Hcode Hbalance
            Hstorage].
    apply eqb_lowerCase in Haddress. rewrite Haddress, Hnonce, Hh, Hr. simpl.
    unfold assert_equal. rewrite Hlh, Hlr, !bool_decide_eq_true_2 by done.
    simpl.
    assert (match code account with
            | Some code' =>
                assert_ok (String.eqb (toLowerCase code') code')
                  ("unexpected upper case character in state dump code: "
                   +:+ code')
            | None => Return tt
            end = Return tt) as ->.
    { destruct (code account) as [c|]; [|done].
      by apply assert_ok_Return, eqb_lowerCase, Hcode. }
    simpl. apply checkBalance_Return in Hbalance. rewrite Hbalance. simpl.
    destruct (storage account) as [entries|]; [|done].
    apply checkStorage_Return. intros k v. by apply Hstorage.
Qed.

Lemma checkStateDumpRoot_Return (dump' : StateDumpRoot) :
  checkStateDumpRoot dump' = Return tt
  <-> forall address' account,
        accounts dump' !! address' = Some account -> validEntry address' account.
Proof.
  unfold checkStateDumpRoot. rewrite forEach_Return, Forall_forall. split.
  - intros Hall a account Ha. apply checkAccount_Return, Hall.
    by apply elem_of_map_to_list.
  - intros Hall [a account] Ha%elem_of_map_to_list.
    by apply checkAccount_Return, Hall.
Qed.

(** C7 (amended): the validator returns without raising exactly when every
    account of the dump is valid: its address, code hash, storage root,
    its code when present and every storage key and value are unchanged by
    [toLowerCase] (they hold no upper-case letter), its nonce is a number,
    and its balance is the string [0] unless the address starts with the
    precompile prefix.  That the strings are hexadecimal is not checked. *)
Theorem checkStateDumpRoot_accepts_valid_dumps (dump' : StateDumpRoot) :
  checkStateDumpRoot dump' = Return tt
  <-> forall address' account,
        accounts dump' !! address' = Some account ->
        lowerCase address'
        /\ (exists n, nonce account = Some n)
        /\ (exists h, codeHash account = Some h /\ lowerCase h)
        /\ (exists r, root account = Some r /\ lowerCase r)
        /\ (forall c, code account = Some c -> lowerCase c)
        /\ (forall entries k v, storage account = Some entries ->
              entries !! k = Some v -> lowerCase k /\ lowerCase v)
        /\ (startsWith address' PRECOMPILE_PREFIX = false ->
            balance account = Some "0").
Proof.
  rewrite checkStateDumpRoot_Return. split.
  - intros Hall a account Ha. destruct (Hall a account Ha). tauto.
  - intros Hall a account Ha.
    destruct (Hall a account Ha) as (? & ? & ? & ? & ? & ? & ?).
    by constructor.
Qed.

Lemma checkStateDumpRoot_accepts_valid_dumps_witness :
  lowerCase "0xzz"
  /\ balance (stripTransport (Sample.line "0xzz" "0")) = Some "0".
Proof.
  destruct (proj1 (checkStateDumpRoot_accepts_valid_dumps Sample.oddDump)
              eq_refl "0xzz" (stripTransport (Sample.line "0xzz" "0")) eq_refl)
    as (Hlower & _ & _ & _ & _ & _ & Hbalance).
  exact (conj Hlower (Hbalance eq_refl)).
Defined.

(** C7, as stated, fails: the validator accepts a dump whose only address
    is not hexadecimal text. *)
Lemma checkStateDumpRoot_accepts_text_that_is_not_hex :
  checkStateDumpRoot Sample.oddDump = Return tt
  /\ (exists account, accounts Sample.oddDump !! "0xzz" = Some account)
  /\ isLowerHex "0xzz" = false
  /\ isHexString (Some "0xzz") = false.
Proof.
  split; [reflexivity|]. split; [eexists; reflexivity|]. split; reflexivity.
Qed.

(** ** The addresses exempt from the balance rule *)

Lemma hexDigit_zero (n : N) : (n < 16)%N -> hexDigit n = "0"%char <-> n = 0%N.
Proof.
  intros Hn. split; [|by intros ->].
  assert (n ∈ (N.of_nat <$> seq 0 16)) as Hcases.
  { apply list_elem_of_fmap. exists (N.to_nat n). split; [lia|].
    apply elem_of_seq. lia. }
  simpl in Hcases.
  repeat (apply elem_of_cons in Hcases as [->|Hcases];
          [try reflexivity; vm_compute; discriminate|]).
  by apply elem_of_nil in Hcases.
Qed.

Lemma hexByte_zero (b : N) : (b < 256)%N -> hexByte b = "00" <-> b = 0%N.
Proof.
  intros Hb. split; [|by intros ->]. unfold hexByte. intros [= Hhigh Hlow].
  assert (b / 16 < 16)%N as Hdiv by (apply N.Div0.div_lt_upper_bound; lia).
  assert (b mod 16 < 16)%N as Hmod by (apply N.mod_lt; lia).
  apply hexDigit_zero in Hhigh, Hlow; [|done..].
  rewrite (N.div_mod b 16) by lia. lia.
Qed.

Lemma hexByte_append (b : N) (text : string) :
  hexByte b +:+ text
  = String (hexDigit (b / 16)) (String (hexDigit (b mod 16)) text).
Proof. reflexivity. Qed.

(** The text of [n] zero bytes is a prefix of the text of [bytes] exactly
    when the first [n] bytes are zero. *)
Lemma prefix_zero_bytes (n : nat) (bytes : list N) :
  Forall (fun b => (b < 256)%N) bytes -> (n <= length bytes)%nat ->
  String.prefix (foldr (fun b text => hexByte b +:+ text) "" (replicate n 0%N))
    (foldr (fun b text => hexByte b +:+ text) "" bytes) = true
  <-> take n bytes = replicate n 0%N.
Proof.
  intros Hbytes. revert n.
  induction Hbytes as [|b bytes Hb _ IH]; intros n Hn.
  - destruct n; simpl in *; [done | lia].
  - destruct n as [|n].
    { split; [done|]. intros _. reflexivity. }
    simpl in Hn. simpl replicate. simpl take. simpl foldr.
    rewrite (hexByte_append 0), (hexByte_append b), !prefix_cons.
    change (hexDigit (0 / 16)) with "0"%char.
    change (hexDigit (0 mod 16)) with "0"%char.
    specialize (IH n ltac:(lia)).
    destruct (ascii_dec "0" (hexDigit (b / 16))) as [Hhigh|Hhigh];
      [destruct (ascii_dec "0" (hexDigit (b mod 16))) as [Hlow|Hlow]|].
    + assert (b = 0%N) as ->.
      { apply hexByte_zero; [done|]. unfold hexByte. by rewrite <- Hhigh, <- Hlow. }
      rewrite IH. split; [by intros -> | by intros [= ->]].
    + split; [discriminate|]. intros [= -> _]. by destruct Hlow.
    + split; [discriminate|]. intros [= -> _]. by destruct Hhigh.
Qed.

Lemma PRECOMPILE_PREFIX_bytes :
  PRECOMPILE_PREFIX = addressText (replicate 19 0%N).
Proof. reflexivity. Qed.

Lemma precompile_addresses (bytes : list N) :
  length bytes = 20%nat -> Forall (fun b => (b < 256)%N) bytes ->
  startsWith (addressText bytes) PRECOMPILE_PREFIX = true
  <-> exists b, (b < 256)%N /\ bytes = replicate 19 0%N ++ [b].
Proof.
  intros Hlength Hbytes. unfold startsWith.
  rewrite PRECOMPILE_PREFIX_bytes. unfold addressText.
  change (String.prefix ("0x" +:+ ?p) ("0x" +:+ ?s)) with (String.prefix p s).
  rewrite prefix_zero_bytes by (done || lia). split.
  - intros Htake.
    destruct (drop 19 bytes) as [|b [|? ?]] eqn:Hdrop;
      pose proof (f_equal length Hdrop) as Hlen;
      rewrite length_drop, Hlength in Hlen; simpl in Hlen; try lia.
    exists b. split.
    + rewrite Forall_forall in Hbytes. apply Hbytes.
      rewrite <- (take_drop 19 bytes), Hdrop. set_solver.
    + by rewrite <- (take_drop 19 bytes), Htake, Hdrop.
  - intros (b & _ & ->). by rewrite take_app_length'.
Qed.

Lemma withBalance_checkAccount (address' : string) (account : Account)
  (balance' : option string) :
  startsWith address' PRECOMPILE_PREFIX = true ->
  checkAccount (address', withBalance account balance')
  = checkAccount (address', account).
Proof.
  intros Hprefix. unfold checkAccount. simpl.
  by rewrite !checkBalance_exempt by assumption.
Qed.

(** C10: the balance assertion is skipped exactly for the addresses whose
    text starts with [0x] and 38 zeros: such an account passes it, and the
    whole loop body does not depend on its balance; any other account
    passes it only with the balance [0], so a dump the validator accepts
    has that balance on every account outside the prefix.  Among the
    twenty-byte addresses in canonical text the prefix selects those whose
    first nineteen bytes are zero, one for each value of the last byte. *)
Theorem balance_rule_exempts_the_precompile_prefix :
  PRECOMPILE_PREFIX = "0x" +:+ string_of_list_ascii (replicate 38 "0"%char)
  /\ (forall address' account,
        startsWith address' PRECOMPILE_PREFIX = true ->
        checkBalance address' account = Return tt)
  /\ (forall address' account balance',
        startsWith address' PRECOMPILE_PREFIX = true ->
        checkAccount (address', withBalance account balance')
        = checkAccount (address', account))
  /\ (forall address' account,
        startsWith address' PRECOMPILE_PREFIX = false ->
        checkBalance address' account = Return tt
        <-> balance account = Some "0")
  /\ (forall dump' address' account,
        checkStateDumpRoot dump' = Return tt ->
        accounts dump' !! address' = Some account ->
        startsWith address' PRECOMPILE_PREFIX = false ->
        balance account = Some "0")
  /\ (forall dump' address' account,
        accounts dump' !! address' = Some account ->
        startsWith address' PRECOMPILE_PREFIX = false ->
        balance account <> Some "0" ->
        raises (checkStateDumpRoot dump'))
  /\ (forall bytes,
        length bytes = 20%nat -> Forall (fun b => (b < 256)%N) bytes ->
        startsWith (addressText bytes) PRECOMPILE_PREFIX = true
        <-> exists b, (b < 256)%N /\ bytes = replicate 19 0%N ++ [b]).
Proof.
  split; [reflexivity|].
  split; [exact checkBalance_exempt|].
  split; [exact withBalance_checkAccount|].
  split; [exact checkBalance_subject|].
  split; [|split; [|exact precompile_addresses]].
  - intros dump' a account Hok Ha Hprefix.
    pose proof (proj1 (checkStateDumpRoot_Return dump') Hok) as Hall.
    destruct (Hall a account Ha). auto.
  - intros dump' a account Ha Hprefix Hbalance.
    destruct (raises_or_Return (checkStateDumpRoot dump')) as [|[[] Hok]]; [done|].
    pose proof (proj1 (checkStateDumpRoot_Return dump') Hok) as Hall.
    destruct (Hall a account Ha). tauto.
Qed.

Lemma balance_rule_exempts_the_precompile_prefix_witness :
  checkBalance "0x0000000000000000000000000000000000000004"
    (Sample.account "0x0000000000000000000000000000000000000004") = Return tt
  /\ startsWith (addressText (replicate 19 0%N ++ [255%N])) PRECOMPILE_PREFIX
     = true.
Proof.
  destruct balance_rule_exempts_the_precompile_prefix
    as (_ & Hexempt & _ & _ & _ & _ & Hbytes).
  split.
  - apply Hexempt. reflexivity.
  - apply Hbytes; [reflexivity | | ].
    + apply Forall_app. split; [by apply Forall_replicate | by repeat constructor].
    + exists 255%N. by split.
Defined.

(** ** The source resolver *)

Lemma substr_two (s : string) :
  String.eqb (substr s 0 2) "{{" = startsWith s "{{".
Proof.
  unfold substr, startsWith. apply Bool.eq_true_iff_eq. split.
  - intros Heq%String.eqb_eq.
    destruct s as [|a [|b s]]; simpl in Heq; try discriminate.
    injection Heq as -> -> _. apply (prefix_append "{{" s).
  - intros [rest ->]%prefix_split. by destruct rest.
Qed.

Lemma clamp_nonneg (n k : Z) : (0 <= k)%Z -> clamp n k = Z.min k n.
Proof. intros Hk. unfold clamp. by rewrite (proj2 (Z.ltb_ge k 0)). Qed.

Lemma clamp_neg (n k : Z) : (k < 0)%Z -> clamp n k = Z.max (n + k) 0.
Proof. intros Hk. unfold clamp. by rewrite (proj2 (Z.ltb_lt k 0)). Qed.

Lemma slice_unwraps (inner : string) :
  slice ("{" +:+ inner +:+ "}") 1 (Some (-1)%Z) = inner.
Proof.
  unfold slice, len. rewrite clamp_nonneg, clamp_neg by lia.
  rewrite append_cons, append_nil_l. simpl String.length.
  rewrite length_append. simpl String.length.
  replace (Z.to_nat (Z.min _ _)) with 1%nat by lia.
  replace (Z.to_nat _) with (String.length inner) by lia.
  simpl. apply substring_prefix.
Qed.

Section resolver.
Context `{Externals}.

Lemma unwrapSource_wrapped (inner : string) :
  startsWith inner "{" = true ->
  unwrapSource ("{" +:+ inner +:+ "}") = inner.
Proof.
  intros [rest ->]%prefix_split. unfold unwrapSource. rewrite substr_two.
  assert (startsWith ("{" +:+ ("{" +:+ rest) +:+ "}") "{{" = true) as ->
    by exact (prefix_append "{{" (rest +:+ "}")).
  apply slice_unwraps.
Qed.

Lemma unwrapSource_plain (source : string) :
  startsWith source "{{" = false -> unwrapSource source = source.
Proof. intros Hplain. unfold unwrapSource. by rewrite substr_two, Hplain. Qed.

Lemma solcInput_unparsed (contract : EtherscanContract) :
  JSON_parse (unwrapSource (sourceCode contract)) = None ->
  solcInput contract = JObject (baseInput contract).
Proof. intros Hparse. unfold solcInput. by rewrite Hparse. Qed.

Lemma solcInput_parsed (contract : EtherscanContract)
  (properties : list (string * json)) :
  JSON_parse (unwrapSource (sourceCode contract)) = Some (JObject properties) ->
  solcInput contract
  = if truthy (obj_get properties "language") then JObject properties
    else JObject [ ("language", JString "Solidity");
                   ("sources", JObject properties);
                   ("settings", settingsOf contract) ].
Proof.
  intros Hparse. unfold solcInput. rewrite Hparse. simpl.
  by destruct (truthy (obj_get properties "language")).
Qed.

(** C8: a JSON object text wrapped in one more pair of braces resolves to
    the same compiler input as the text itself; a source whose text (with
    the wrapping braces removed, if it starts with two) does not parse as
    JSON resolves to the single-file input whose only source, under the
    key [file], is the raw source text.  A text that parses to a document
    with a [language] is returned as parsed; a text that parses to any
    other value but [null] becomes the [sources] of the input, whose
    settings carry the archived optimizer flag and run count as in the
    single-file input; [null] gives the single-file input. *)
Theorem solcInput_resolves_sources :
  (forall contract inner properties,
     JSON_parse inner = Some (JObject properties) ->
     startsWith inner "{" = true ->
     startsWith inner "{{" = false ->
     solcInput (withSource contract ("{" +:+ inner +:+ "}"))
     = solcInput (withSource contract inner))
  /\ (forall contract,
        JSON_parse (unwrapSource (sourceCode contract)) = None ->
        solcInput contract
        = JObject
            [ ("language", JString "Solidity");
              ("sources",
                JObject
                  [("file",
                     JObject [("content", JString (sourceCode contract))])]);
              ("settings",
                JObject
                  [ ("outputSelection",
                      JObject [("*", JObject [("*", JArray [JString "*"])])]);
                    ("optimizer",
                      JObject
                        [ ("enabled",
                            JBool (String.eqb (optimizationUsed contract) "1"));
                          ("runs", parseInt (runs contract) 10) ]) ]) ])
  /\ (forall contract,
        startsWith (sourceCode contract) "{{" = false ->
        JSON_parse (sourceCode contract) = None ->
        solcInput contract = JObject (baseInput contract))
  /\ (forall contract properties,
        JSON_parse (unwrapSource (sourceCode contract))
        = Some (JObject properties) ->
        truthy (obj_get properties "language") = true ->
        solcInput contract = JObject properties)
  /\ (forall contract parsed,
        JSON_parse (unwrapSource (sourceCode contract)) = Some parsed ->
        parsed <> JNull ->
        (forall properties,
           parsed = JObject properties ->
           truthy (obj_get properties "language") = false) ->
        solcInput contract
        = JObject
            [ ("language", JString "Solidity");
              ("sources", parsed);
              ("settings",
                JObject
                  [ ("outputSelection",
                      JObject [("*", JObject [("*", JArray [JString "*"])])]);
                    ("optimizer",
                      JObject
                        [ ("enabled",
                            JBool (String.eqb (optimizationUsed contract) "1"));
                          ("runs", parseInt (runs contract) 10) ]) ]) ])
  /\ (forall contract,
        JSON_parse (unwrapSource (sourceCode contract)) = Some JNull ->
        solcInput contract = JObject (baseInput contract)).
Proof.
  split; [|split; [|split; [|split; [|split]]]].
  - intros contract inner properties Hparse Hbrace Hsingle.
    rewrite !solcInput_parsed with (properties := properties); [done|..].
    + simpl. by rewrite unwrapSource_plain.
    + simpl. by rewrite unwrapSource_wrapped.
  - intros contract Hparse. by rewrite solcInput_unparsed.
  - intros contract Hplain Hparse. apply solcInput_unparsed.
    by rewrite unwrapSource_plain.
  - intros contract properties Hparse Hlanguage.
    by rewrite (solcInput_parsed _ _ Hparse), Hlanguage.
  - intros contract parsed Hparse Hnull Hlanguage. unfold solcInput.
    rewrite Hparse.
    destruct parsed as [| | | | |items|properties]; try reflexivity; [done|].
    cbn [mbind result_bind json_get try_catch].
    by rewrite (Hlanguage properties eq_refl).
  - intros contract Hparse. unfold solcInput. by rewrite Hparse.
Qed.

End resolver.

Lemma solcInput_resolves_sources_witness :
  @solcInput Sample.externals
    (withSource (Sample.contract "0xaa" "v0.7.6") "{{}}")
  = @solcInput Sample.externals
      (withSource (Sample.contract "0xaa" "v0.7.6") "{}")
  /\ @solcInput Sample.externals
       (withSource (Sample.contract "0xaa" "v0.7.6")
          ("{" +:+ Sample.languageDocument +:+ "}"))
     = @solcInput Sample.externals
         (withSource (Sample.contract "0xaa" "v0.7.6") Sample.languageDocument)
  /\ @solcInput Sample.externals
       (withSource (Sample.contract "0xaa" "v0.7.6") "{}")
     = JObject
         [ ("language", JString "Solidity");
           ("sources", JObject []);
           ("settings",
             JObject
               [ ("outputSelection",
                   JObject [("*", JObject [("*", JArray [JString "*"])])]);
                 ("optimizer",
                   JObject [ ("enabled", JBool true);
                             ("runs", JNumber 200) ]) ]) ].
Proof.
  destruct (@solcInput_resolves_sources Sample.externals)
    as (Hwrapped & _ & _ & _ & Hsources & _).
  split; [|split].
  - exact (Hwrapped (Sample.contract "0xaa" "v0.7.6") "{}" [] eq_refl eq_refl
             eq_refl).
  - exact (Hwrapped (Sample.contract "0xaa" "v0.7.6") Sample.languageDocument
             [("language", JString "Solidity")] eq_refl eq_refl eq_refl).
  - refine (Hsources (withSource (Sample.contract "0xaa" "v0.7.6") "{}")
              (JObject []) eq_refl _ _); [discriminate|].
    intros properties [= <-]. reflexivity.
Defined.

(** ** The VERIFIED handler and the relocation of immutables *)

Section relocation.
Context `{Externals}.

Lemma truthy_string_Some (s : string) :
  s <> "" -> truthy_string (Some s) = true.
Proof. intros Hs. simpl. by apply negb_true_iff, String.eqb_neq. Qed.

Lemma selectContract_file
  (contracts' : gmap string (gmap string ContractOutput))
  (contract : EtherscanContract) (file : gmap string ContractOutput) :
  contracts' !! fileKey contract = Some file ->
  selectContract (Some contracts') contract
  = Return (file !! contractName contract).
Proof. intros Hfile. unfold selectContract. simpl. by rewrite Hfile. Qed.

Lemma selectContract_no_file
  (contracts' : gmap string (gmap string ContractOutput))
  (contract : EtherscanContract) :
  contracts' !! fileKey contract = None ->
  selectContract (Some contracts') contract
  = Throw (TypeError (contractName contract)).
Proof. intros Hfile. unfold selectContract. simpl. by rewrite Hfile. Qed.

(** On a run that reaches the relocation loop the handler returns what the
    loop makes of the account that carries the new bytecode. *)
Lemma handle_VERIFIED_relocates (account : Account) (data : SurgeryDataSources)
  (contract : EtherscanContract) (object : string) (refs : immutableReferences)
  (hash : string) (ovmBytecode : DeployedBytecode) :
  reachesRelocation account data contract object refs hash ovmBytecode ->
  handle_VERIFIED account data
  = relocated ← relocateImmutables (Some (BytecodeObject object (Some refs)))
                  (bytecodeText ovmBytecode) (bytecodeRefs ovmBytecode) refs
                  (withFields account (address account) (Some object)
                     (Some hash) (storage account));
    Return (Some relocated).
Proof.
  intros [Hcontract (version & Hversion & Hnonempty & contracts' & file
                     & Hcontracts & Hfile & Hmain)
            Hrefs Hhash (ovmContracts & ovmFile & HovmContracts & HovmFile
                         & Hovm)].
  unfold handle_VERIFIED. rewrite Hcontract, Hversion.
  rewrite truthy_string_Some by assumption. simpl negb. cbv iota.
  change (show (Some version)) with version. rewrite Hcontracts.
  rewrite (selectContract_file _ _ _ Hfile), Hmain.
  cbn [mbind result_bind read deployedBytecode bytecodeObject bytecodeRefs].
  rewrite Hhash.
  cbn [mbind result_bind read deployedBytecode bytecodeObject bytecodeRefs].
  destruct refs as [|entry refs]; [done|].
  rewrite HovmContracts, (selectContract_file _ _ _ HovmFile), Hovm.
  reflexivity.
Qed.

Lemma relocateOccurrence_no_range (mainBytecode : option DeployedBytecode)
  (ovmObject : string) (ovmValue : list immutableReference)
  (account : Account) (i : nat) (ref : immutableReference) :
  ovmValue !! i = None ->
  relocateOccurrence mainBytecode ovmObject ovmValue account (i, ref)
  = Throw (TypeError "length").
Proof. intros Hi. unfold relocateOccurrence. by rewrite Hi. Qed.

Lemma relocateOccurrence_length_mismatch
  (mainBytecode : option DeployedBytecode) (ovmObject : string)
  (ovmValue : list immutableReference) (account : Account) (i : nat)
  (ref ovmRef : immutableReference) :
  ovmValue !! i = Some ovmRef ->
  ref_length ref <> ref_length ovmRef ->
  relocateOccurrence mainBytecode ovmObject ovmValue account (i, ref)
  = Throw (Error "length mismatch").
Proof.
  intros Hi Hlength. unfold relocateOccurrence. rewrite Hi.
  by rewrite (proj2 (Z.eqb_neq _ _) Hlength).
Qed.

Lemma relocateOccurrence_size_mismatch (bytecode : DeployedBytecode)
  (ovmObject : string) (ovmValue : list immutableReference)
  (account : Account) (i : nat) (ref ovmRef : immutableReference) :
  ovmValue !! i = Some ovmRef ->
  ref_length ref = ref_length ovmRef ->
  String.length (splice (bytecodeText bytecode) ref (rangeOf ovmObject ovmRef))
  <> String.length (bytecodeText bytecode) ->
  relocateOccurrence (Some bytecode) ovmObject ovmValue account (i, ref)
  = Throw (Error ("mismatch in size: "
                  +:+ showNat (String.length
                                 (splice (bytecodeText bytecode) ref
                                    (rangeOf ovmObject ovmRef)))
                  +:+ " vs "
                  +:+ showNat (String.length (bytecodeText bytecode)))).
Proof.
  intros Hi Hlength Hsize. unfold relocateOccurrence. rewrite Hi, Hlength.
  rewrite Z.eqb_refl. simpl negb. cbv iota. fold (rangeOf ovmObject ovmRef).
  unfold len. rewrite (proj2 (Z.eqb_neq _ _)); [reflexivity | lia].
Qed.

(** What one step of the inner loop returns when it returns: the new
    bytecode with the single range [ref] replaced.  The working copy of the
    account contributes its other properties, not its code. *)
Lemma relocateOccurrence_Return (mainBytecode : option DeployedBytecode)
  (ovmObject : string) (ovmValue : list immutableReference)
  (account relocated : Account) (i : nat) (ref : immutableReference) :
  relocateOccurrence mainBytecode ovmObject ovmValue account (i, ref)
  = Return relocated ->
  exists bytecode ovmRef hash,
    mainBytecode = Some bytecode
    /\ ovmValue !! i = Some ovmRef
    /\ ref_length ref = ref_length ovmRef
    /\ code relocated
       = Some (splice (bytecodeText bytecode) ref (rangeOf ovmObject ovmRef))
    /\ String.length (splice (bytecodeText bytecode) ref
                        (rangeOf ovmObject ovmRef))
       = String.length (bytecodeText bytecode)
    /\ keccak256 (code relocated) = Return hash
    /\ codeHash relocated = Some hash
    /\ address relocated = address account
    /\ nonce relocated = nonce account
    /\ balance relocated = balance account
    /\ storage relocated = storage account
    /\ root relocated = root account.
Proof.
  unfold relocateOccurrence.
  destruct (ovmValue !! i) as [ovmRef|]; [|discriminate].
  destruct (ref_length ref =? ref_length ovmRef)%Z eqn:Hlength; [|discriminate].
  simpl negb. cbv iota.
  destruct mainBytecode as [bytecode|]; [|discriminate].
  fold (rangeOf ovmObject ovmRef).
  destruct (len _ =? len _)%Z eqn:Hsize; [|discriminate]. simpl negb. cbv iota.
  intros (hash & Hhash & [= <-])%bind_Return.
  exists bytecode, ovmRef, hash. simpl.
  apply Z.eqb_eq in Hlength, Hsize. unfold len in Hsize.
  repeat split; try done. lia.
Qed.

Lemma relocateImmutable_no_entry (mainBytecode : option DeployedBytecode)
  (ovmObject : string) (ovmTable : immutableReferences) (account : Account)
  (key' : string) (value : list immutableReference) :
  obj_get ovmTable key' = None ->
  relocateImmutable mainBytecode ovmObject (Some ovmTable) account (key', value)
  = Throw (Error "cannot find ast in ovm compiler output").
Proof. intros Hkey. unfold relocateImmutable. simpl. by rewrite Hkey. Qed.

Lemma relocateImmutable_raises (mainBytecode : option DeployedBytecode)
  (ovmObject : string) (ovmTable : immutableReferences) (account : Account)
  (key' : string) (value ovmValue : list immutableReference) (i : nat)
  (ref : immutableReference) :
  obj_get ovmTable key' = Some ovmValue ->
  value !! i = Some ref ->
  (forall working,
     raises (relocateOccurrence mainBytecode ovmObject ovmValue working (i, ref))) ->
  raises (relocateImmutable mainBytecode ovmObject (Some ovmTable) account
            (key', value)).
Proof.
  intros Hkey Hi Hstep. unfold relocateImmutable. simpl. rewrite Hkey.
  apply foldM_raises with (x := (i, ref)); [|exact Hstep].
  apply list_elem_of_lookup. exists i. by rewrite list_lookup_imap, Hi.
Qed.

End relocation.

(** C2: on a run of the VERIFIED handler that reaches the relocation loop,
    each of these makes the handler raise: the old compilation has no
    entry for a named immutable of the new one (or no immutable references
    at all); a range of the new compilation and the range at the same
    position of the old one differ in length; the bytecode after a splice
    differs in length from the bytecode before it. *)
Theorem relocation_failures_are_fatal `{Externals}
  (account : Account) (data : SurgeryDataSources)
  (contract : EtherscanContract) (object : string) (refs : immutableReferences)
  (hash : string) (ovmBytecode : DeployedBytecode) :
  reachesRelocation account data contract object refs hash ovmBytecode ->
  (bytecodeRefs ovmBytecode = None ->
     raises (handlers VERIFIED account data))
  /\ (forall ovmTable key' value,
        bytecodeRefs ovmBytecode = Some ovmTable ->
        (key', value) ∈ refs ->
        obj_get ovmTable key' = None ->
        raises (handlers VERIFIED account data))
  /\ (forall ovmTable key' value ovmValue i ref ovmRef,
        bytecodeRefs ovmBytecode = Some ovmTable ->
        (key', value) ∈ refs ->
        obj_get ovmTable key' = Some ovmValue ->
        value !! i = Some ref ->
        ovmValue !! i = Some ovmRef ->
        ref_length ref <> ref_length ovmRef ->
        raises (handlers VERIFIED account data))
  /\ (forall ovmTable key' value ovmValue i ref ovmRef,
        bytecodeRefs ovmBytecode = Some ovmTable ->
        (key', value) ∈ refs ->
        obj_get ovmTable key' = Some ovmValue ->
        value !! i = Some ref ->
        ovmValue !! i = Some ovmRef ->
        String.length (splice object ref
                         (rangeOf (bytecodeText ovmBytecode) ovmRef))
        <> String.length object ->
        raises (handlers VERIFIED account data)).
Proof.
  intros Hreaches. simpl handlers.
  rewrite (handle_VERIFIED_relocates _ _ _ _ _ _ _ Hreaches).
  destruct Hreaches as [_ _ Hrefs _ _].
  split; [|split; [|split]].
  - intros Hnone. apply bind_raises_l. rewrite Hnone.
    destruct refs as [|[key' value] refs]; [done|].
    unfold relocateImmutables. rewrite foldM_cons.
    apply bind_raises_l, raises_Throw.
  - intros ovmTable key' value -> Hin Hkey. apply bind_raises_l.
    apply foldM_raises with (x := (key', value)); [done|]. intros working.
    rewrite relocateImmutable_no_entry by done. apply raises_Throw.
  - intros ovmTable key' value ovmValue i ref ovmRef -> Hin Hkey Hi Hovm Hlen.
    apply bind_raises_l.
    apply foldM_raises with (x := (key', value)); [done|]. intros working.
    eapply relocateImmutable_raises; [done..|]. intros working'.
    erewrite relocateOccurrence_length_mismatch by done. apply raises_Throw.
  - intros ovmTable key' value ovmValue i ref ovmRef -> Hin Hkey Hi Hovm Hsize.
    apply bind_raises_l.
    apply foldM_raises with (x := (key', value)); [done|]. intros working.
    eapply relocateImmutable_raises; [done..|]. intros working'.
    destruct (decide (ref_length ref = ref_length ovmRef)) as [Hlen|Hlen].
    + erewrite relocateOccurrence_size_mismatch by done. apply raises_Throw.
    + erewrite relocateOccurrence_length_mismatch by done. apply raises_Throw.
Qed.

Lemma sample_reachesRelocation (address' version solc : string)
  (newRefs ovmRefs : immutableReferences) :
  @findContract (Sample.account address') Sample.data
    = Some (Sample.contract address' version) ->
  @COMPILER_VERSIONS_TO_SOLC Sample.externals !! version = Some solc ->
  solc <> "" ->
  newRefs <> [] ->
  Sample.compilers ("solc-emscripten-wasm32-" +:+ solc +:+ ".js") JNull
    = Sample.artifact Sample.newObject newRefs ->
  Sample.compilers ("solc-emscripten-wasm32-" +:+ version +:+ ".js") JNull
    = Sample.artifact Sample.ovmObject ovmRefs ->
  @reachesRelocation Sample.externals (Sample.account address') Sample.data
    (Sample.contract address' version) Sample.newObject newRefs
    "keccak256(0xaa00000000bb00000000cc)"
    (BytecodeObject Sample.ovmObject (Some ovmRefs)).
Proof.
  intros Hfind Hversion Hsolc Hrefs Hnew Hovm.
  constructor; [exact Hfind | | exact Hrefs | reflexivity |].
  - exists solc. split; [exact Hversion|]. split; [exact Hsolc|].
    do 2 eexists. split; [|split].
    + unfold getSolc. simpl require_solc. unfold Sample.compilers in *.
      rewrite Hnew. reflexivity.
    + reflexivity.
    + reflexivity.
  - do 2 eexists. split; [|split].
    + unfold getSolc. simpl require_solc. unfold Sample.compilers in *.
      simpl compilerVersion. rewrite Hovm. reflexivity.
    + reflexivity.
    + reflexivity.
Qed.

Lemma relocation_failures_are_fatal_witness :
  raises (@handlers Sample.externals VERIFIED (Sample.account "0xff")
            Sample.data).
Proof.
  assert (@reachesRelocation Sample.externals (Sample.account "0xff")
            Sample.data (Sample.contract "0xff" "v0.6.0") Sample.newObject
            Sample.ranges "keccak256(0xaa00000000bb00000000cc)"
            (BytecodeObject Sample.ovmObject (Some Sample.shorterRanges)))
    as Hreaches.
  { apply sample_reachesRelocation with (solc := "v0.6.0+commit.9c3226ce");
      (reflexivity || discriminate). }
  destruct (@relocation_failures_are_fatal Sample.externals _ _ _ _ _ _ _
              Hreaches) as (_ & _ & Hlength & _).
  apply (Hlength Sample.shorterRanges "7"
           [ {| ref_start := 2; ref_length := 8 |} ]
           [ {| ref_start := 2; ref_length := 6 |} ] 0%nat
           {| ref_start := 2; ref_length := 8 |}
           {| ref_start := 2; ref_length := 6 |});
    try reflexivity.
  - set_solver.
  - simpl. lia.
Defined.

Section compilation.
Context `{Externals}.




(** When the compiler's [contracts] has no entry for the file at all, the
    lookup reads the contract name on [undefined]. *)
Lemma VERIFIED_missing_file_is_a_TypeError
  (account : Account) (data : SurgeryDataSources)
  (contract : EtherscanContract) (version : string)
  (contracts' : gmap string (gmap string ContractOutput)) :
  findContract account data = Some contract ->
  COMPILER_VERSIONS_TO_SOLC !! compilerVersion contract = Some version ->
  version <> "" ->
  contracts (getSolc version false (solcInput contract)) = Some contracts' ->
  contracts' !! fileKey contract = None ->
  handlers VERIFIED account data = Throw (TypeError (contractName contract)).
Proof.
  intros Hfind Hversion Hnonempty Hcontracts Hfile.
  simpl handlers. unfold handle_VERIFIED.
  rewrite Hfind, Hversion, truthy_string_Some by assumption.
  simpl negb. cbv iota. change (show (Some version)) with version.
  by rewrite Hcontracts, (selectContract_no_file _ _ Hfile).
Qed.

End compilation.



(** ** The relocation keeps the last splice only *)

(** C1: the handler on a contract with two immutables.  With the new
    bytecode [0xaa00000000bb00000000cc], the immutables at the ranges 4..12
    and 14..22 of that text, and the old bytecode
    [0xdd11111111ee22222222ff] with the same ranges, the result has the
    length of the new bytecode and carries the second value, but the first
    range still holds the zeros of the new compilation: each splice starts
    from the compiled bytecode, not from the result of the splice before
    it.  The relocation the specification describes yields
    [0xaa11111111bb22222222cc].  With the same bytecode written without
    the prefix [0x] (and the ranges 2..10 and 12..20), the handler raises
    at the first splice, whose result it hashes as it is, where it hashed
    the compiled bytecode with the prefix added. *)
Theorem VERIFIED_relocation_drops_earlier_splices :
  (exists relocated code',
     @handlers Prefixed.externals VERIFIED (Sample.account "0xaa") Sample.data
       = Return (Some relocated)
     /\ code relocated = Some code'
     /\ code' = "0xaa00000000bb22222222cc"
     /\ String.length code' = String.length Prefixed.newObject
     /\ rangeOf code' {| ref_start := 14; ref_length := 8 |}
        = rangeOf Prefixed.ovmObject {| ref_start := 14; ref_length := 8 |}
     /\ rangeOf code' {| ref_start := 4; ref_length := 8 |} = "00000000"
     /\ rangeOf Prefixed.ovmObject {| ref_start := 4; ref_length := 8 |}
        = "11111111"
     /\ relocateSequential Prefixed.ovmObject
          [ ({| ref_start := 4; ref_length := 8 |},
             {| ref_start := 4; ref_length := 8 |});
            ({| ref_start := 14; ref_length := 8 |},
             {| ref_start := 14; ref_length := 8 |}) ]
          Prefixed.newObject
        = "0xaa11111111bb22222222cc")
  /\ @handlers Sample.externals VERIFIED (Sample.account "0xaa") Sample.data
     = Throw (Error "invalid arrayify value")
  /\ @keccak256 Sample.externals
       (@add0x Sample.externals (Some Sample.newObject))
     = Return "keccak256(0xaa00000000bb00000000cc)"
  /\ @keccak256 Sample.externals (Some "aa11111111bb00000000cc")
     = Throw (Error "invalid arrayify value").
Proof.
  split; [|repeat split].
  do 2 eexists. split; [vm_compute; reflexivity|].
  split; [reflexivity|]. repeat split.
Qed.

Section relocation_invariants.
Context `{Externals}.

(** The result of one splice does not depend on the code of the working
    copy: no splice builds on an earlier one. *)
Lemma relocateOccurrence_ignores_working_code
  (mainBytecode : option DeployedBytecode) (ovmObject : string)
  (ovmValue : list immutableReference) (occurrence : nat * immutableReference)
  (working working' relocated relocated' : Account) :
  relocateOccurrence mainBytecode ovmObject ovmValue working occurrence
  = Return relocated ->
  relocateOccurrence mainBytecode ovmObject ovmValue working' occurrence
  = Return relocated' ->
  code relocated = code relocated' /\ codeHash relocated = codeHash relocated'.
Proof.
  destruct occurrence as [i ref].
  intros (b & r & h & Hb & Hr & _ & Hcode & _ & Hhash & HcodeHash & _)
           %relocateOccurrence_Return
         (b' & r' & h' & Hb' & Hr' & _ & Hcode' & _ & Hhash' & HcodeHash' & _)
           %relocateOccurrence_Return.
  assert (code relocated = code relocated') as Heq by congruence.
  split; [exact Heq|]. congruence.
Qed.

Lemma relocateImmutables_invariant (bytecode : DeployedBytecode)
  (ovmObject : string) (ovmImmutableRefs : option immutableReferences)
  (refs : immutableReferences) (account working relocated : Account) :
  relocationInvariant (bytecodeText bytecode) account working ->
  relocateImmutables (Some bytecode) ovmObject ovmImmutableRefs refs working
  = Return relocated ->
  relocationInvariant (bytecodeText bytecode) account relocated.
Proof.
  unfold relocateImmutables. intros Hworking Hloop.
  refine (foldM_invariant _ (relocationInvariant _ account) _ _ _ _ Hloop
            Hworking).
  clear. intros working [key' value] relocated Hstep Hworking.
  unfold relocateImmutable in Hstep.
  apply bind_Return in Hstep as (ovmValue & _ & Hstep).
  destruct ovmValue as [ovmValue|]; [|discriminate].
  refine (foldM_invariant _ (relocationInvariant _ account) _ _ _ _ Hstep
            Hworking).
  clear. intros working [i ref] relocated Hstep
    (_ & Haddress & Hnonce & Hbalance & Hstorage & Hroot).
  apply relocateOccurrence_Return in Hstep
    as (b & r & h & [= <-] & _ & _ & Hcode & Hlength & _ & _ & Haddress'
        & Hnonce' & Hbalance' & Hstorage' & Hroot').
  split; [eauto|]. repeat split; congruence.
Qed.

(** When the handler returns from the relocation loop, the code of the
    result has the length of the newly compiled bytecode, and address,
    nonce, balance, storage and storage root are those of the input. *)
Lemma VERIFIED_relocation_preserves_length (account relocated : Account)
  (data : SurgeryDataSources) (contract : EtherscanContract) (object : string)
  (refs : immutableReferences) (hash : string) (ovmBytecode : DeployedBytecode) :
  reachesRelocation account data contract object refs hash ovmBytecode ->
  handlers VERIFIED account data = Return (Some relocated) ->
  relocationInvariant object account relocated.
Proof.
  intros Hreaches. simpl handlers.
  rewrite (handle_VERIFIED_relocates _ _ _ _ _ _ _ Hreaches).
  intros (relocated' & Hloop & [= <-])%bind_Return.
  refine (relocateImmutables_invariant (BytecodeObject object (Some refs))
            _ _ _ account _ _ _ Hloop).
  split; [by exists object|]. by repeat split.
Qed.

End relocation_invariants.

(** * Further properties of the scripts *)

(** ** The comparison of addresses ([hexStringEqual], [findAccount]) *)

Lemma lower_idempotent (c : ascii) : lower (lower c) = lower c.
Proof. destruct c as [[] [] [] [] [] [] [] []]; reflexivity. Qed.

Lemma toLowerCase_idempotent (s : string) :
  toLowerCase (toLowerCase s) = toLowerCase s.
Proof.
  induction s as [|c s IH]; simpl; [reflexivity|].
  by rewrite lower_idempotent, IH.
Qed.

Lemma isHexDigit_lower (c : ascii) : isHexDigit (lower c) = isHexDigit c.
Proof. destruct c as [[] [] [] [] [] [] [] []]; reflexivity. Qed.

Lemma allHexDigits_toLowerCase (s : string) :
  allHexDigits (toLowerCase s) = allHexDigits s.
Proof.
  induction s as [|c s IH]; simpl; [reflexivity|].
  by rewrite isHexDigit_lower, IH.
Qed.

Lemma isHexString_Some (value : option string) :
  isHexString value = true <->
  exists digits, value = Some ("0x" +:+ digits) /\ allHexDigits digits = true.
Proof.
  split.
  - destruct value as [[|c [|d digits]]|]; simpl; try discriminate;
      destruct c as [[] [] [] [] [] [] [] []]; try discriminate.
    destruct d as [[] [] [] [] [] [] [] []]; try discriminate.
    intros Hdigits. exists digits. split; [reflexivity|exact Hdigits].
  - intros (digits & -> & Hdigits). exact Hdigits.
Qed.

Lemma isHexString_toLowerCase (s : string) :
  isHexString (Some s) = true -> isHexString (Some (toLowerCase s)) = true.
Proof.
  intros (digits & [= ->] & Hdigits)%isHexString_Some.
  apply isHexString_Some. exists (toLowerCase digits).
  by rewrite allHexDigits_toLowerCase.
Qed.

Lemma hexStringEqual_Return (a b : option string) (r : bool) :
  hexStringEqual a b = Return r <->
  isHexString a = true /\ isHexString b = true /\ r = sameAddress a b.
Proof.
  unfold hexStringEqual.
  destruct (isHexString a), (isHexString b); simpl; split;
    try discriminate; try (by intros (? & ? & ?)).
  - by intros [= <-].
  - by intros (_ & _ & ->).
Qed.

(** X1.  Whenever [hexStringEqual] returns, both operands are hexadecimal
    strings, the result tells whether they agree once lower-cased, the
    comparison gives the same result with the operands exchanged, and the
    first operand equals its own lower-case form. *)
Theorem hexStringEqual_compares_modulo_case (a b : option string) (r : bool) :
  hexStringEqual a b = Return r ->
  isHexString a = true /\ isHexString b = true
  /\ (r = true <-> toLowerCase (show a) = toLowerCase (show b))
  /\ hexStringEqual b a = Return r
  /\ hexStringEqual a (Some (toLowerCase (show a))) = Return true.
Proof.
  intros (Ha & Hb & ->)%hexStringEqual_Return.
  split; [done|]. split; [done|]. split; [apply String.eqb_eq|].
  split.
  - apply hexStringEqual_Return. repeat split; try done.
    unfold sameAddress. apply String.eqb_sym.
  - apply hexStringEqual_Return. split; [done|].
    destruct a as [a|]; [|discriminate]. split.
    + by apply isHexString_toLowerCase.
    + unfold sameAddress. simpl.
      by rewrite toLowerCase_idempotent, String.eqb_refl.
Qed.

Lemma hexStringEqual_compares_modulo_case_witness :
  hexStringEqual (Some "0xAbC1") (Some "0xaBc1") = Return true
  /\ hexStringEqual (Some "0xaBc1") (Some "0xAbC1") = Return true
  /\ hexStringEqual (Some "0xAbC1") (Some "0xabc1") = Return true.
Proof.
  assert (hexStringEqual (Some "0xAbC1") (Some "0xaBc1") = Return true)
    as Hrun by reflexivity.
  split; [exact Hrun|].
  destruct (hexStringEqual_compares_modulo_case _ _ _ Hrun)
    as (_ & _ & _ & Hswap & Hlower).
  split; [exact Hswap|exact Hlower].
Defined.

(** X2.  [hexStringEqual] raises exactly when an operand is not a
    hexadecimal string, and the message names the first such operand: the
    first operand whenever it is malformed, whatever the second is; an
    operand that is missing is named [undefined]. *)
Theorem hexStringEqual_names_the_first_malformed_operand (a b : option string) :
  (raises (hexStringEqual a b)
   <-> isHexString a = false \/ isHexString b = false)
  /\ (isHexString a = false ->
      hexStringEqual a b = Throw (Error ("not a hex string: " +:+ show a)))
  /\ (isHexString a = true -> isHexString b = false ->
      hexStringEqual a b = Throw (Error ("not a hex string: " +:+ show b)))
  /\ hexStringEqual None b = Throw (Error "not a hex string: undefined").
Proof.
  unfold hexStringEqual, raises.
  split; [|split; [|split]].
  - destruct (isHexString a), (isHexString b); simpl; split; eauto;
      try (by intros [e He]); by intros [|].
  - by intros ->.
  - by intros -> ->.
  - reflexivity.
Qed.

Lemma findAccount_first (dump' : StateDump) (address' : option string)
  (account : Account) :
  isHexString address' = true -> firstEntry dump' address' account ->
  findAccount dump' address' = Return (Some account).
Proof.
  intros Ha (before & after & -> & Hbefore & Hhex & Hsame).
  unfold findAccount.
  induction Hbefore as [|acc before [Hacc Hother] _ IH]; simpl.
  - by rewrite (hexStringEqual_hex _ _ Hhex Ha), Hsame.
  - by rewrite (hexStringEqual_hex _ _ Hacc Ha), Hother.
Qed.

Lemma findAccount_Return (dump' : StateDump) (address' : option string)
  (found : option Account) :
  findAccount dump' address' = Return found ->
  match found with
  | Some account =>
      isHexString address' = true /\ firstEntry dump' address' account
  | None =>
      allHex dump' /\ ~ hasEntry dump' address'
      /\ (dump' = [] \/ isHexString address' = true)
  end.
Proof.
  unfold findAccount, allHex, hasEntry.
  induction dump' as [|acc dump' IH]; simpl.
  - intros [= <-]. split; [constructor|]. split; [|by left].
    by intros ?%Exists_nil.
  - intros (b & (Hacc & Ha & ->)%hexStringEqual_Return & Hrest)%bind_Return.
    destruct (sameAddress (address acc) address') eqn:Hsame.
    + injection Hrest as <-. split; [done|].
      exists [], dump'. repeat split; done.
    + specialize (IH Hrest). destruct found as [account|].
      * destruct IH as (_ & before & after & -> & Hbefore & Hhex & Hmatch).
        split; [done|]. exists (acc :: before), after.
        repeat split; try done. by constructor.
      * destruct IH as (Hall & Hno & _).
        split; [by constructor|]. split; [|by right].
        intros [Hhere|Hlater]%Exists_cons; [congruence|done].
Qed.

(** X3.  [findAccount] returns an account exactly when the address asked
    for is a hexadecimal string and the account is the first entry of the
    dump whose address agrees with it up to case, all addresses up to that
    entry being hexadecimal strings; entries after it are not looked at. *)
Theorem findAccount_returns_the_first_match (dump' : StateDump)
  (address' : option string) (account : Account) :
  findAccount dump' address' = Return (Some account)
  <-> isHexString address' = true /\ firstEntry dump' address' account.
Proof.
  split.
  - apply (findAccount_Return dump' address' (Some account)).
  - intros [Ha Hfirst]. by apply findAccount_first.
Qed.

(** X4.  [findAccount] returns [undefined] exactly when every address of
    the dump is a hexadecimal string, none agrees with the address asked
    for, and that address is a hexadecimal string unless the dump is empty:
    on the empty dump the address is never checked. *)
Theorem findAccount_returns_undefined (dump' : StateDump)
  (address' : option string) :
  findAccount dump' address' = Return None
  <-> allHex dump' /\ ~ hasEntry dump' address'
      /\ (dump' = [] \/ isHexString address' = true).
Proof.
  split.
  - apply (findAccount_Return dump' address' None).
  - intros (Hall & Hno & [->|Ha]); [reflexivity|].
    by apply findAccount_missing.
Qed.

(** X5.  The failures of [findAccount]: with a malformed address to look
    for, a non-empty dump raises at its first entry, naming that entry's
    address if it is malformed too and the address asked for otherwise;
    with a well-formed one, the first entry with a malformed address raises,
    naming it, unless an entry before it matches. *)
Theorem findAccount_reports_malformed_addresses (address' : option string) :
  (forall acc rest,
     isHexString address' = false ->
     findAccount (acc :: rest) address'
     = Throw (Error ("not a hex string: "
                     +:+ show (if isHexString (address acc) then address'
                               else address acc))))
  /\ (forall before acc after,
        isHexString address' = true ->
        Forall (fun a => isHexString (address a) = true
                         /\ sameAddress (address a) address' = false) before ->
        isHexString (address acc) = false ->
        findAccount (before ++ acc :: after) address'
        = Throw (Error ("not a hex string: " +:+ show (address acc)))).
Proof.
  unfold findAccount. split.
  - intros acc rest Ha. simpl. unfold hexStringEqual. rewrite Ha.
    by destruct (isHexString (address acc)).
  - intros before acc after Ha Hbefore Hacc.
    induction Hbefore as [|a before [Hhex Hother] _ IH]; simpl.
    + unfold hexStringEqual. by rewrite Hacc.
    + by rewrite (hexStringEqual_hex _ _ Hhex Ha), Hother.
Qed.

(** ** The configuration ([reqenv], [loadConfigs]) *)

Lemma reqenv_Return (env : gmap string string) (name value : string) :
  reqenv env name = Return value <-> env !! name = Some value.
Proof.
  unfold reqenv. destruct (env !! name); split; congruence.
Qed.

Lemma reqenv_defined (env : gmap string string) (name : string) :
  is_Some (env !! name) -> exists value, reqenv env name = Return value.
Proof. unfold reqenv. intros [value ->]. by exists value. Qed.

Lemma reqenv_missing (env : gmap string string) (name : string) :
  env !! name = None ->
  reqenv env name = Throw (Error ("missing env var " +:+ name)).
Proof. unfold reqenv. by intros ->. Qed.

(** X6.  [loadConfigs] returns a configuration exactly when the seven
    variables are defined in the environment and the network name is
    [mainnet] or [kovan]; each property of the configuration is then the
    value of its variable. *)
Theorem loadConfigs_returns_the_environment (env : gmap string string)
  (configs : SurgeryConfigs) :
  loadConfigs env = Return configs
  <-> env !! "REGEN__STATE_DUMP_FILE" = Some (stateDumpFilePath configs)
      /\ env !! "REGEN__ETHERSCAN_FILE" = Some (etherscanFilePath configs)
      /\ env !! "REGEN__L2_PROVIDER_URL" = Some (l2ProviderUrl configs)
      /\ env !! "REGEN__L2_NETWORK_NAME" = Some (l2NetworkName configs)
      /\ env !! "REGEN__L1_PROVIDER_URL" = Some (l1MainnetProviderUrl configs)
      /\ env !! "REGEN__L1_TESTNET_PROVIDER_URL"
         = Some (l1TestnetProviderUrl configs)
      /\ env !! "REGEN__L1_TESTNET_PRIVATE_KEY"
         = Some (l1TestnetPrivateKey configs)
      /\ (l2NetworkName configs = "mainnet" \/ l2NetworkName configs = "kovan").
Proof.
  unfold loadConfigs. split.
  - intros (v1 & H1%reqenv_Return & H)%bind_Return.
    apply bind_Return in H as (v2 & H2%reqenv_Return & H).
    apply bind_Return in H as (v3 & H3%reqenv_Return & H).
    apply bind_Return in H as (v4 & H4%reqenv_Return & H).
    apply bind_Return in H as (v5 & H5%reqenv_Return & H).
    apply bind_Return in H as (v6 & H6%reqenv_Return & H).
    apply bind_Return in H as (v7 & H7%reqenv_Return & H).
    apply bind_Return in H as ([] & Hname%assert_ok_Return & [= <-]).
    simpl. repeat (split; [done|]).
    apply bool_decide_eq_true in Hname.
    apply elem_of_cons in Hname as [Hname|Hname]; [by left|].
    apply elem_of_cons in Hname as [Hname|Hname]; [by right|].
    by apply elem_of_nil in Hname.
  - intros (H1 & H2 & H3 & H4 & H5 & H6 & H7 & Hname).
    apply reqenv_Return in H1, H2, H3, H4, H5, H6, H7.
    rewrite H1, H2, H3, H4, H5, H6, H7. cbn [mbind result_bind].
    assert (bool_decide (l2NetworkName configs ∈ ["mainnet"; "kovan"]) = true)
      as ->.
    { apply bool_decide_eq_true.
      destruct Hname as [-> | ->]; [by apply elem_of_cons; left|].
      apply elem_of_cons. right. by apply elem_of_cons; left. }
    by destruct configs.
Qed.

(** X7.  When a required variable is missing, [loadConfigs] raises for the
    first one in the order it reads them, and the message names it. *)
Theorem loadConfigs_names_the_first_missing_variable
  (env : gmap string string) (before after : list string) (name : string) :
  configVariables = before ++ name :: after ->
  Forall (fun variable => is_Some (env !! variable)) before ->
  env !! name = None ->
  loadConfigs env = Throw (Error ("missing env var " +:+ name)).
Proof.
  intros Hsplit Hbefore Hname. unfold configVariables in Hsplit.
  unfold loadConfigs.
  repeat (destruct before as [|? before];
          [ injection Hsplit as <- _; by rewrite (reqenv_missing _ _ Hname)
          | injection Hsplit as <- Hsplit;
            apply Forall_cons in Hbefore as [(? & ->)%reqenv_defined Hbefore];
            cbn [mbind result_bind] ]).
  by destruct before.
Qed.

Lemma loadConfigs_names_the_first_missing_variable_witness :
  loadConfigs {[ "REGEN__STATE_DUMP_FILE" := "dump.json";
                 "REGEN__ETHERSCAN_FILE" := "etherscan.json";
                 "REGEN__L1_PROVIDER_URL" := "http://localhost:8545" ]}
  = Throw (Error "missing env var REGEN__L2_PROVIDER_URL").
Proof.
  apply (loadConfigs_names_the_first_missing_variable _
           ["REGEN__STATE_DUMP_FILE"; "REGEN__ETHERSCAN_FILE"]
           ["REGEN__L2_NETWORK_NAME"; "REGEN__L1_PROVIDER_URL";
            "REGEN__L1_TESTNET_PROVIDER_URL"; "REGEN__L1_TESTNET_PRIVATE_KEY"]).
  - reflexivity.
  - repeat constructor; by vm_compute; eexists.
  - by vm_compute.
Defined.

(** X8.  With the seven variables defined and a network name other than
    [mainnet] and [kovan], [loadConfigs] fails the assertion on the network
    name: the names are compared exactly, with their case. *)
Theorem loadConfigs_rejects_other_networks (env : gmap string string)
  (network : string) :
  Forall (fun variable => is_Some (env !! variable)) configVariables ->
  env !! "REGEN__L2_NETWORK_NAME" = Some network ->
  network <> "mainnet" -> network <> "kovan" ->
  loadConfigs env = Throw (AssertionError networkNameMessage)
  /\ networkNameMessage
     = String.append "L2_NETWORK_NAME must be one of "
         (String (ascii_of_nat 34)
            (String.append "mainnet"
               (String (ascii_of_nat 34)
                  (String.append " or "
                     (String (ascii_of_nat 34)
                        (String.append "kovan"
                           (String (ascii_of_nat 34) EmptyString))))))).
Proof.
  intros Hall Hnetwork Hmainnet Hkovan. split; [|reflexivity].
  unfold configVariables in Hall. unfold loadConfigs, reqenv.
  rewrite Hnetwork.
  repeat (apply Forall_cons in Hall as [[? Hvalue] Hall];
          try rewrite Hvalue; clear Hvalue).
  cbn [mbind result_bind].
  assert (bool_decide (network ∈ ["mainnet"; "kovan"]) = false) as ->.
  { apply bool_decide_eq_false. intros Hin.
    apply elem_of_cons in Hin as [Hin|Hin]; [done|].
    apply elem_of_cons in Hin as [Hin|Hin]; [done|].
    by apply elem_of_nil in Hin. }
  reflexivity.
Qed.

Lemma loadConfigs_rejects_other_networks_witness :
  loadConfigs {[ "REGEN__STATE_DUMP_FILE" := "dump.json";
                 "REGEN__ETHERSCAN_FILE" := "etherscan.json";
                 "REGEN__L2_PROVIDER_URL" := "http://localhost:9545";
                 "REGEN__L2_NETWORK_NAME" := "Mainnet";
                 "REGEN__L1_PROVIDER_URL" := "http://localhost:8545";
                 "REGEN__L1_TESTNET_PROVIDER_URL" := "http://localhost:7545";
                 "REGEN__L1_TESTNET_PRIVATE_KEY" := "0x01" ]}
  = Throw (AssertionError networkNameMessage).
Proof.
  refine (proj1 (loadConfigs_rejects_other_networks _ "Mainnet" _ _ _ _)).
  - repeat constructor; by vm_compute; eexists.
  - by vm_compute.
  - discriminate.
  - discriminate.
Defined.

(** ** The handler table as a whole *)

Section handler_table.
Context `{Externals}.

Lemma read_Return {A B : Type} (x : option A) (property : string)
  (get : A -> B) (b : B) :
  read x property get = Return b <-> exists a, x = Some a /\ b = get a.
Proof.
  destruct x as [a|]; simpl; split.
  - intros [= <-]. by exists a.
  - by intros (? & [= <-] & ->).
  - discriminate.
  - by intros (? & [=] & _).
Qed.

(** What every returning run of the VERIFIED handler leaves as it was. *)
Lemma handle_VERIFIED_Return (account : Account) (data : SurgeryDataSources)
  (output : option Account) :
  handle_VERIFIED account data = Return output ->
  exists relocated,
    output = Some relocated
    /\ address relocated = address account
    /\ nonce relocated = nonce account
    /\ balance relocated = balance account
    /\ storage relocated = storage account
    /\ root relocated = root account.
Proof.
  unfold handle_VERIFIED.
  destruct (findContract account data) as [contract|]; [|discriminate].
  destruct (negb _); [discriminate|].
  destruct (contracts _) as [contracts'|]; [|discriminate].
  intros (mainOutput & _ & Hrun)%bind_Return.
  destruct mainOutput as [mainOutput|]; [|discriminate].
  apply bind_Return in Hrun as (code' & Hcode & Hrun).
  apply bind_Return in Hrun as (hash & _ & Hrun).
  apply bind_Return in Hrun as (refs & Hrefs & Hrun).
  apply read_Return in Hcode as (bytecode & Hbytecode & ->).
  rewrite Hbytecode in *.
  apply read_Return in Hrefs as (? & [= <-] & ->).
  destruct (bytecodeRefs bytecode) as [[|entry refs]|] eqn:Hrefs;
    try (injection Hrun as <-; eexists; split; [reflexivity|done]).
  apply bind_Return in Hrun as (? & _ & Hrun).
  apply bind_Return in Hrun as (? & _ & Hrun).
  apply bind_Return in Hrun as (ovmBytecode & _ & Hrun).
  apply bind_Return in Hrun as (relocated & Hloop & [= <-]).
  exists relocated. split; [reflexivity|].
  destruct bytecode as [object refs'|]; [|discriminate].
  apply (relocateImmutables_invariant _ _ _ _ account) in Hloop
    as (_ & ? & ? & ? & ? & ?); [done|].
  split; [by exists object|]. by repeat split.
Qed.

Lemma handle_PREDEPLOY_WIPE_Return (account : Account)
  (data : SurgeryDataSources) (output : option Account) :
  handle_PREDEPLOY_WIPE account data = Return output ->
  exists g,
    findAccount (genesis data) (address account) = Return (Some g)
    /\ output = Some (withFields account (address account) (code g)
                        (codeHash g) (storage g)).
Proof.
  unfold handle_PREDEPLOY_WIPE.
  intros (g & Hfind & Hrun)%bind_Return.
  destruct g as [g|]; [|discriminate]. injection Hrun as <-. by exists g.
Qed.

Lemma handle_PREDEPLOY_NO_WIPE_Return (account : Account)
  (data : SurgeryDataSources) (output : option Account) :
  handle_PREDEPLOY_NO_WIPE account data = Return output ->
  exists g,
    findAccount (genesis data) (address account) = Return (Some g)
    /\ output = Some (withFields account (address account) (code g)
                        (codeHash g)
                        (Some (spread (storage account) (storage g)))).
Proof.
  unfold handle_PREDEPLOY_NO_WIPE.
  intros (g & Hfind & Hrun)%bind_Return.
  destruct g as [g|]; [|discriminate]. injection Hrun as <-. by exists g.
Qed.

Lemma handle_PREDEPLOY_ETH_Return (account : Account)
  (data : SurgeryDataSources) (output : option Account) :
  handle_PREDEPLOY_ETH account data = Return output ->
  exists g old,
    findAccount (genesis data) (address account) = Return (Some g)
    /\ findAccount (dump data) (Some OLD_ETH_ADDRESS) = Return (Some old)
    /\ output = Some (withFields account (address account) (code g)
                        (codeHash g)
                        (Some (spread (storage old) (storage g)))).
Proof.
  unfold handle_PREDEPLOY_ETH.
  intros (g & Hfind & Hrun)%bind_Return.
  apply bind_Return in Hrun as (old & Hold & Hrun).
  destruct g as [g|]; [|discriminate].
  destruct old as [old|]; [|discriminate].
  injection Hrun as <-. by exists g, old.
Qed.

Lemma handle_UNISWAP_V3_POOL_Return (account : Account)
  (data : SurgeryDataSources) (output : option Account) :
  handle_UNISWAP_V3_POOL account data = Return output ->
  exists pool poolCode hash,
    List.find (fun pool => bool_decide (Some (oldAddress pool) = address account))
      (pools data) = Some pool
    /\ getCode (l1TestnetProvider data) (Some (newAddress pool))
       = Return poolCode
    /\ keccak256 (Some poolCode) = Return hash
    /\ output = Some (withFields account (Some (newAddress pool))
                        (Some poolCode) (Some hash) (storage account)).
Proof.
  unfold handle_UNISWAP_V3_POOL.
  destruct (List.find _ _) as [pool|]; [|discriminate].
  intros (poolCode & Hcode & Hrun)%bind_Return.
  apply bind_Return in Hrun as (hash & Hhash & [= <-]).
  by exists pool, poolCode, hash.
Qed.

Lemma handle_UNISWAP_V3_OTHER_Return (account : Account)
  (data : SurgeryDataSources) (output : option Account) :
  handle_UNISWAP_V3_OTHER account data = Return output ->
  exists code' hash,
    getCode (l1MainnetProvider data) (address account) = Return code'
    /\ keccak256 (Some code') = Return hash
    /\ output = Some (withFields account (address account) (Some code')
                        (Some hash) (storage account)).
Proof.
  unfold handle_UNISWAP_V3_OTHER.
  intros (code' & Hcode & Hrun)%bind_Return.
  apply bind_Return in Hrun as (hash & Hhash & [= <-]).
  by exists code', hash.
Qed.

(** X9.  No handler changes the nonce or the balance of an account.  The
    address changes for a Uniswap pool only, the storage root for an
    externally owned account only, and a precompile is returned as it
    is. *)
Theorem handlers_keep_nonce_and_balance (type : AccountType)
  (account output : Account) (data : SurgeryDataSources) :
  handlers type account data = Return (Some output) ->
  nonce output = nonce account
  /\ balance output = balance account
  /\ (type <> UNISWAP_V3_POOL -> address output = address account)
  /\ (type <> EOA -> root output = root account)
  /\ (type = PRECOMPILE -> output = account).
Proof.
  destruct type; simpl; try discriminate.
  - intros [= <-]. by repeat split.
  - intros [= <-]. by repeat split.
  - intros (g & _ & [= ->])%handle_PREDEPLOY_WIPE_Return. by repeat split.
  - intros (g & _ & [= ->])%handle_PREDEPLOY_NO_WIPE_Return. by repeat split.
  - intros (g & old & _ & _ & [= ->])%handle_PREDEPLOY_ETH_Return.
    by repeat split.
  - intros (pool & poolCode & hash & _ & _ & _ & [= ->])
      %handle_UNISWAP_V3_POOL_Return.
    by repeat split.
  - intros (code' & hash & _ & _ & [= ->])%handle_UNISWAP_V3_OTHER_Return.
    by repeat split.
  - intros (relocated & [= <-] & ? & ? & ? & ? & ?)%handle_VERIFIED_Return.
    by repeat split.
Qed.

(** X10.  A handler returns [undefined], which deletes the account, for the
    three types PREDEPLOY_DEAD, UNISWAP_V3_LIB and UNVERIFIED and for no
    other: no other handler ever returns [undefined].  The three handlers
    PREDEPLOY_WETH, UNISWAP_V3_FACTORY and UNISWAP_V3_NFPM raise for every
    account. *)
Theorem handlers_delete_three_types_only (type : AccountType)
  (account : Account) (data : SurgeryDataSources) :
  (handlers type account data = Return None
   <-> type = PREDEPLOY_DEAD \/ type = UNISWAP_V3_LIB \/ type = UNVERIFIED)
  /\ (type = PREDEPLOY_WETH \/ type = UNISWAP_V3_FACTORY
      \/ type = UNISWAP_V3_NFPM ->
      handlers type account data = Throw (Error "Not implemented")).
Proof.
  split.
  - split.
    + destruct type; simpl; try discriminate; auto.
      * by intros (g & _ & [=])%handle_PREDEPLOY_WIPE_Return.
      * by intros (g & _ & [=])%handle_PREDEPLOY_NO_WIPE_Return.
      * by intros (g & old & _ & _ & [=])%handle_PREDEPLOY_ETH_Return.
      * by intros (pool & poolCode & hash & _ & _ & _ & [=])
          %handle_UNISWAP_V3_POOL_Return.
      * by intros (code' & hash & _ & _ & [=])%handle_UNISWAP_V3_OTHER_Return.
      * by intros (relocated & [=] & _)%handle_VERIFIED_Return.
    + by intros [-> | [-> | ->]].
  - by intros [-> | [-> | ->]].
Qed.

End handler_table.

Lemma handlers_keep_nonce_and_balance_witness :
  exists output,
    @handlers Cases.externals UNISWAP_V3_OTHER Cases.predeploy Cases.data
    = Return (Some output)
    /\ nonce output = Some 1%Z
    /\ balance output = Some "0"
    /\ address output = Some "0x42000000000000000000000000000000000000AA"
    /\ root output = Some "0x5678".
Proof.
  eexists. split; [reflexivity|].
  destruct (@handlers_keep_nonce_and_balance Cases.externals UNISWAP_V3_OTHER
              Cases.predeploy _ Cases.data eq_refl)
    as (Hnonce & Hbalance & Haddress & Hroot & _).
  split; [exact Hnonce|]. split; [exact Hbalance|].
  split; [by apply Haddress|by apply Hroot].
Defined.

(** ** The predeploy handlers on an account that has its entry *)

Lemma spread_lookup (a b : option (gmap string string)) (k : string) :
  spread a b !! k = overridden a b k.
Proof.
  unfold spread, overridden. rewrite lookup_union.
  by destruct (default ∅ b !! k), (default ∅ a !! k).
Qed.

Section predeploys.
Context `{Externals}.

(** X11.  For an account whose address is a hexadecimal string and whose
    first matching entry of the genesis is [g], the handler PREDEPLOY_WIPE
    returns the account with the code, code hash and storage of [g], and
    PREDEPLOY_NO_WIPE returns it with the code and code hash of [g] and the
    storage of the account overridden, slot by slot, by the storage of [g];
    both leave address, nonce, balance, storage root and key as they
    were. *)
Theorem PREDEPLOY_handlers_take_the_genesis_code (account g : Account)
  (data : SurgeryDataSources) :
  isHexString (address account) = true ->
  firstEntry (genesis data) (address account) g ->
  handlers PREDEPLOY_WIPE account data
  = Return (Some (withFields account (address account) (code g) (codeHash g)
                    (storage g)))
  /\ exists kept merged,
       handlers PREDEPLOY_NO_WIPE account data = Return (Some kept)
       /\ code kept = code g
       /\ codeHash kept = codeHash g
       /\ storage kept = Some merged
       /\ (forall k, merged !! k = overridden (storage account) (storage g) k)
       /\ sameIdentity account kept.
Proof.
  intros Hhex Hfirst. simpl.
  unfold handle_PREDEPLOY_WIPE, handle_PREDEPLOY_NO_WIPE.
  rewrite (findAccount_first _ _ _ Hhex Hfirst). simpl.
  split; [reflexivity|].
  eexists _, _. split; [reflexivity|]. simpl.
  repeat split. apply spread_lookup.
Qed.

(** X12.  For an account with the genesis entry [g], the legacy ETH
    contract being the entry [old] of the dump, the handler PREDEPLOY_ETH
    returns the account with the code and code hash of [g] and, as storage,
    the storage of [old] overridden by the storage of [g]: the storage of
    the account itself is not carried over. *)
Theorem PREDEPLOY_ETH_takes_the_legacy_storage (account g old : Account)
  (data : SurgeryDataSources) :
  isHexString (address account) = true ->
  isHexString (Some OLD_ETH_ADDRESS) = true ->
  firstEntry (genesis data) (address account) g ->
  firstEntry (dump data) (Some OLD_ETH_ADDRESS) old ->
  exists output merged,
    handlers PREDEPLOY_ETH account data = Return (Some output)
    /\ code output = code g
    /\ codeHash output = codeHash g
    /\ storage output = Some merged
    /\ (forall k, merged !! k = overridden (storage old) (storage g) k)
    /\ sameIdentity account output.
Proof.
  intros Hhex Heth Hfirst Hold. simpl. unfold handle_PREDEPLOY_ETH.
  rewrite (findAccount_first _ _ _ Hhex Hfirst).
  rewrite (findAccount_first _ _ _ Heth Hold). simpl.
  eexists _, _. split; [reflexivity|]. simpl.
  repeat split. apply spread_lookup.
Qed.

End predeploys.

Lemma PREDEPLOY_handlers_take_the_genesis_code_witness :
  @handlers Cases.externals PREDEPLOY_WIPE Cases.predeploy Cases.data
  = Return (Some (withFields Cases.predeploy (address Cases.predeploy)
                    (Some "0x6001") (Some "hash of 0x6001")
                    (Some {[ "0x01" := "0x03"; "0x02" := "0x04" ]})))
  /\ exists kept merged,
       @handlers Cases.externals PREDEPLOY_NO_WIPE Cases.predeploy Cases.data
       = Return (Some kept)
       /\ storage kept = Some merged
       /\ merged !! "0x00" = Some "0x01"
       /\ merged !! "0x01" = Some "0x03"
       /\ merged !! "0x02" = Some "0x04".
Proof.
  assert (firstEntry (genesis Cases.data) (address Cases.predeploy)
            (Cases.genesisEntry "0x6001")) as Hfirst.
  { exists [Cases.wrappedEther], [Cases.genesisEntry "0x6003"].
    split; [reflexivity|]. split; [|split; reflexivity].
    constructor; [split; reflexivity|constructor]. }
  destruct (@PREDEPLOY_handlers_take_the_genesis_code Cases.externals
              Cases.predeploy (Cases.genesisEntry "0x6001") Cases.data
              eq_refl Hfirst)
    as (Hwipe & kept & merged & Hkept & _ & _ & Hstorage & Hmerged & _).
  split; [exact Hwipe|]. exists kept, merged.
  split; [exact Hkept|]. split; [exact Hstorage|].
  rewrite !Hmerged. by vm_compute.
Defined.

Lemma PREDEPLOY_ETH_takes_the_legacy_storage_witness :
  exists output merged,
    @handlers Cases.externals PREDEPLOY_ETH Cases.predeploy Cases.data
    = Return (Some output)
    /\ storage output = Some merged
    /\ merged !! "0x00" = None
    /\ merged !! "0x02" = Some "0x04"
    /\ merged !! "0x05" = Some "0x06".
Proof.
  assert (firstEntry (genesis Cases.data) (address Cases.predeploy)
            (Cases.genesisEntry "0x6001")) as Hfirst.
  { exists [Cases.wrappedEther], [Cases.genesisEntry "0x6003"].
    split; [reflexivity|]. split; [|split; reflexivity].
    constructor; [split; reflexivity|constructor]. }
  assert (firstEntry (dump Cases.data) (Some (@OLD_ETH_ADDRESS Cases.externals))
            Cases.legacyEth) as Hold.
  { exists [Cases.predeploy], []. split; [reflexivity|].
    split; [|split; reflexivity].
    constructor; [split; reflexivity|constructor]. }
  destruct (@PREDEPLOY_ETH_takes_the_legacy_storage Cases.externals
              Cases.predeploy (Cases.genesisEntry "0x6001") Cases.legacyEth
              Cases.data eq_refl eq_refl Hfirst Hold)
    as (output & merged & Houtput & _ & _ & Hstorage & Hmerged & _).
  exists output, merged. split; [exact Houtput|]. split; [exact Hstorage|].
  rewrite !Hmerged. by vm_compute.
Defined.

(** ** The handlers that ask a chain for code *)

Section providers.
Context `{Externals}.

(** X13.  The handler UNISWAP_V3_POOL looks the pool up by the exact text
    of the old address; without such a pool it raises the [TypeError] of
    reading [newAddress] on [undefined].  With the pool found, a rejection
    of the testnet provider and a failure of the hash are raised as they
    are. *)
Theorem UNISWAP_V3_POOL_needs_the_pool_and_its_code (account : Account)
  (data : SurgeryDataSources) :
  (Forall (fun pool => Some (oldAddress pool) <> address account) (pools data) ->
   handlers UNISWAP_V3_POOL account data = Throw (TypeError "newAddress"))
  /\ (forall before pool after e,
        pools data = before ++ pool :: after ->
        Forall (fun p => Some (oldAddress p) <> address account) before ->
        Some (oldAddress pool) = address account ->
        (getCode (l1TestnetProvider data) (Some (newAddress pool)) = Throw e
         \/ exists poolCode,
              getCode (l1TestnetProvider data) (Some (newAddress pool))
              = Return poolCode
              /\ keccak256 (Some poolCode) = Throw e) ->
        handlers UNISWAP_V3_POOL account data = Throw e).
Proof.
  simpl. unfold handle_UNISWAP_V3_POOL. split.
  - intros Hnone.
    assert (List.find (fun pool => bool_decide (Some (oldAddress pool)
                                                = address account))
              (pools data) = None) as ->; [|reflexivity].
    apply find_none_iff. eapply Forall_impl; [exact Hnone|].
    intros pool Hpool. by apply bool_decide_eq_false.
  - intros before pool after e -> Hbefore Hpool Hfails.
    rewrite (find_first _ before after pool).
    + destruct Hfails as [-> | (poolCode & -> & Hhash)]; [reflexivity|].
      simpl. by rewrite Hhash.
    + eapply Forall_impl; [exact Hbefore|].
      intros p Hp. by apply bool_decide_eq_false.
    + by apply bool_decide_eq_true.
Qed.

(** X14.  The handler UNISWAP_V3_OTHER returns exactly when the mainnet
    provider has code for the address of the account and the hash of that
    code is computed: the result is the account with that code and hash.
    It raises exactly what the provider, or else the hash, raised. *)
Theorem UNISWAP_V3_OTHER_installs_the_mainnet_code (account : Account)
  (data : SurgeryDataSources) :
  (forall output,
     handlers UNISWAP_V3_OTHER account data = Return output
     <-> exists code' hash,
           getCode (l1MainnetProvider data) (address account) = Return code'
           /\ keccak256 (Some code') = Return hash
           /\ output = Some (withFields account (address account) (Some code')
                               (Some hash) (storage account)))
  /\ (forall e,
        handlers UNISWAP_V3_OTHER account data = Throw e
        <-> getCode (l1MainnetProvider data) (address account) = Throw e
            \/ exists code',
                 getCode (l1MainnetProvider data) (address account)
                 = Return code'
                 /\ keccak256 (Some code') = Throw e).
Proof.
  simpl. split.
  - intros output. split; [apply handle_UNISWAP_V3_OTHER_Return|].
    intros (code' & hash & Hcode & Hhash & ->).
    unfold handle_UNISWAP_V3_OTHER. rewrite Hcode. simpl. by rewrite Hhash.
  - intros e. unfold handle_UNISWAP_V3_OTHER.
    destruct (getCode _ _) as [code'|e']; simpl.
    + destruct (keccak256 (Some code')) as [hash|e''] eqn:Hhash; simpl; split.
      * discriminate.
      * intros [[=] | (c & [= <-] & Hfails)]. congruence.
      * intros [= ->]. right. by exists code'.
      * intros [[=] | (c & [= <-] & Hfails)]. congruence.
    + split; [intros [= ->]; by left|].
      by intros [[= ->] | (c & [=] & _)].
Qed.

(** X15.  When the new compiler reports no immutable references for the
    contract (none at all, or an empty table), the handler VERIFIED returns
    the account with the compiled bytecode as code and the hash of that
    bytecode, prefixed with [0x], as code hash; the old compiler is not
    consulted. *)
Theorem VERIFIED_without_immutables_installs_the_compiled_code
  (account : Account) (data : SurgeryDataSources)
  (contract : EtherscanContract) (version : string)
  (contracts' : gmap string (gmap string ContractOutput))
  (file : gmap string ContractOutput) (object : string)
  (refs : option immutableReferences) (hash : string) :
  findContract account data = Some contract ->
  COMPILER_VERSIONS_TO_SOLC !! compilerVersion contract = Some version ->
  version <> "" ->
  contracts (getSolc version false (solcInput contract)) = Some contracts' ->
  contracts' !! fileKey contract = Some file ->
  file !! contractName contract
  = Some {| deployedBytecode := Some (BytecodeObject object refs) |} ->
  refs = None \/ refs = Some [] ->
  keccak256 (add0x (Some object)) = Return hash ->
  handlers VERIFIED account data
  = Return (Some (withFields account (address account) (Some object)
                    (Some hash) (storage account))).
Proof.
  intros Hcontract Hversion Hnonempty Hcontracts Hfile Hmain Hrefs Hhash.
  simpl. unfold handle_VERIFIED. rewrite Hcontract, Hversion.
  rewrite truthy_string_Some by assumption. simpl negb. cbv iota.
  change (show (Some version)) with version. rewrite Hcontracts.
  rewrite (selectContract_file _ _ _ Hfile), Hmain.
  cbn [mbind result_bind read deployedBytecode bytecodeObject bytecodeRefs].
  rewrite Hhash.
  cbn [mbind result_bind read deployedBytecode bytecodeObject bytecodeRefs].
  by destruct Hrefs as [-> | ->].
Qed.

End providers.

Lemma VERIFIED_without_immutables_installs_the_compiled_code_witness :
  @handlers Cases.externals VERIFIED (Sample.account "0xaa") Cases.data
  = Return (Some (withFields (Sample.account "0xaa") (Some "0xaa")
                    (Some "6080604052") (Some "keccak256(0x6080604052)")
                    (Some {[ "0x00" := "0x01" ]}))).
Proof.
  apply (@VERIFIED_without_immutables_installs_the_compiled_code
           Cases.externals (Sample.account "0xaa") Cases.data
           (Sample.contract "0xaa" "v0.7.6") "v0.7.6+commit.7338295f"
           {[ "file" :=
                {[ "C" := {| deployedBytecode :=
                               Some (BytecodeObject "6080604052" (Some [])) |} ]} ]}
           {[ "C" := {| deployedBytecode :=
                          Some (BytecodeObject "6080604052" (Some [])) |} ]}
           "6080604052" (Some []) "keccak256(0x6080604052)").
  - reflexivity.
  - by vm_compute.
  - discriminate.
  - reflexivity.
  - by vm_compute.
  - by vm_compute.
  - by right.
  - reflexivity.
Defined.

(** ** The relocation of immutables, splice by splice *)








Lemma foldM_app {A S : Type} (f : S -> A -> result S) (l l' : list A) (s : S) :
  foldM f s (l ++ l') = s' ← foldM f s l; foldM f s' l'.
Proof.
  revert s. induction l as [|x l IH]; intros s; simpl; [reflexivity|].
  destruct (f s x) as [s'|e]; simpl; [apply IH|reflexivity].
Qed.

Section splices.
Context `{Externals}.






End splices.



(** ** The loop of [main] over the accounts *)

Lemma length_omap_id {A : Type} (l : list (option A)) :
  (length (omap id l) <= length l)%nat.
Proof. induction l as [|[x|] l IH]; csimpl; lia. Qed.

Section loop.
Context `{Externals}.
Variable classify : Account -> SurgeryDataSources -> result AccountType.

Local Notation "'handled'" :=
  (fun data account result =>
     exists type, classify account data = Return type
                  /\ handlers type account data = Return result).

Lemma processAccount_Return (data : SurgeryDataSources) (output output' : StateDump)
  (account : Account) :
  processAccount classify data output account = Return output'
  <-> exists result,
        handled data account result
        /\ output' = output ++ from_option (fun a => [a]) [] result.
Proof.
  unfold processAccount. split.
  - intros (type & Htype & Hrun)%bind_Return.
    apply bind_Return in Hrun as (result & Hresult & Hpush).
    exists result. split; [by exists type|].
    destruct result; injection Hpush as <-; simpl; by rewrite ?app_nil_r.
  - intros (result & (type & -> & Hresult) & ->). simpl. rewrite Hresult.
    destruct result; simpl; by rewrite ?app_nil_r.
Qed.

Lemma processAccounts_from (data : SurgeryDataSources) (dump' : StateDump)
  (output output' : StateDump) :
  foldM (processAccount classify data) output dump' = Return output'
  <-> exists results,
        Forall2 (handled data) dump' results
        /\ output' = output ++ omap id results.
Proof.
  revert output. induction dump' as [|account dump' IH]; intros output.
  - simpl. split.
    + intros [= <-]. exists []. split; [constructor|]. by rewrite app_nil_r.
    + intros (results & ->%Forall2_nil_inv_l & ->). simpl.
      by rewrite app_nil_r.
  - rewrite foldM_cons. split.
    + intros (working & (result & Hresult & ->)%processAccount_Return & Hrest)
        %bind_Return.
      apply IH in Hrest as (results & Hresults & ->).
      exists (result :: results). split; [by constructor|].
      rewrite <- app_assoc. by destruct result.
    + intros (results & (result & rest & Hresult & Hrest & ->)
                        %Forall2_cons_inv_l & ->).
      rewrite (proj2 (processAccount_Return data output _ account)
                 (ex_intro _ result (conj Hresult eq_refl))).
      cbn [mbind result_bind]. apply IH. exists rest. split; [done|].
      rewrite <- app_assoc. by destruct result.
Qed.

(** X18.  The loop of [main] returns exactly when every account of the
    dump is classified and its handler returns; the output then holds, in
    the order of the dump, the results that are not [undefined], so it has
    at most as many accounts as the dump. *)
Theorem processAccounts_collects_the_results (data : SurgeryDataSources)
  (dump' output : StateDump) :
  (processAccounts classify data dump' = Return output
   <-> exists results,
         Forall2 (fun account result =>
                    exists type,
                      classify account data = Return type
                      /\ handlers type account data = Return result)
           dump' results
         /\ output = omap id results)
  /\ (processAccounts classify data dump' = Return output ->
      (length output <= length dump')%nat).
Proof.
  unfold processAccounts. split; [apply processAccounts_from|].
  intros (results & Hresults & ->)%processAccounts_from. simpl.
  rewrite (Forall2_length _ _ _ Hresults). apply length_omap_id.
Qed.

(** X19.  The loop stops at the first account that cannot be classified
    or whose handler raises, and the run ends with that exception: the
    accounts after it are not processed, and no output is produced. *)
Theorem processAccounts_stops_at_the_first_failure (data : SurgeryDataSources)
  (before after : StateDump) (account : Account)
  (results : list (option Account)) (e : exception) :
  Forall2 (fun account result =>
             exists type,
               classify account data = Return type
               /\ handlers type account data = Return result)
    before results ->
  (classify account data = Throw e
   \/ exists type, classify account data = Return type
                   /\ handlers type account data = Throw e) ->
  processAccounts classify data (before ++ account :: after) = Throw e.
Proof.
  intros Hbefore Hfails. unfold processAccounts. rewrite foldM_app.
  rewrite (proj2 (processAccounts_from data before [] _)
             (ex_intro _ results (conj Hbefore eq_refl))).
  cbn [mbind result_bind]. rewrite foldM_cons. unfold processAccount.
  destruct Hfails as [-> | (type & -> & Hhandler)]; [reflexivity|].
  cbn [mbind result_bind]. by rewrite Hhandler.
Qed.

End loop.

Lemma processAccounts_stops_at_the_first_failure_witness :
  @processAccounts Cases.externals Cases.classify Cases.data
    [ Cases.wallet; Cases.unknownContract; Cases.wrappedEther; Cases.wallet ]
  = Throw (Error "Not implemented").
Proof.
  eapply (@processAccounts_stops_at_the_first_failure Cases.externals
            Cases.classify Cases.data [Cases.wallet; Cases.unknownContract]
            [Cases.wallet] Cases.wrappedEther).
  - econstructor; [exists EOA; split; reflexivity|].
    econstructor; [exists UNVERIFIED; split; reflexivity|constructor].
  - right. exists PREDEPLOY_WETH. split; reflexivity.
Defined.

(** ** The download of the compilers *)

Lemma selectBuild_from (version : string) (builds : list Build)
  (target : option Build) :
  foldl (fun target entry =>
           if String.eqb version ("v" +:+ longVersion entry) then Some entry
           else target) target builds
  = match selectBuild version builds with
    | Some entry => Some entry
    | None => target
    end.
Proof.
  unfold selectBuild. revert target.
  induction builds as [|entry builds IH] using rev_ind; intros target;
    [reflexivity|].
  rewrite !foldl_app. simpl.
  destruct (String.eqb version ("v" +:+ longVersion entry)); [reflexivity|].
  apply IH.
Qed.

Lemma selectBuild_none (version : string) (builds : list Build) :
  Forall (fun entry => version <> "v" +:+ longVersion entry) builds ->
  selectBuild version builds = None.
Proof.
  unfold selectBuild. generalize (@None Build).
  induction 1 as [|entry builds Hentry _ IH]; [reflexivity|]. simpl.
  by apply String.eqb_neq in Hentry as ->.
Qed.

Lemma selectBuild_last (version : string) (before after : list Build)
  (entry : Build) :
  version = "v" +:+ longVersion entry ->
  Forall (fun later => version <> "v" +:+ longVersion later) after ->
  selectBuild version (before ++ entry :: after) = Some entry.
Proof.
  intros Hentry Hafter. unfold selectBuild.
  rewrite foldl_app. simpl.
  rewrite (proj2 (String.eqb_eq _ _) Hentry).
  rewrite selectBuild_from. by rewrite (selectBuild_none _ _ Hafter).
Qed.

Section downloads.
Context `{Externals} `{Downloads}.

Lemma downloadSolc_Return (version : string) (ovm : bool)
  (files files' : gmap string string) :
  downloadSolc version ovm files = Return files' ->
  (version = "v0.5.16-alpha.7" /\ files' = files)
  \/ exists file url,
       version <> "v0.5.16-alpha.7"
       /\ downloadTarget version ovm = Return (file, url)
       /\ (is_Some (files !! file) /\ files' = files
           \/ files !! file = None
              /\ exists bin, axios_get url = Return bin
                             /\ files' = <[file := bin]> files).
Proof.
  unfold downloadSolc.
  destruct (String.eqb version "v0.5.16-alpha.7") eqn:Hskip.
  - apply String.eqb_eq in Hskip. intros [= <-]. by left.
  - apply String.eqb_neq in Hskip.
    intros ([file url] & Htarget & Hrun)%bind_Return.
    right. exists file, url. split; [done|]. split; [done|].
    destruct (files !! file) as [content|] eqn:Hfile.
    + injection Hrun as <-. left. by eauto.
    + apply bind_Return in Hrun as (bin & Hbin & [= <-]). right. by eauto.
Qed.

(** A run that returned needs no download when it is made on files that
    include the ones it left. *)
Lemma downloadSolc_again (version : string) (ovm : bool)
  (files files' later : gmap string string) :
  downloadSolc version ovm files = Return files' ->
  files' ⊆ later ->
  downloadSolc version ovm later = Return later.
Proof.
  intros [[-> ->] | (file & url & Hskip & Htarget & Hrun)]%downloadSolc_Return
    Hlater; [reflexivity|].
  unfold downloadSolc.
  apply String.eqb_neq in Hskip as ->. rewrite Htarget.
  cbn [mbind result_bind].
  assert (is_Some (files' !! file)) as [content Hcontent].
  { destruct Hrun as [[Hthere ->] | (_ & bin & _ & ->)]; [done|].
    rewrite lookup_insert_eq. by eexists. }
  by rewrite (lookup_weaken _ _ _ _ Hcontent Hlater).
Qed.

Lemma downloadSolc_subseteq (version : string) (ovm : bool)
  (files files' : gmap string string) :
  downloadSolc version ovm files = Return files' -> files ⊆ files'.
Proof.
  intros [[_ ->] | (file & url & _ & _ & Hrun)]%downloadSolc_Return; [done|].
  destruct Hrun as [[_ ->] | (Hnew & bin & _ & ->)]; [done|].
  by apply insert_subseteq.
Qed.

Lemma downloads_subseteq (ovm : bool) (versions : list string)
  (files files' : gmap string string) :
  foldM (fun files version => downloadSolc version ovm files) files versions
  = Return files' ->
  files ⊆ files'.
Proof.
  revert files. induction versions as [|version versions IH]; intros files.
  - by intros [= <-].
  - rewrite foldM_cons.
    intros (working & Hstep%downloadSolc_subseteq & Hrest%IH)%bind_Return.
    by transitivity working.
Qed.

Lemma downloads_again (ovm : bool) (versions : list string)
  (files files' later : gmap string string) :
  foldM (fun files version => downloadSolc version ovm files) files versions
  = Return files' ->
  files' ⊆ later ->
  foldM (fun files version => downloadSolc version ovm files) later versions
  = Return later.
Proof.
  revert files. induction versions as [|version versions IH]; intros files.
  - reflexivity.
  - rewrite !foldM_cons.
    intros (working & Hstep & Hrest)%bind_Return Hlater.
    rewrite (downloadSolc_again _ _ _ _ later Hstep).
    + cbn [mbind result_bind]. by apply (IH working).
    + transitivity files'; [|done]. by apply downloads_subseteq in Hrest.
Qed.

Lemma downloads_present (versions : list string) (version : string)
  (files files' : gmap string string) :
  foldM (fun files version => downloadSolc version true files) files versions
  = Return files' ->
  version ∈ versions -> version <> "v0.5.16-alpha.7" ->
  is_Some (files' !! (path_join LOCAL_SOLC_DIR version +:+ ".js")).
Proof.
  intros Hrun Hversion Hskip. revert files Hrun.
  induction Hversion as [version versions|version other versions _ IH];
    intros files; rewrite foldM_cons;
    intros (working & Hstep & Hrest)%bind_Return.
  - apply downloads_subseteq in Hrest.
    apply downloadSolc_Return in Hstep
      as [[-> _] | (file & url & _ & [= <- <-] & Hstep)]; [done|].
    assert (is_Some (working !! (path_join LOCAL_SOLC_DIR version +:+ ".js")))
      as [content Hcontent].
    { destruct Hstep as [[Hthere ->] | (_ & bin & _ & ->)]; [done|].
      rewrite lookup_insert_eq. by eexists. }
    exists content. by apply (lookup_weaken _ _ _ _ Hcontent Hrest).
  - by apply (IH Hskip working).
Qed.

(** X20.  A run of [downloadSolc] that returns leaves every file that was
    there with its content and adds at most one file; run again on the
    files it left, it returns them unchanged, without a download.  For the
    version [v0.5.16-alpha.7] nothing is done at all. *)
Theorem downloadSolc_keeps_the_files_and_adds_one (version : string)
  (ovm : bool) (files files' : gmap string string) :
  downloadSolc version ovm files = Return files' ->
  (forall file content,
     files !! file = Some content -> files' !! file = Some content)
  /\ (files' = files
      \/ exists file bin, files !! file = None
                          /\ files' = <[file := bin]> files)
  /\ downloadSolc version ovm files' = Return files'
  /\ downloadSolc "v0.5.16-alpha.7" ovm files = Return files.
Proof.
  intros Hrun. split; [|split; [|split]].
  - intros file content Hfile.
    by apply (lookup_weaken _ _ _ _ Hfile (downloadSolc_subseteq _ _ _ _ Hrun)).
  - apply downloadSolc_Return in Hrun
      as [[_ ->] | (file & url & _ & _ & [[_ ->] | (Hnew & bin & _ & ->)])];
      [by left|by left|].
    right. by exists file, bin.
  - by apply (downloadSolc_again _ _ _ _ _ Hrun).
  - reflexivity.
Qed.

(** X21.  Without the flag, [downloadSolc] takes the last entry of the
    build list whose long version, prefixed with [v], is the version asked
    for, and writes the data fetched for that entry to the file of its path;
    when no entry matches it raises, naming the version. *)
Theorem downloadSolc_takes_the_last_matching_build (version : string)
  (files : gmap string string) (builds : list Build) :
  version <> "v0.5.16-alpha.7" ->
  axios_get_builds = Return builds ->
  (Forall (fun entry => version <> "v" +:+ longVersion entry) builds ->
   downloadSolc version false files
   = Throw (Error ("Cannot find compiler version " +:+ version)))
  /\ (forall before entry after bin,
        builds = before ++ entry :: after ->
        version = "v" +:+ longVersion entry ->
        Forall (fun later => version <> "v" +:+ longVersion later) after ->
        files !! path_join LOCAL_SOLC_DIR (path entry) = None ->
        axios_get (EMSCRIPTEN_BUILD_PATH +:+ "/" +:+ path entry) = Return bin ->
        downloadSolc version false files
        = Return (<[path_join LOCAL_SOLC_DIR (path entry) := bin]> files)).
Proof.
  intros Hskip Hbuilds. unfold downloadSolc, downloadTarget.
  apply String.eqb_neq in Hskip as ->. rewrite Hbuilds.
  cbn [negb mbind result_bind]. split.
  - intros Hnone. by rewrite (selectBuild_none _ _ Hnone).
  - intros before entry after bin -> Hentry Hafter Hnew Hbin.
    rewrite (selectBuild_last _ _ _ _ Hentry Hafter).
    cbn [mbind result_bind]. rewrite Hnew, Hbin. reflexivity.
Qed.

(** X22.  A run of [downloadAllSolcVersions] that returns leaves every file
    that was there with its content; it leaves a file [<version>.js] in the
    compiler directory for every key of the version table but
    [v0.5.16-alpha.7]; and run again on the files it left, it returns them
    unchanged. *)
Theorem downloadAllSolcVersions_is_idempotent
  (files files' : gmap string string) :
  downloadAllSolcVersions files = Return files' ->
  (forall file content,
     files !! file = Some content -> files' !! file = Some content)
  /\ (forall version solc,
        COMPILER_VERSIONS_TO_SOLC !! version = Some solc ->
        version <> "v0.5.16-alpha.7" ->
        is_Some (files' !! (path_join LOCAL_SOLC_DIR version +:+ ".js")))
  /\ downloadAllSolcVersions files' = Return files'.
Proof.
  unfold downloadAllSolcVersions.
  intros (working & Hovm & Hsolc)%bind_Return.
  pose proof (downloads_subseteq _ _ _ _ Hovm) as Hworking.
  pose proof (downloads_subseteq _ _ _ _ Hsolc) as Hfiles'.
  split; [|split].
  - intros file content Hfile.
    apply (lookup_weaken _ _ _ _ Hfile). by transitivity working.
  - intros version solc Hversion Hskip.
    destruct (downloads_present _ version _ _ Hovm) as [content Hcontent];
      [|done|].
    + apply list_elem_of_fmap. exists (version, solc).
      split; [reflexivity|]. by apply elem_of_map_to_list.
    + exists content. by apply (lookup_weaken _ _ _ _ Hcontent Hfiles').
  - rewrite (downloads_again _ _ _ _ files' Hovm Hfiles').
    cbn [mbind result_bind].
    by apply (downloads_again _ _ _ _ files' Hsolc).
Qed.

End downloads.

Lemma downloadSolc_keeps_the_files_and_adds_one_witness :
  @downloadSolc Cases.downloads "v0.7.6" true
    (<["solc-bin/v0.7.6.js" :=
         "// from https://raw.githubusercontent.com/ethereum-optimism/solc-bin/9455107699d2f7ad9b09e1005c7c07f4b5dd6857/bin/soljson-v0.7.6.js"]>
       {[ "solc-bin/list.json" := "{}" ]})
  = Return
      (<["solc-bin/v0.7.6.js" :=
           "// from https://raw.githubusercontent.com/ethereum-optimism/solc-bin/9455107699d2f7ad9b09e1005c7c07f4b5dd6857/bin/soljson-v0.7.6.js"]>
         {[ "solc-bin/list.json" := "{}" ]}).
Proof.
  refine (proj1 (proj2 (proj2
    (@downloadSolc_keeps_the_files_and_adds_one Cases.downloads "v0.7.6" true
       {[ "solc-bin/list.json" := "{}" ]} _ _)))).
  by vm_compute.
Defined.

Lemma downloadSolc_takes_the_last_matching_build_witness :
  @downloadSolc Cases.downloads "v0.5.16+commit.9c3226ce" false ∅
  = Return
      {[ "solc-bin/soljson-v0.5.16-rebuilt.js" :=
           "// from https://binaries.soliditylang.org/emscripten-wasm32/soljson-v0.5.16-rebuilt.js" ]}.
Proof.
  refine (proj2 (@downloadSolc_takes_the_last_matching_build Cases.downloads
                   "v0.5.16+commit.9c3226ce" ∅ Cases.builds _ eq_refl)
            (take 2 Cases.builds) _ (drop 3 Cases.builds) _
            eq_refl eq_refl _ eq_refl eq_refl).
  - discriminate.
  - repeat constructor; discriminate.
Defined.

Lemma downloadAllSolcVersions_is_idempotent_witness :
  exists files',
    @downloadAllSolcVersions Cases.externals Cases.downloads ∅ = Return files'
    /\ is_Some (files' !! "solc-bin/v0.7.6.js")
    /\ @downloadAllSolcVersions Cases.externals Cases.downloads files'
       = Return files'.
Proof.
  destruct (@downloadAllSolcVersions Cases.externals Cases.downloads ∅)
    as [files'|e] eqn:Hrun; [|by vm_compute in Hrun].
  exists files'. split; [reflexivity|].
  destruct (@downloadAllSolcVersions_is_idempotent Cases.externals
              Cases.downloads ∅ files' Hrun) as (_ & Hpresent & Hagain).
  split; [|exact Hagain].
  apply (Hpresent "v0.7.6" "v0.7.6+commit.7338295f"); [by vm_compute|].
  discriminate.
Defined.

(** ** Reading a dump and validating it, as [main] does *)

Lemma stored_lookup (records : list Account) (m : gmap string Account)
  (a : string) (x : Account) :
  foldl (fun m data => assign m (show (address data)) (stripTransport data))
    m records !! a = Some x ->
  (exists before data after,
     records = before ++ data :: after
     /\ show (address data) = a
     /\ a <> "__proto__"
     /\ x = stripTransport data
     /\ Forall (fun later => show (address later) <> a) after)
  \/ ((a = "__proto__" \/ Forall (fun data => show (address data) <> a) records)
      /\ m !! a = Some x).
Proof.
  revert m. induction records as [|data records IH]; intros m; simpl.
  - intros Hm. right. split; [right; constructor|done].
  - intros [(before & data' & after & -> & Ha & Hname & -> & Hafter)
           | [Hrecords Hm]]%IH.
    + left. by exists (data :: before), data', after.
    + destruct (decide (a = "__proto__")) as [->|Hname].
      { right. split; [by left|]. revert Hm. unfold assign.
        destruct (String.eqb _ _) eqn:Hproto; [done|].
        apply String.eqb_neq in Hproto. by rewrite lookup_insert_ne. }
      destruct Hrecords as [?|Hrecords]; [done|].
      destruct (decide (a = show (address data))) as [->|Hdata].
      * rewrite assign_lookup_eq in Hm by done. injection Hm as <-.
        left. by exists [], data, records.
      * right. rewrite assign_lookup_ne in Hm by done.
        split; [right; by constructor|done].
Qed.

Lemma validEntry_stripTransport (address' : string) (data : Account) :
  validEntry address' (stripTransport data) <-> validEntry address' data.
Proof. split; intros []; by constructor. Qed.

Lemma forEach_Throw {A : Type} (f : A -> result unit) (l : list A)
  (e : exception) :
  forEach f l = Throw e -> exists x, x ∈ l /\ f x = Throw e.
Proof.
  induction l as [|x l IH]; simpl; [discriminate|].
  destruct (f x) as [[]|e'] eqn:Hx; simpl.
  - intros (y & Hy & Hthrow)%IH. exists y. split; [by right|done].
  - intros [= <-]. exists x. split; [by left|done].
Qed.

Lemma bind_Throw {A B : Type} (r : result A) (k : A -> result B)
  (e : exception) :
  r ≫= k = Throw e ->
  r = Throw e \/ exists a, r = Return a /\ k a = Throw e.
Proof.
  destruct r as [a|e']; simpl.
  - intros Hk. right. by exists a.
  - intros [= ->]. by left.
Qed.

Lemma assert_ok_Throw (cond : bool) (message : string) (e : exception) :
  assert_ok cond message = Throw e -> e = AssertionError message.
Proof. destruct cond; simpl; [discriminate|]. by intros [= <-]. Qed.

Lemma toLowerCase_of_Throw (value : option string) (e : exception) :
  toLowerCase_of value = Throw e ->
  value = None /\ e = TypeError "toLowerCase".
Proof. destruct value; simpl; [discriminate|]. by intros [= <-]. Qed.

Lemma checkStorageEntry_Throw (entry : string * string) (e : exception) :
  checkStorageEntry entry = Throw e -> exists message, e = AssertionError message.
Proof.
  destruct entry as [k v]. unfold checkStorageEntry.
  intros [Hkey%assert_ok_Throw | ([] & _ & Hvalue%assert_ok_Throw)]%bind_Throw;
    by eexists.
Qed.

Lemma checkAccount_Throw (address' : string) (account : Account)
  (e : exception) :
  checkAccount (address', account) = Throw e ->
  (exists message, e = AssertionError message)
  \/ (e = TypeError "toLowerCase"
      /\ (codeHash account = None \/ root account = None)).
Proof.
  unfold checkAccount, assert_equal, checkBalance.
  intros [?%assert_ok_Throw | ([] & _ & Hrun)]%bind_Throw; [by left; eexists|].
  apply bind_Throw in Hrun as [?%assert_ok_Throw | ([] & _ & Hrun)];
    [by left; eexists|].
  apply bind_Throw in Hrun as [[? ->]%toLowerCase_of_Throw | (? & _ & Hrun)];
    [right; by auto|].
  apply bind_Throw in Hrun as [?%assert_ok_Throw | ([] & _ & Hrun)];
    [by left; eexists|].
  apply bind_Throw in Hrun as [[? ->]%toLowerCase_of_Throw | (? & _ & Hrun)];
    [right; by auto|].
  apply bind_Throw in Hrun as [?%assert_ok_Throw | ([] & _ & Hrun)];
    [by left; eexists|].
  apply bind_Throw in Hrun as [Hcode | ([] & _ & Hrun)].
  { destruct (code account); [|discriminate].
    apply assert_ok_Throw in Hcode. by left; eexists. }
  apply bind_Throw in Hrun as [Hbalance | ([] & _ & Hrun)].
  { destruct (negb _); [|discriminate].
    apply assert_ok_Throw in Hbalance. by left; eexists. }
  destruct (storage account) as [entries|]; [|discriminate].
  apply forEach_Throw in Hrun as (entry & _ & Hentry%checkStorageEntry_Throw).
  by left.
Qed.

Section reading.
Context `{Externals}.

(** X23.  Reading a dump whose lines all parse and validating the result,
    as [main] does, succeeds exactly when, for each address other than
    [__proto__], the last account line with that address is valid by its
    own nonce, balance, code hash, storage root, code and storage, under
    the text of its address.  An account line that a later line with the
    same address replaces is not validated, and neither is a line whose
    address is [__proto__].  The records hold ASCII text. *)
Theorem reading_validates_the_last_line_of_each_address
  (first : string) (rest : list string) (firstData : Account)
  (records : list Account) :
  JSON_parse_line first = Some firstData ->
  Forall2 (fun line data => JSON_parse_line line = Some data) rest records ->
  Forall asciiRecord records ->
  (dump' ← await (readDumpFile (first :: rest)); checkStateDumpRoot dump')
  = Return tt
  <-> forall before data after,
        records = before ++ data :: after ->
        show (address data) <> "__proto__" ->
        Forall (fun later => show (address later) <> show (address data)) after ->
        validEntry (show (address data)) data.
Proof.
  intros Hfirst Hrest _. unfold readDumpFile.
  rewrite foldM_cons, (onData_first _ _ _ Hfirst).
  cbn [mbind result_bind].
  rewrite (foldM_onData_accounts _ _ _ Hrest).
  cbn [mbind result_bind fst await]. rewrite checkStateDumpRoot_Return.
  cbn [accounts]. split.
  - intros Hvalid before data after -> Hname Hafter.
    apply validEntry_stripTransport, Hvalid. by apply stored_last.
  - intros Hlast a account
      [(before & data & after & -> & <- & Hname & -> & Hafter) | [_ Hempty]]
      %stored_lookup.
    + by apply validEntry_stripTransport, (Hlast before data after).
    + cbv [emptyDump accounts] in Hempty. by rewrite lookup_empty in Hempty.
Qed.

End reading.

Lemma reading_validates_the_last_line_of_each_address_witness :
  (dump' ← await (@readDumpFile Sample.externals
                    [ Sample.rootLine; Sample.accountLine "0x0a" "7";
                      Sample.accountLine "0x0b" "0";
                      Sample.accountLine "__proto__" "0";
                      Sample.accountLine "0x0a" "0" ]);
   checkStateDumpRoot dump') = Return tt.
Proof.
  refine (proj2 (@reading_validates_the_last_line_of_each_address
                   Sample.externals Sample.rootLine
                   [ Sample.accountLine "0x0a" "7";
                     Sample.accountLine "0x0b" "0";
                     Sample.accountLine "__proto__" "0";
                     Sample.accountLine "0x0a" "0" ]
                   Sample.rootRecord
                   [ Sample.line "0x0a" "7"; Sample.line "0x0b" "0";
                     Sample.line "__proto__" "0"; Sample.line "0x0a" "0" ]
                   eq_refl _ _) _).
  - repeat constructor.
  - repeat (constructor;
            [ repeat split; try reflexivity; intros;
              simplify_eq/=; reflexivity |]).
    constructor.
  - intros before data after Hrecords Hname Hafter.
    apply checkAccount_Return.
    destruct before as [|? [|? [|? [|? before]]]]; simplify_eq/=;
      try reflexivity.
    + exfalso. apply Forall_cons in Hafter as [_ Hafter].
      apply Forall_cons in Hafter as [_ Hafter].
      apply Forall_cons in Hafter as [Hsame _]. by apply Hsame.
    + by destruct before.
Defined.

(** X24.  The validator raises nothing but failed assertions, except for
    the [TypeError] of calling [toLowerCase] on [undefined], which it
    raises only when an account of the dump lacks its code hash or its
    storage root. *)
Theorem checkStateDumpRoot_raises_assertions (dump' : StateDumpRoot)
  (e : exception) :
  checkStateDumpRoot dump' = Throw e ->
  (exists message, e = AssertionError message)
  \/ (e = TypeError "toLowerCase"
      /\ exists address' account,
           accounts dump' !! address' = Some account
           /\ (codeHash account = None \/ root account = None)).
Proof.
  unfold checkStateDumpRoot.
  intros ([a account] & Hin%elem_of_map_to_list & Hthrow)%forEach_Throw.
  apply checkAccount_Throw in Hthrow as [Hassertion | [-> Hmissing]];
    [by left|].
  right. split; [reflexivity|]. by exists a, account.
Qed.

Lemma checkStateDumpRoot_raises_assertions_witness :
  checkStateDumpRoot
    {| dump_root := Some "0xabc";
       accounts := {[ "0x0a" := Sample.rootRecord ]} |}
  = Throw (AssertionError "nonce is not a number: undefined")
  /\ ((exists message,
         AssertionError "nonce is not a number: undefined"
         = AssertionError message)
      \/ (AssertionError "nonce is not a number: undefined"
          = TypeError "toLowerCase"
          /\ exists address' account,
               ({[ "0x0a" := Sample.rootRecord ]} : gmap string Account)
                 !! address' = Some account
               /\ (codeHash account = None \/ root account = None))).
Proof.
  assert (checkStateDumpRoot
            {| dump_root := Some "0xabc";
               accounts := {[ "0x0a" := Sample.rootRecord ]} |}
          = Throw (AssertionError "nonce is not a number: undefined")) as Hrun
    by (by vm_compute).
  split; [exact Hrun|].
  exact (checkStateDumpRoot_raises_assertions _ _ Hrun).
Defined.

(** ** The compilers the handlers load *)

(** X25.  The handlers load compilers by the file names
    [solc-emscripten-wasm32-<version>.js] only: with a loader that agrees
    with the given one on these names, every handler gives the same result.
    In particular the relocation of the VERIFIED handler, which calls
    [getSolc] without the flag, loads no compiler under another name. *)
Theorem handlers_load_emscripten_builds_only (environment : Externals)
  (loader : string -> Compiler) (type : AccountType) (account : Account)
  (data : SurgeryDataSources) :
  (forall version,
     loader ("solc-emscripten-wasm32-" +:+ version +:+ ".js")
     = @require_solc environment
         ("solc-emscripten-wasm32-" +:+ version +:+ ".js")) ->
  @handlers (withCompilers environment loader) type account data
  = @handlers environment type account data.
Proof.
  intros Hagree. destruct type; try reflexivity.
  simpl. unfold handle_VERIFIED, getSolc.
  cbn [withCompilers require_solc COMPILER_VERSIONS_TO_SOLC].
  destruct (findContract account data) as [contract|]; [|reflexivity].
  by rewrite !Hagree.
Qed.

Lemma handlers_load_emscripten_builds_only_witness :
  @handlers
    (withCompilers Sample.externals
       (fun file =>
          if startsWith file "solc-emscripten-wasm32-" then Sample.compilers file
          else fun _ => Sample.artifact "ovm" []))
    VERIFIED (Sample.account "0xaa") Sample.data
  = @handlers Sample.externals VERIFIED (Sample.account "0xaa") Sample.data.
Proof.
  apply handlers_load_emscripten_builds_only.
  intros version.
  change ("solc-emscripten-wasm32-" +:+ version +:+ ".js")
    with ("solc-emscripten-wasm32-" +:+ (version +:+ ".js")).
  unfold startsWith. by rewrite prefix_append.
Defined.
